(** * helm-debugger: block model, structural mutator and search engine

    A shallow embedding of [parser.py], [executor.py], [line_searcher.py]
    and [searcher.py], and the properties of the search-and-reduction engine.

    - A Python [str] is a list of Unicode code points ([N]); a Python [int]
      is [Z]; [str.splitlines], [str.strip] and [str.rstrip] follow CPython.
    - The regular expressions of the source are values of [Re.regex].  The
      source only asks whether [pattern.search] finds a match, so [Re.search]
      decides whether some substring is in the language of the pattern.
    - [HelmExecutor.run_template] runs an external process.  Here it is a
      parameter: a transition on an abstract world that takes the chart it is
      pointed at and answers with a [HelmResult].  The temporary copy of the
      chart is the chart with the file of the template overwritten; the rest
      of the file system is not modelled.
    - A searcher is a computation in a small state-and-error monad over the
      world and the log of probes; [None] stands for a raised [IndexError].
      The optional [progress_callback] only reports the step just recorded
      and is left out. *)

From Stdlib Require Import ZArith NArith List Bool Lia String Ascii DecimalString.
From stdpp Require Import base tactics option list gmap.
From Equations Require Import Equations.

Local Open Scope Z_scope.

(** ** Python strings *)

Abbreviation char := N (only parsing).
Abbreviation str := (list N) (only parsing).

Fixpoint of_string (s : string) : str :=
  match s with
  | EmptyString => []
  | String a s' => N_of_ascii a :: of_string s'
  end.

Module PyStr.

Definition LF : char := 10%N.
Definition CR : char := 13%N.

(** [str.isspace] on one code point (CPython's [_PyUnicode_IsWhitespace]);
    it is also what [\s] matches in a [str] pattern and what [str.strip()]
    removes. *)
Definition isspace (c : char) : bool :=
  ((9 <=? c) && (c <=? 13) || (28 <=? c) && (c <=? 32)
   || (c =? 133) || (c =? 160) || (c =? 5760)
   || (8192 <=? c) && (c <=? 8202)
   || (c =? 8232) || (c =? 8233) || (c =? 8239) || (c =? 8287)
   || (c =? 12288))%N.

(** Line boundaries of [str.splitlines] (CPython's
    [_PyUnicode_IsLinebreak]). *)
Definition islinebreak (c : char) : bool :=
  ((10 <=? c) && (c <=? 13) || (28 <=? c) && (c <=? 30)
   || (c =? 133) || (c =? 8232) || (c =? 8233))%N.

Fixpoint lstrip_by (p : char -> bool) (s : str) : str :=
  match s with
  | [] => []
  | c :: s' => if p c then lstrip_by p s' else s
  end.

Definition rstrip_by (p : char -> bool) (s : str) : str :=
  rev (lstrip_by p (rev s)).

(** [s.strip()] *)
Definition strip (s : str) : str := rstrip_by isspace (lstrip_by isspace s).

(** [s.rstrip(chars)] *)
Definition rstrip (chars : str) (s : str) : str :=
  rstrip_by (fun c => existsb (N.eqb c) chars) s.

(** Put [c] in front of the first line of [ls]. *)
Definition cons_line (c : char) (ls : list str) : list str :=
  match ls with
  | [] => [[c]]
  | l :: ls' => (c :: l) :: ls'
  end.

(** [s.splitlines(keepends)]: a line ends at a line boundary, ["\r\n"]
    counts as one boundary, and there is no empty last line. *)
Fixpoint splitlines (keepends : bool) (s : str) : list str :=
  match s with
  | [] => []
  | c :: s' =>
      if islinebreak c then
        match s' with
        | c2 :: s'' =>
            if (c =? CR)%N && (c2 =? LF)%N
            then (if keepends then [c; c2] else []) :: splitlines keepends s''
            else (if keepends then [c] else []) :: splitlines keepends s'
        | [] => [if keepends then [c] else []]
        end
      else cons_line c (splitlines keepends s')
  end.

(** ["".join(ls)] *)
Definition join (ls : list str) : str := concat ls.

(** [str(n)] for an integer, as used by the f-strings. *)
Definition of_Z (n : Z) : str := of_string (NilZero.string_of_int (Z.to_int n)).

End PyStr.

(** [enumerate(l)] *)
Fixpoint enumerate_from {A} (i : Z) (l : list A) : list (Z * A) :=
  match l with
  | [] => []
  | x :: l' => (i, x) :: enumerate_from (i + 1) l'
  end.
Definition enumerate {A} (l : list A) : list (Z * A) := enumerate_from 0 l.

(** [len(l)] *)
Definition len {A} (l : list A) : Z := Z.of_nat (length l).

(** ** Regular expressions ([re]) *)

Module Re.

Inductive regex : Type :=
| Void
| Eps
| Sym (p : char -> bool)
| Cat (r1 r2 : regex)
| Alt (r1 r2 : regex)
| Star (r : regex).

Definition Chr (c : char) : regex := Sym (N.eqb c).
Definition Lit (s : string) : regex :=
  fold_right (fun c r => Cat (Chr c) r) Eps (of_string s).
Definition Opt (r : regex) : regex := Alt r Eps.
Definition Plus (r : regex) : regex := Cat r (Star r).
(** [\s] *)
Definition Space : regex := Sym PyStr.isspace.
(** [.] under [re.DOTALL] *)
Definition Dot : regex := Sym (fun _ => true).

(** Concatenation of the pieces of a pattern, left to right. *)
Fixpoint cats (rs : list regex) : regex :=
  match rs with
  | [] => Eps
  | r :: rs' => Cat r (cats rs')
  end.

(** The language of a regular expression. *)
Inductive matches : regex -> str -> Prop :=
| m_eps : matches Eps []
| m_sym p c : p c = true -> matches (Sym p) [c]
| m_cat r1 r2 w1 w2 : matches r1 w1 -> matches r2 w2 -> matches (Cat r1 r2) (w1 ++ w2)
| m_alt_l r1 r2 w : matches r1 w -> matches (Alt r1 r2) w
| m_alt_r r1 r2 w : matches r2 w -> matches (Alt r1 r2) w
| m_star_nil r : matches (Star r) []
| m_star_cons r w1 w2 : matches r w1 -> matches (Star r) w2 -> matches (Star r) (w1 ++ w2).

Fixpoint nullable (r : regex) : bool :=
  match r with
  | Void => false
  | Eps => true
  | Sym _ => false
  | Cat r1 r2 => nullable r1 && nullable r2
  | Alt r1 r2 => nullable r1 || nullable r2
  | Star _ => true
  end.

Definition cat' (r1 r2 : regex) : regex :=
  match r1, r2 with
  | Void, _ => Void
  | _, Void => Void
  | Eps, _ => r2
  | _, _ => Cat r1 r2
  end.

Definition alt' (r1 r2 : regex) : regex :=
  match r1, r2 with
  | Void, _ => r2
  | _, Void => r1
  | _, _ => Alt r1 r2
  end.

(** Brzozowski derivative. *)
Fixpoint deriv (c : char) (r : regex) : regex :=
  match r with
  | Void => Void
  | Eps => Void
  | Sym p => if p c then Eps else Void
  | Cat r1 r2 =>
      if nullable r1
      then alt' (cat' (deriv c r1) r2) (deriv c r2)
      else cat' (deriv c r1) r2
  | Alt r1 r2 => alt' (deriv c r1) (deriv c r2)
  | Star r1 => cat' (deriv c r1) (Star r1)
  end.

(** [pattern.match(s) is not None]: some prefix of [s] is in the language. *)
Fixpoint match_ (r : regex) (s : str) : bool :=
  nullable r ||
  match s with
  | [] => false
  | c :: s' => match_ (deriv c r) s'
  end.

(** [pattern.search(s) is not None]: some substring of [s] is in the
    language. *)
Fixpoint search (r : regex) (s : str) : bool :=
  match_ r s ||
  match s with
  | [] => false
  | _ :: s' => search r s'
  end.

End Re.

(** ** parser.py *)

Module Parser.
Import Re.

Inductive BlockType : Set :=
| PLAIN | EXPRESSION | IF | ELSE | ELSE_IF | END
| RANGE | WITH | DEFINE | TEMPLATE | INCLUDE | COMMENT.

Abbreviation path := (list N) (only parsing).

Record TemplateBlock : Type := mkTemplateBlock {
  block_type : BlockType;
  content : str;
  start_line : Z;
  end_line : Z;
  block_file_path : option path;
  nesting_level : Z
}.

Record ParsedTemplate : Type := mkParsedTemplate {
  file_path : path;
  blocks : list TemplateBlock;
  original_content : str
}.

(** [ParsedTemplate.total_lines] *)
Definition total_lines (t : ParsedTemplate) : Z :=
  match original_content t with
  | [] => 0
  | _ => len (PyStr.splitlines false (original_content t))
  end.

Inductive pattern_name : Set :=
| k_if_start | k_else_if | k_else | k_end | k_range_start | k_with_start
| k_define_start | k_template | k_include | k_comment | k_expression.

(** The opening of an action, [\{\{-?\s*]. *)
Definition action_open : list regex := [Lit "{{"; Opt (Lit "-"); Star Space].

(** [TemplateParser.PATTERNS] *)
Definition PATTERNS (k : pattern_name) : regex :=
  match k with
  | k_if_start => cats (action_open ++ [Lit "if"; Plus Space])
  | k_else_if => cats (action_open ++ [Lit "else"; Plus Space; Lit "if"; Plus Space])
  | k_else => cats (action_open ++ [Lit "else"; Star Space; Opt (Lit "-"); Lit "}}"])
  | k_end => cats (action_open ++ [Lit "end"; Star Space; Opt (Lit "-"); Lit "}}"])
  | k_range_start => cats (action_open ++ [Lit "range"; Plus Space])
  | k_with_start => cats (action_open ++ [Lit "with"; Plus Space])
  | k_define_start => cats (action_open ++ [Lit "define"; Plus Space])
  | k_template => cats (action_open ++ [Lit "template"; Plus Space])
  | k_include => cats (action_open ++ [Lit "include"; Plus Space])
  | k_comment => cats [Lit "{{/*"; Star Dot; Lit "*/}}"]
  | k_expression => cats [Lit "{{"; Opt (Lit "-"); Star Dot; Opt (Lit "-"); Lit "}}"]
  end.

(** [TemplateParser._detect_block_type] *)
Definition _detect_block_type (line : str) : BlockType :=
  let stripped := PyStr.strip line in
  if search (PATTERNS k_comment) stripped then COMMENT
  else if search (PATTERNS k_else_if) stripped then ELSE_IF
  else if search (PATTERNS k_else) stripped then ELSE
  else if search (PATTERNS k_end) stripped then END
  else if search (PATTERNS k_if_start) stripped then IF
  else if search (PATTERNS k_range_start) stripped then RANGE
  else if search (PATTERNS k_with_start) stripped then WITH
  else if search (PATTERNS k_define_start) stripped then DEFINE
  else if search (PATTERNS k_template) stripped then TEMPLATE
  else if search (PATTERNS k_include) stripped then INCLUDE
  else if search (PATTERNS k_expression) stripped then EXPRESSION
  else PLAIN.

(** [block_type in (IF, RANGE, WITH, DEFINE)] *)
Definition opens (ty : BlockType) : bool :=
  match ty with IF | RANGE | WITH | DEFINE => true | _ => false end.
Definition closes (ty : BlockType) : bool :=
  match ty with END => true | _ => false end.
(** [block_type in (ELSE, ELSE_IF)] *)
Definition continues (ty : BlockType) : bool :=
  match ty with ELSE | ELSE_IF => true | _ => false end.

Definition is_empty {A} (l : list A) : bool :=
  match l with [] => true | _ => false end.

(** The [while i < len(lines)] loop of [_parse_content]; [lines] is what is
    left from index [i] on. *)
Fixpoint parse_loop (fp : path) (lines : list str)
    (current_line nesting_level : Z) (blocks : list TemplateBlock)
    : list TemplateBlock :=
  match lines with
  | [] => blocks
  | line :: rest =>
      let line_stripped := PyStr.strip line in
      if is_empty line_stripped then
        parse_loop fp rest (current_line + 1) nesting_level blocks
      else
        let block_type := _detect_block_type line in
        if opens block_type then
          let block := mkTemplateBlock block_type line current_line current_line
                         (Some fp) nesting_level in
          parse_loop fp rest (current_line + 1) (nesting_level + 1) (blocks ++ [block])
        else if closes block_type then
          let nesting_level := Z.max 0 (nesting_level - 1) in
          let block := mkTemplateBlock block_type line current_line current_line
                         (Some fp) nesting_level in
          parse_loop fp rest (current_line + 1) nesting_level (blocks ++ [block])
        else if continues block_type then
          let block := mkTemplateBlock block_type line current_line current_line
                         (Some fp) (Z.max 0 (nesting_level - 1)) in
          parse_loop fp rest (current_line + 1) nesting_level (blocks ++ [block])
        else
          let block := mkTemplateBlock block_type line current_line current_line
                         (Some fp) nesting_level in
          parse_loop fp rest (current_line + 1) nesting_level (blocks ++ [block])
  end.

(** [TemplateParser._parse_content] *)
Definition _parse_content (content : str) (fp : path) : list TemplateBlock :=
  parse_loop fp (PyStr.splitlines true content) 1 0 [].

(** [TemplateParser.parse_file], on the text read from the file. *)
Definition parse_file (fp : path) (content : str) : ParsedTemplate :=
  mkParsedTemplate fp (_parse_content content fp) content.

End Parser.

(** ** Python lists and ranges *)

(** [range(a, b)] *)
Definition range (a b : Z) : list Z := seqZ a (b - a).

(** [l[:j]] *)
Definition slice_to {A} (l : list A) (j : Z) : list A :=
  if j <? 0 then take (Z.to_nat (len l + j)) l else take (Z.to_nat j) l.

(** [l[i]]; [None] stands for [IndexError]. *)
Definition getitem {A} (l : list A) (i : Z) : option A :=
  if 0 <=? i then l !! Z.to_nat i
  else if 0 <=? len l + i then l !! Z.to_nat (len l + i)
  else None.

(** ** executor.py: block-range reduction *)

Module Executor.
Import Parser.

Record HelmResult : Type := mkHelmResult {
  success : bool;
  stdout : str;
  stderr : str;
  exit_code : Z;
  command : list str
}.

(** What [HelmExecutor.run_template] is pointed at: the chart as it is on
    disk, or the temporary copy in which the file of the template under
    test has been overwritten with [text]. *)
Inductive chart : Type :=
| OriginalChart
| TempChart (file : path) (text : str).

(** The two nested loops that fill [included_lines]. *)
Definition included_lines (blocks_to_include : list TemplateBlock) : gset Z :=
  fold_left
    (fun included block =>
       fold_left (fun included line_num => included ∪ {[ line_num ]})
                 (range (start_line block) (end_line block + 1)) included)
    blocks_to_include ∅.

(** [f"{{{{/* {stripped} */}}}}\n"] *)
Definition commented_out (stripped : str) : str :=
  of_string "{{/* " ++ stripped ++ of_string " */}}" ++ [PyStr.LF].

(** The text that [IncrementalExecutor._create_partial_template] writes to
    the copy of the template file. *)
Definition _create_partial_template (t : ParsedTemplate)
    (blocks_to_include : list TemplateBlock) : str :=
  let included := included_lines blocks_to_include in
  let original_lines := PyStr.splitlines true (original_content t) in
  let new_lines :=
    fold_left
      (fun new_lines '(i, line) =>
         let line_num := i + 1 in
         if bool_decide (line_num ∈ included) then new_lines ++ [line]
         else
           let stripped := PyStr.rstrip [PyStr.LF; PyStr.CR] line in
           if is_empty (PyStr.strip stripped)
           then new_lines ++ [line]
           else new_lines ++ [commented_out stripped])
      (enumerate original_lines) [] in
  PyStr.join new_lines.

(** *** The renderer and the probes

    [HelmExecutor.run_template] starts an external process; here it is a
    transition on an abstract world.  [probed] is the log of the charts
    handed to it so far, oldest first. *)
Record Env (World : Type) : Type := mkEnv {
  world : World;
  probed : list chart
}.
Arguments mkEnv {World}.
Arguments world {World}.
Arguments probed {World}.

(** Computations that call the renderer and may raise ([None]). *)
Definition M (World A : Type) : Type := Env World -> option (A * Env World).
Definition ret {World A} (x : A) : M World A := fun e => Some (x, e).
Definition bind {World A B} (m : M World A) (k : A -> M World B) : M World B :=
  fun e => match m e with
           | Some (x, e') => k x e'
           | None => None
           end.
Definition lift {World A} (f : Env World -> A * Env World) : M World A :=
  fun e => Some (f e).
Definition try_ {World A} (o : option A) : M World A :=
  fun e => match o with
           | Some x => Some (x, e)
           | None => None
           end.

Section Oracle.
Context {World : Type}.
Variable run_template : chart -> World -> HelmResult * World.

(** One call of [HelmExecutor.run_template]. *)
Definition run (c : chart) (e : Env World) : HelmResult * Env World :=
  let '(r, w) := run_template c (world e) in
  (r, mkEnv w (probed e ++ [c])).

(** [IncrementalExecutor.execute_with_blocks] *)
Definition execute_with_blocks (t : ParsedTemplate)
    (blocks_to_include : list TemplateBlock) : Env World -> HelmResult * Env World :=
  run (TempChart (file_path t) (_create_partial_template t blocks_to_include)).

(** [IncrementalExecutor.execute_up_to_block] *)
Definition execute_up_to_block (t : ParsedTemplate) (block_index : Z)
    : Env World -> HelmResult * Env World :=
  execute_with_blocks t (slice_to (blocks t) (block_index + 1)).

(** [IncrementalExecutor.validate_full_template] *)
Definition validate_full_template : Env World -> HelmResult * Env World :=
  run OriginalChart.
End Oracle.

End Executor.

#[export] Instance M_ret {World} : MRet (Executor.M World) := @Executor.ret World.
#[export] Instance M_bind {World} : MBind (Executor.M World) :=
  fun A B k m => Executor.bind m k.

(** ** line_searcher.py *)

Module LineSearcher.
Import Re Parser Executor.

(** [TemplateStructureAnalyzer.CONTROL_PATTERNS] *)
Definition CONTROL_PATTERNS : list regex :=
  [ cats (action_open ++ [Lit "if"; Space]);
    cats (action_open ++ [Lit "else"; Star Space; Opt (Lit "-"); Lit "}}"]);
    cats (action_open ++ [Lit "else"; Plus Space; Lit "if"; Space]);
    cats (action_open ++ [Lit "end"; Star Space; Opt (Lit "-"); Lit "}}"]);
    cats (action_open ++ [Lit "range"; Space]);
    cats (action_open ++ [Lit "with"; Space]);
    cats (action_open ++ [Lit "define"; Space]);
    cats (action_open ++ [Lit "template"; Space]);
    cats (action_open ++ [Lit "block"; Space]) ].

(** [TemplateStructureAnalyzer.is_control_line] *)
Definition is_control_line (line : str) : bool :=
  existsb (fun pattern => search pattern line) CONTROL_PATTERNS.

(** [TemplateStructureAnalyzer.get_structure_map] *)
Definition get_structure_map (content : str) : gmap Z bool :=
  let lines := PyStr.splitlines false content in
  fold_left
    (fun structure_map '(i, line) =>
       let line_num := i + 1 in
       <[ line_num := is_control_line line ]> structure_map)
    (enumerate lines) ∅.

(** The lines that [LineBasedExecutor._create_partial_by_line] joins. *)
Definition partial_lines (t : ParsedTemplate) (end_line : Z) : list str :=
  let lines := PyStr.splitlines true (original_content t) in
  let structure_map := get_structure_map (original_content t) in
  fold_left
    (fun new_lines '(i, line) =>
       let line_num := i + 1 in
       if line_num <=? end_line then new_lines ++ [line]
       else if default false (structure_map !! line_num) then new_lines ++ [line]
       else
         let stripped := PyStr.rstrip [PyStr.LF; PyStr.CR] line in
         if is_empty (PyStr.strip stripped)
         then new_lines ++ [line]
         else new_lines ++ [[PyStr.LF]])
    (enumerate lines) [].

(** The text that [LineBasedExecutor._create_partial_by_line] writes to the
    copy of the template file. *)
Definition _create_partial_by_line (t : ParsedTemplate) (end_line : Z) : str :=
  PyStr.join (partial_lines t end_line).

Record LineSearchStep : Type := mkLineSearchStep {
  step_number : Z;
  lines_tested : str;
  result : HelmResult;
  line_number : option Z
}.

(** [LineSearchStep.passed] *)
Definition passed (s : LineSearchStep) : bool := success (result s).

Record LineSearchResult : Type := mkLineSearchResult {
  found_error : bool;
  failing_line : option Z;
  failing_content : option str;
  last_successful_line : option Z;
  steps : list LineSearchStep;
  error_result : option HelmResult;
  last_successful_result : option HelmResult;
  template : option ParsedTemplate;
  context_before : list str;
  context_after : list str
}.

(** [LineSearchResult(found_error=False, template=template)] and the like:
    the fields left out take their defaults. *)
Definition no_error (last_successful_line : option Z) (steps : list LineSearchStep)
    (t : ParsedTemplate) : LineSearchResult :=
  mkLineSearchResult false None None last_successful_line steps None None (Some t) [] [].

(** [f"1-{n}"] *)
Definition tested (n : Z) : str := of_string "1-" ++ PyStr.of_Z n.

(** [lines[n - 1] if n <= len(lines) else ""] *)
Definition content_at (lines : list str) (n : Z) : option str :=
  if n <=? len lines then getitem lines (n - 1) else Some [].

(** The loop that fills [context_before]. *)
Definition before (lines : list str) (n : Z) : option (list str) :=
  fold_left
    (fun acc i =>
       context_before ← acc;
       if i <? len lines
       then line ← getitem lines i; Some (context_before ++ [line])
       else Some context_before)
    (range (Z.max 0 (n - 4)) (n - 1)) (Some []).

(** The loop that fills [context_after]. *)
Definition after (lines : list str) (n : Z) : option (list str) :=
  fold_left
    (fun acc i =>
       context_after ← acc;
       line ← getitem lines i; Some (context_after ++ [line]))
    (range n (Z.min (len lines) (n + 3))) (Some []).

Section Search.
Context {World : Type}.
Variable run_template : chart -> World -> HelmResult * World.

(** [LineBasedExecutor.execute_up_to_line] *)
Definition execute_up_to_line (t : ParsedTemplate) (end_line : Z)
    : Env World -> HelmResult * Env World :=
  run run_template (TempChart (file_path t) (_create_partial_by_line t end_line)).

(** The [while low <= high] loop of [LineBinarySearcher.search]; it
    returns [last_successful], [failing_line], [last_successful_result]
    and [steps] as they are when the loop is left. *)
Equations? bisect (t : ParsedTemplate) (low high last_successful : Z)
    (failing_line : option Z) (last_successful_result : option HelmResult)
    (steps : list LineSearchStep) (step_number : Z) (e : Env World)
    : Z * option Z * option HelmResult * list LineSearchStep * Env World
    by wf (Z.to_nat (high - low + 1)) lt :=
  bisect t low high last_successful failing_line last_successful_result
         steps step_number e with decide (low <= high) := {
    | right _ =>
        (last_successful, failing_line, last_successful_result, steps, e)
    | left _ =>
        let mid := (low + high) `div` 2 in
        let step_number := step_number + 1 in
        let re := execute_up_to_line t mid e in
        let step := mkLineSearchStep step_number (tested mid) (fst re) (Some mid) in
        let steps := steps ++ [step] in
        if success (fst re)
        then bisect t (mid + 1) high mid failing_line (Some (fst re))
                    steps step_number (snd re)
        else bisect t low (mid - 1) last_successful (Some mid)
                    last_successful_result steps step_number (snd re)
    }.
Proof.
  all: subst mid; Z.div_mod_to_equations; lia.
Qed.

(** [LineBinarySearcher.search] *)
Definition LineBinarySearcher_search (t : ParsedTemplate) : M World LineSearchResult :=
  let total_lines := total_lines t in
  if total_lines =? 0
  then ret (no_error None [] t)
  else
    '(last_successful, failing_line, last_successful_result, steps) ←
       lift (bisect t 1 total_lines 0 None None [] 0);
    match failing_line with
    | Some failing_line =>
        let lines := PyStr.splitlines false (original_content t) in
        failing_content ← try_ (content_at lines failing_line);
        context_before ← try_ (before lines failing_line);
        context_after ← try_ (after lines failing_line);
        error_result ← lift (execute_up_to_line t failing_line);
        ret (mkLineSearchResult true (Some failing_line) (Some failing_content)
               (if 0 <? last_successful then Some last_successful else None)
               steps (Some error_result) last_successful_result (Some t)
               context_before context_after)
    | None => ret (no_error None steps t)
    end.

(** The [for line_num in range(start_line, total_lines + 1)] loop of
    [LineStepByStepSearcher.search] and the [return] that follows it;
    [todo] is what is left of the range. *)
Fixpoint step_loop (t : ParsedTemplate) (start_line : Z) (todo : list Z)
    (last_successful : Z) (last_successful_result : option HelmResult)
    (steps : list LineSearchStep) : M World LineSearchResult :=
  match todo with
  | [] => ret (no_error (Some (total_lines t)) steps t)
  | line_num :: todo' =>
      result ← lift (execute_up_to_line t line_num);
      let step := mkLineSearchStep (line_num - start_line + 1) (tested line_num)
                    result (Some line_num) in
      let steps := steps ++ [step] in
      if success result
      then step_loop t start_line todo' line_num (Some result) steps
      else
        let lines := PyStr.splitlines false (original_content t) in
        failing_content ← try_ (content_at lines line_num);
        context_before ← try_ (before lines line_num);
        context_after ← try_ (after lines line_num);
        ret (mkLineSearchResult true (Some line_num) (Some failing_content)
               (if 0 <? last_successful then Some last_successful else None)
               steps (Some result) last_successful_result (Some t)
               context_before context_after)
  end.

(** [LineStepByStepSearcher.search] *)
Definition LineStepByStepSearcher_search (t : ParsedTemplate) (start_line : Z)
    : M World LineSearchResult :=
  let total_lines := total_lines t in
  if total_lines =? 0
  then ret (no_error None [] t)
  else step_loop t start_line (range start_line (total_lines + 1)) 0 None [].
End Search.

End LineSearcher.

(** ** searcher.py *)

Module Searcher.
Import Parser Executor.

Record SearchStep : Type := mkSearchStep {
  step_number : Z;
  blocks_tested : str;
  result : HelmResult;
  block_index : option Z
}.

(** [SearchStep.passed] *)
Definition passed (s : SearchStep) : bool := success (result s).

Record SearchResult : Type := mkSearchResult {
  found_error : bool;
  failing_block : option TemplateBlock;
  failing_block_index : option Z;
  last_successful_block_index : option Z;
  steps : list SearchStep;
  error_result : option HelmResult;
  template : option ParsedTemplate
}.

(** [f"0-{i}"] *)
Definition tested (i : Z) : str := of_string "0-" ++ PyStr.of_Z i.

Section Search.
Context {World : Type}.
Variable run_template : chart -> World -> HelmResult * World.

(** The [while low <= high] loop of [BinarySearcher.search]; it returns
    [last_successful], [failing_index] and [steps] as they are when the
    loop is left. *)
Equations? bisect (t : ParsedTemplate) (low high last_successful : Z)
    (failing_index : option Z) (steps : list SearchStep) (step_number : Z)
    (e : Env World)
    : Z * option Z * list SearchStep * Env World
    by wf (Z.to_nat (high - low + 1)) lt :=
  bisect t low high last_successful failing_index steps step_number e with decide (low <= high) := {
    | right _ => (last_successful, failing_index, steps, e)
    | left _ =>
        let mid := (low + high) `div` 2 in
        let step_number := step_number + 1 in
        let re := execute_up_to_block run_template t mid e in
        let step := mkSearchStep step_number (tested mid) (fst re) (Some mid) in
        let steps := steps ++ [step] in
        if success (fst re)
        then bisect t (mid + 1) high mid failing_index steps step_number (snd re)
        else bisect t low (mid - 1) last_successful (Some mid) steps step_number (snd re)
    }.
Proof.
  all: subst mid; Z.div_mod_to_equations; lia.
Qed.

(** [BinarySearcher.search] *)
Definition BinarySearcher_search (t : ParsedTemplate) : M World SearchResult :=
  let blocks := blocks t in
  if is_empty blocks
  then ret (mkSearchResult false None None None [] None (Some t))
  else
    let total_blocks := len blocks in
    let steps := [] in
    let step_number := 0 in
    full_result ← lift (validate_full_template run_template);
    if success full_result
    then ret (mkSearchResult false None None None steps None (Some t))
    else
      '(last_successful, failing_index, steps) ←
         lift (bisect t 0 (total_blocks - 1) (-1) None steps step_number);
      match failing_index with
      | Some failing_index =>
          failing_block ← try_ (getitem blocks failing_index);
          error_result ← lift (execute_up_to_block run_template t failing_index);
          ret (mkSearchResult true (Some failing_block) (Some failing_index)
                 (if 0 <=? last_successful then Some last_successful else None)
                 steps (Some error_result) (Some t))
      | None => ret (mkSearchResult false None None None steps None (Some t))
      end.

(** The [for i in range(start_from, len(blocks))] loop of
    [StepByStepSearcher.search] and the [return] that follows it; [todo]
    is what is left of the range. *)
Fixpoint step_loop (t : ParsedTemplate) (start_from : Z) (todo : list Z)
    (last_successful : Z) (steps : list SearchStep) : M World SearchResult :=
  match todo with
  | [] =>
      ret (mkSearchResult false None None (Some (len (blocks t) - 1)) steps
             None (Some t))
  | i :: todo' =>
      result ← lift (execute_up_to_block run_template t i);
      let step := mkSearchStep (i - start_from + 1) (tested i) result (Some i) in
      let steps := steps ++ [step] in
      if success result
      then step_loop t start_from todo' i steps
      else
        failing_block ← try_ (getitem (blocks t) i);
        ret (mkSearchResult true (Some failing_block) (Some i)
               (if 0 <=? last_successful then Some last_successful else None)
               steps (Some result) (Some t))
  end.

(** [StepByStepSearcher.search] *)
Definition StepByStepSearcher_search (t : ParsedTemplate) (start_from : Z)
    : M World SearchResult :=
  let blocks := blocks t in
  if is_empty blocks
  then ret (mkSearchResult false None None None [] None (Some t))
  else step_loop t start_from (range start_from (len blocks)) (-1) [].
End Search.

End Searcher.

(** ** Vocabulary of the specification *)

Module Spec.
Import Re Parser Executor.

(** A blank line: nothing is left after [strip]. *)
Definition blank (line : str) : bool := is_empty (PyStr.strip line).

(** Ordered pattern precedence, first match wins:
    comment > else-if > else > close > open (if/range/with/define) >
    cross-reference (template/include) > expression > plain. *)
Definition precedence : list (regex * BlockType) :=
  [ (PATTERNS k_comment, COMMENT);
    (PATTERNS k_else_if, ELSE_IF);
    (PATTERNS k_else, ELSE);
    (PATTERNS k_end, END);
    (PATTERNS k_if_start, IF);
    (PATTERNS k_range_start, RANGE);
    (PATTERNS k_with_start, WITH);
    (PATTERNS k_define_start, DEFINE);
    (PATTERNS k_template, TEMPLATE);
    (PATTERNS k_include, INCLUDE);
    (PATTERNS k_expression, EXPRESSION) ].

Fixpoint first_match (rules : list (regex * BlockType)) (s : str) : BlockType :=
  match rules with
  | [] => PLAIN
  | (r, ty) :: rules' => if search r s then ty else first_match rules' s
  end.

(** The running nesting counter: an open adds one, a close takes one away
    and stops at zero. *)
Definition depth_step (d : Z) (ty : BlockType) : Z :=
  if opens ty then d + 1
  else if closes ty then Z.max 0 (d - 1)
  else d.

Definition depth_from (d : Z) (units : list TemplateBlock) : Z :=
  fold_left depth_step (map block_type units) d.

(** The counter after a sequence of units, from the start of the document. *)
Definition depth_after (units : list TemplateBlock) : Z := depth_from 0 units.

(** The level written on a unit of kind [ty] that is met at depth [d]. *)
Definition recorded (ty : BlockType) (d : Z) : Z :=
  if closes ty || continues ty then Z.max 0 (d - 1) else d.

Definition count_opens (units : list TemplateBlock) : Z :=
  len (List.filter (fun b => opens (block_type b)) units).
Definition count_closes (units : list TemplateBlock) : Z :=
  len (List.filter (fun b => closes (block_type b)) units).

(** Opens minus closes, clamped at zero. *)
Definition clamped_balance (units : list TemplateBlock) : Z :=
  Z.max 0 (count_opens units - count_closes units).

(** The level of the unit at index [i], and 0 past the end. *)
Definition level_at (units : list TemplateBlock) (i : nat) : Z :=
  match units !! i with
  | Some b => nesting_level b
  | None => 0
  end.

(** No prefix of [units] has more closes than opens. *)
Definition never_overclosed (units : list TemplateBlock) : Prop :=
  forall j : nat, count_closes (take j units) <= count_opens (take j units).

(** The units of [lines], numbered from [c] and met at depth [d]: one per
    line that is not blank. *)
Fixpoint units (fp : path) (c d : Z) (lines : list str) : list TemplateBlock :=
  match lines with
  | [] => []
  | line :: rest =>
      if blank line then units fp (c + 1) d rest
      else
        let ty := _detect_block_type line in
        mkTemplateBlock ty line c c (Some fp) (recorded ty d)
          :: units fp (c + 1) (depth_step d ty) rest
  end.

End Spec.

(** ** Vocabulary of the specification: reduction *)

Module Cut.
Import Re Parser Executor LineSearcher Spec.

(** What line-cutoff reduction makes of line number [n]: [line] is the line
    with its boundary, [l0] the same line without it. *)
Definition cut_line (N n : Z) (line l0 : str) : str :=
  if n <=? N then line
  else if is_control_line l0 then line
  else if blank line then line
  else [PyStr.LF].

Fixpoint cut_lines (N n : Z) (keep bare : list str) : list str :=
  match keep, bare with
  | line :: keep', l0 :: bare' => cut_line N n line l0 :: cut_lines N (n + 1) keep' bare'
  | _, _ => []
  end.

(** The line written for a line by block-range reduction; [il] is the
    index of the line and the line. *)
Definition block_line (included : gset Z) (il : Z * str) : str :=
  if bool_decide (il.1 + 1 ∈ included) then il.2
  else if blank il.2 then il.2
  else commented_out (PyStr.rstrip [PyStr.LF; PyStr.CR] il.2).

(** How many of [lines] have a kind that satisfies [P]. *)
Definition count_kind (P : BlockType -> bool) (lines : list str) : nat :=
  length (List.filter (fun l => P (_detect_block_type l)) lines).

(** The kinds that the specification calls control constructs: open, close,
    continuation, cross-reference. *)
Definition control_kind (ty : BlockType) : bool :=
  match ty with
  | IF | RANGE | WITH | DEFINE | END | ELSE | ELSE_IF | TEMPLATE | INCLUDE => true
  | _ => false
  end.

(** The same without [include]. *)
Definition kept_kind (ty : BlockType) : bool :=
  match ty with
  | IF | RANGE | WITH | DEFINE | END | ELSE | ELSE_IF | TEMPLATE => true
  | _ => false
  end.

(** The original document restricted to lines [1..N], plus all the lines
    beyond [N] that hold a control construct; [keep] is what is left of the
    lines of the document from line [n] on.  What makes a line a control
    construct here is its kind for the parser, not the answer of the
    analyzer that the reduction asks. *)
Fixpoint skeleton (N n : Z) (keep : list str) : list str :=
  match keep with
  | [] => []
  | line :: keep' =>
      (if (n <=? N) || control_kind (_detect_block_type line) then [line] else [])
        ++ skeleton N (n + 1) keep'
  end.

End Cut.

(** ** Vocabulary of the specification: search *)

Module Trail.
Import Parser Executor LineSearcher.

(** The chart probed for the blocks up to index [i]. *)
Definition block_chart (t : ParsedTemplate) (i : Z) : chart :=
  TempChart (file_path t) (_create_partial_template t (slice_to (blocks t) (i + 1))).

(** The chart probed for the lines up to line [n]. *)
Definition line_chart (t : ParsedTemplate) (n : Z) : chart :=
  TempChart (file_path t) (_create_partial_by_line t n).

Section Trail.
Context {World : Type}.
Variable run_template : chart -> World -> HelmResult * World.

(** [probes_from e trail e']: from [e], the renderer was called on the
    charts of [trail], in this order and on nothing else, gave the
    results of [trail], and left [e']. *)
Inductive probes_from : Env World -> list (chart * HelmResult) -> Env World -> Prop :=
| probes_nil e : probes_from e [] e
| probes_cons e c r e1 trail e' :
    run run_template c e = (r, e1) ->
    probes_from e1 trail e' ->
    probes_from e ((c, r) :: trail) e'.

(** Bisection for the first failing cutoff in [low..high], as the
    specification words it; [probe mid] is one call of the renderer on
    the document cut at [mid].  It gives back the last cutoff that
    passed, the last that failed and the probes made, oldest first. *)
Equations? bisection (probe : Z -> Env World -> HelmResult * Env World)
    (low high last_good : Z) (failing : option Z) (e : Env World)
    : Z * option Z * list (Z * HelmResult) * Env World
    by wf (Z.to_nat (high - low + 1)) lt :=
  bisection probe low high last_good failing e with decide (low <= high) := {
    | right _ => (last_good, failing, [], e)
    | left _ =>
        let mid := (low + high) `div` 2 in
        let re := probe mid e in
        let rest :=
          if success (fst re)
          then bisection probe (mid + 1) high mid failing (snd re)
          else bisection probe low (mid - 1) last_good (Some mid) (snd re) in
        (rest.1.1.1, rest.1.1.2, (mid, fst re) :: rest.1.2, rest.2)
    }.
Proof.
  all: subst mid; Z.div_mod_to_equations; lia.
Qed.
End Trail.

(** The steps that the block searcher makes of a trail. *)
Fixpoint block_steps (step_number : Z) (trail : list (Z * HelmResult))
    : list Searcher.SearchStep :=
  match trail with
  | [] => []
  | (mid, r) :: trail' =>
      Searcher.mkSearchStep (step_number + 1) (Searcher.tested mid) r (Some mid)
        :: block_steps (step_number + 1) trail'
  end.

(** The steps that the line searcher makes of a trail. *)
Fixpoint line_steps (step_number : Z) (trail : list (Z * HelmResult))
    : list LineSearchStep :=
  match trail with
  | [] => []
  | (mid, r) :: trail' =>
      mkLineSearchStep (step_number + 1) (tested mid) r (Some mid)
        :: line_steps (step_number + 1) trail'
  end.

(** The result of the last probe of a trail that passed. *)
Fixpoint last_passed (prev : option HelmResult) (trail : list (Z * HelmResult))
    : option HelmResult :=
  match trail with
  | [] => prev
  | (_, r) :: trail' => last_passed (if success r then Some r else prev) trail'
  end.

(** The probes of a linear scan that starts at cutoff [i]: one for each
    result, on the next cutoff each time. *)
Fixpoint linear_trail (chart_of : Z -> chart) (i : Z) (results : list HelmResult)
    : list (chart * HelmResult) :=
  match results with
  | [] => []
  | r :: results' => (chart_of i, r) :: linear_trail chart_of (i + 1) results'
  end.

(** The steps that the linear block searcher started at [start_from]
    records for the results of the cutoffs from [i] on. *)
Fixpoint linear_block_steps (start_from i : Z) (results : list HelmResult)
    : list Searcher.SearchStep :=
  match results with
  | [] => []
  | r :: results' =>
      Searcher.mkSearchStep (i - start_from + 1) (Searcher.tested i) r (Some i)
        :: linear_block_steps start_from (i + 1) results'
  end.

(** The same for the linear line searcher. *)
Fixpoint linear_line_steps (start_line i : Z) (results : list HelmResult)
    : list LineSearchStep :=
  match results with
  | [] => []
  | r :: results' =>
      mkLineSearchStep (i - start_line + 1) (tested i) r (Some i)
        :: linear_line_steps start_line (i + 1) results'
  end.

(** Every result but the last is a success. *)
Definition passed_but_last (results : list HelmResult) : Prop :=
  forall (j : nat) x, results !! j = Some x -> (j + 1 < length results)%nat ->
                      success x = true.

End Trail.


(** ** Vocabulary of the specification: lines of a text *)

Module Lines.

(** No line boundary in [s]. *)
Definition no_break (s : str) : bool :=
  forallb (fun c => negb (PyStr.islinebreak c)) s.

(** A line boundary: one boundary character, or ["\r\n"]. *)
Definition is_eol (eol : str) : Prop :=
  (exists c, eol = [c] /\ PyStr.islinebreak c = true) \/ eol = [PyStr.CR; PyStr.LF].

(** A line that ends at a boundary. *)
Definition closed_line (l : str) : Prop :=
  exists body eol, l = body ++ eol /\ no_break body = true /\ is_eol eol.

(** A line that the end of the text cuts short. *)
Definition open_line (l : str) : Prop := no_break l = true /\ l <> [].

(** The lines of a text: all of them end at a boundary, but possibly the
    last one. *)
Fixpoint lines_ok (ls : list str) : Prop :=
  match ls with
  | [] => True
  | l :: ls' => (closed_line l \/ (open_line l /\ ls' = [])) /\ lines_ok ls'
  end.

End Lines.

(** ** Example documents and renderers *)

Module Examples.
Import Parser Executor.

Definition LF : str := [PyStr.LF].

(** A conditional that is opened and closed. *)
Definition if_end : str :=
  of_string "{{ if .x }}" ++ LF ++ of_string "{{ end }}" ++ LF.

(** The unit of its second line. *)
Definition if_end_close : TemplateBlock :=
  mkTemplateBlock END (of_string "{{ end }}" ++ LF) 2 2 (Some []) 0.

(** A value, an [include] and a stray [end]. *)
Definition include_line : str := of_string "{{ include x . }}" ++ LF.
Definition end_line : str := of_string "{{ end }}" ++ LF.
Definition with_include : ParsedTemplate :=
  parse_file [] (of_string "a: 1" ++ LF ++ include_line ++ end_line).

(** Nineteen lines of content and an unmatched [end] on line 20. *)
Definition stray_end : ParsedTemplate :=
  parse_file [] (concat (repeat (of_string "k: v" ++ LF) 19) ++ end_line).

(** A conditional that opens and closes after the first line. *)
Definition if_line : str := of_string "{{ if .x }}" ++ LF.
Definition open_after_cutoff : ParsedTemplate :=
  parse_file [] (of_string "a: 1" ++ LF ++ if_line ++ of_string "b: 2" ++ LF ++ end_line).

(** Ten lines of content, the seventh of which the renderer below refuses. *)
Definition ten_lines : ParsedTemplate :=
  parse_file []
    (concat (repeat (of_string "k: v" ++ LF) 6) ++ of_string "bad" ++ LF
     ++ concat (repeat (of_string "k: v" ++ LF) 3)).

(** Three lines of content. *)
Definition three_lines : ParsedTemplate :=
  parse_file [] (concat (repeat (of_string "k: v" ++ LF) 3)).

Definition passes : HelmResult := mkHelmResult true [] [] 0 [].
Definition fails : HelmResult := mkHelmResult false [] (of_string "Error") 1 [].

(** A renderer without state that refuses the chart on disk and every
    template with a line that reads [bad]. *)
Definition refuses_bad (c : chart) (w : unit) : HelmResult * unit :=
  match c with
  | OriginalChart => (fails, tt)
  | TempChart _ text =>
      (if bool_decide (of_string "bad" ∈ PyStr.splitlines false text)
       then fails else passes, tt)
  end.

(** A renderer that accepts everything. *)
Definition always_passes (c : chart) (w : unit) : HelmResult * unit := (passes, tt).

(** The world before any probe. *)
Definition start : Env unit := mkEnv tt [].

End Examples.

(** * The rest of the engine

    The functions of [executor.py], [parser.py] and [searcher.py] that the
    searchers above do not go through. *)

(** [l[a:b]] *)
Definition slice {A} (l : list A) (a b : Z) : list A :=
  let clip i := if i <? 0 then Z.max 0 (len l + i) else Z.min i (len l) in
  take (Z.to_nat (clip b - clip a)) (drop (Z.to_nat (clip a)) l).

Module PyText.

(** [s.startswith(prefix)] *)
Fixpoint startswith (prefix s : str) : bool :=
  match prefix, s with
  | [], _ => true
  | _ :: _, [] => false
  | c :: prefix', d :: s' => (c =? d)%N && startswith prefix' s'
  end.

(** [needle in hay] *)
Fixpoint contains (needle hay : str) : bool :=
  startswith needle hay ||
  match hay with
  | [] => false
  | _ :: hay' => contains needle hay'
  end.

(** [sep.join(ls)] *)
Fixpoint join_with (sep : str) (ls : list str) : str :=
  match ls with
  | [] => []
  | l :: ls' =>
      match ls' with
      | [] => l
      | _ :: _ => l ++ sep ++ join_with sep ls'
      end
  end.

End PyText.

(** ** executor.py: the renderer *)

Module HelmExecutor.
Import Executor.

(** [HelmResult.error_message] *)
Definition error_message (r : HelmResult) : str :=
  if Parser.is_empty (stderr r) then []
  else
    let lines := PyStr.splitlines false (PyStr.strip (stderr r)) in
    let error_lines :=
      List.filter
        (fun l => PyText.contains (of_string "Error:") l
                  || PyText.contains (of_string "error:") l
                  || PyText.contains (of_string "template:") l)
        lines in
    if Parser.is_empty error_lines then stderr r
    else PyText.join_with [PyStr.LF] error_lines.

Record HelmExecutor : Type := mkHelmExecutor {
  helm_path : str;
  release_name : str;
  values_files : list str;
  set_values : list str;
  extra_args : list str
}.

(** What becomes of the process that [subprocess.run] starts: it ends
    with a return code and its two outputs, or it is killed when the time
    is up, or starting it raises. *)
Inductive outcome : Type :=
| Completed (returncode : Z) (out err : str)
| TimeoutExpired
| Raised (message : str).

(** The command line that [run_template] builds. *)
Definition cmd (self : HelmExecutor) (chart_path : str) : list str :=
  let cmd := [helm_path self; of_string "template"; release_name self; chart_path] in
  let cmd :=
    fold_left (fun cmd values_file => cmd ++ [of_string "-f"; values_file])
              (values_files self) cmd in
  let cmd :=
    fold_left (fun cmd set_val => cmd ++ [of_string "--set"; set_val])
              (set_values self) cmd in
  cmd ++ extra_args self.

Section Process.
Context {World : Type}.
(** [subprocess.run(cmd, capture_output=True, text=True, timeout=timeout,
    cwd=...)]; the working directory is the parent of the chart path,
    which is the fourth word of the command. *)
Variable subprocess_run : list str -> Z -> World -> outcome * World.

(** [HelmExecutor.run_template] *)
Definition run_template (self : HelmExecutor) (chart_path : str) (timeout : Z)
    (w : World) : HelmResult * World :=
  let cmd := cmd self chart_path in
  let '(o, w') := subprocess_run cmd timeout w in
  (match o with
   | Completed returncode out err =>
       mkHelmResult (returncode =? 0) out err returncode cmd
   | TimeoutExpired =>
       mkHelmResult false []
         (of_string "Command timed out after " ++ PyStr.of_Z timeout
          ++ of_string " seconds")
         (-1) cmd
   | Raised message => mkHelmResult false [] message (-1) cmd
   end, w').

(** The renderer that the executors of a chart hand to the searchers:
    [stage] is the work on the file system that leads to the path given
    to [run_template] (none for the chart on disk; the copy made by
    [TempChartManager] and the write of the reduced template for a probe),
    [cleanup] what leaving the [with] block does afterwards; both are
    taken to succeed.  The call leaves [timeout] at its default, 60. *)
Variable stage : chart -> World -> str * World.
Variable cleanup : chart -> World -> World.

Definition render (self : HelmExecutor) (c : chart) (w : World) : HelmResult * World :=
  let '(chart_path, w1) := stage c w in
  let '(r, w2) := run_template self chart_path 60 w1 in
  (r, cleanup c w2).
End Process.

End HelmExecutor.

(** ** executor.py: the other ways to reduce *)

Module IncrementalExecutor.
Import Parser Executor.

Section Oracle.
Context {World : Type}.
Variable run_template : chart -> World -> HelmResult * World.

(** [IncrementalExecutor.execute_up_to_line] *)
Definition execute_up_to_line (t : ParsedTemplate) (line_number : Z)
    : Env World -> HelmResult * Env World :=
  let blocks_to_include :=
    List.filter (fun b => end_line b <=? line_number) (blocks t) in
  execute_with_blocks run_template t blocks_to_include.
End Oracle.

End IncrementalExecutor.

Module BlockRangeExecutor.
Import Parser Executor.

(** The text that [BlockRangeExecutor._create_range_template] writes to
    the copy of the template file. *)
Definition _create_range_template (t : ParsedTemplate)
    (blocks_to_include : list TemplateBlock) : str :=
  let included :=
    fold_left
      (fun included block =>
         fold_left (fun included line_num => included ∪ {[ line_num ]})
                   (range (start_line block) (end_line block + 1)) included)
      blocks_to_include (∅ : gset Z) in
  let original_lines := PyStr.splitlines true (original_content t) in
  let new_lines :=
    fold_left
      (fun new_lines '(i, line) =>
         let line_num := i + 1 in
         if bool_decide (line_num ∈ included) then new_lines ++ [line]
         else
           let stripped := PyStr.rstrip [PyStr.LF; PyStr.CR] line in
           if is_empty (PyStr.strip stripped)
           then new_lines ++ [line]
           else new_lines ++ [of_string "{{/* " ++ stripped ++ of_string " */}}"
                              ++ [PyStr.LF]])
      (enumerate original_lines) [] in
  PyStr.join new_lines.

Section Oracle.
Context {World : Type}.
Variable run_template : chart -> World -> HelmResult * World.

(** [BlockRangeExecutor.execute_block_range] *)
Definition execute_block_range (t : ParsedTemplate) (start_block end_block : Z)
    : Env World -> HelmResult * Env World :=
  let blocks_to_include := slice (blocks t) start_block (end_block + 1) in
  run run_template
      (TempChart (file_path t) (_create_range_template t blocks_to_include)).
End Oracle.

End BlockRangeExecutor.

(** ** parser.py: the templates of a chart *)

Module Chart.
Import Parser.

Record ChartTemplates : Type := mkChartTemplates {
  chart_path : path;
  templates : list ParsedTemplate
}.

(** [ChartTemplates.all_blocks] *)
Definition all_blocks (c : ChartTemplates) : list TemplateBlock :=
  fold_left (fun blocks template => blocks ++ Parser.blocks template) (templates c) [].

(** [ChartTemplates.total_blocks] *)
Definition total_blocks (c : ChartTemplates) : Z := len (all_blocks c).

(** [ChartTemplates.total_files] *)
Definition total_files (c : ChartTemplates) : Z := len (templates c).

(** [parse_chart], on the template files as [get_template_files] lists
    them, each with the text read from it. *)
Definition parse_chart (chart_path : path) (template_files : list (path * str))
    : ChartTemplates :=
  let templates :=
    fold_left
      (fun templates '(file_path, content) =>
         let parsed := parse_file file_path content in
         if is_empty (blocks parsed) then templates else templates ++ [parsed])
      template_files [] in
  mkChartTemplates chart_path templates.

End Chart.

(** ** searcher.py: one searcher for the mode, and all the files *)

Module MultiFile.
Import Parser Executor Searcher Chart.

Inductive SearchMode : Set := BINARY | STEP_BY_STEP.

Section Search.
Context {World : Type}.
Variable run_template : chart -> World -> HelmResult * World.

(** [find_error] *)
Definition find_error (t : ParsedTemplate) (mode : SearchMode) : M World SearchResult :=
  match mode with
  | BINARY => BinarySearcher_search run_template t
  | STEP_BY_STEP => StepByStepSearcher_search run_template t 0
  end.

(** [Path.name], the last component of a path. *)
Variable name : path -> str.

(** The [for template in chart_templates.templates] loop of
    [MultiFileSearcher.search]; [todo] is what is left of the list. *)
Fixpoint files_loop (mode : SearchMode) (todo : list ParsedTemplate)
    (results : gmap str SearchResult) : M World (gmap str SearchResult) :=
  match todo with
  | [] => ret results
  | template :: todo' =>
      let file_name := name (file_path template) in
      result ←
        match mode with
        | BINARY => BinarySearcher_search run_template template
        | STEP_BY_STEP => StepByStepSearcher_search run_template template 0
        end;
      files_loop mode todo' (<[ file_name := result ]> results)
  end.

(** [MultiFileSearcher.search] *)
Definition MultiFileSearcher_search (mode : SearchMode) (chart_templates : ChartTemplates)
    : M World (gmap str SearchResult) :=
  files_loop mode (templates chart_templates) ∅.
End Search.

End MultiFile.

(** ** json_reporter.py: the lines of a line error *)

Module JsonReporter.
Import LineSearcher.

(** The ["failing_lines"] entry that [_populate_line_error] writes: pairs
    of ["line"] and ["content"].  The line is the failing line of the
    result as it is, [None] when there is none, and the content is the
    failing content, or the empty string. *)
Definition failing_lines (result : LineSearchResult) : list (option Z * str) :=
  [(failing_line result, default [] (failing_content result))].

(** Its ["context_before"] entry.  The line of each pair is computed from
    the failing line; [None] stands for the [TypeError] of that arithmetic
    when the failing line is [None], which is raised only if there is a
    context line to number. *)
Definition context_before_entries (result : LineSearchResult) : option (list (Z * str)) :=
  mapM (fun '(i, c) =>
          failing_line ← failing_line result;
          Some (failing_line - len (context_before result) + i, c))
       (enumerate (context_before result)).

(** Its ["context_after"] entry. *)
Definition context_after_entries (result : LineSearchResult) : option (list (Z * str)) :=
  mapM (fun '(i, c) =>
          failing_line ← failing_line result;
          Some (failing_line + 1 + i, c))
       (enumerate (context_after result)).

End JsonReporter.

(** ** Vocabulary for the further properties *)

Module Reduced.
Import Parser Executor.

(** [b] covers line [n]. *)
Definition covers (n : Z) (b : TemplateBlock) : bool :=
  (start_line b <=? n) && (n <=? end_line b).

(** What block-range reduction makes of line number [n]. *)
Definition comment_line (bs : list TemplateBlock) (n : Z) (line : str) : str :=
  if existsb (covers n) bs then line
  else if Spec.blank line then line
  else commented_out (PyStr.rstrip [PyStr.LF; PyStr.CR] line).

Fixpoint comment_lines (bs : list TemplateBlock) (n : Z) (lines : list str) : list str :=
  match lines with
  | [] => []
  | line :: rest => comment_line bs n line :: comment_lines bs (n + 1) rest
  end.

(** The lines that block-range reduction writes for [t]. *)
Definition reduced_lines (t : ParsedTemplate) (bs : list TemplateBlock) : list str :=
  comment_lines bs 1 (PyStr.splitlines true (original_content t)).

End Reduced.

Module Diag.

(** A line that [HelmResult.error_message] keeps: it holds one of the
    three markers. *)
Definition marked (l : str) : bool :=
  PyText.contains (of_string "Error:") l
  || PyText.contains (of_string "error:") l
  || PyText.contains (of_string "template:") l.

End Diag.

Module Verdict.
Import Parser Executor Searcher.

(** What a block search hands on: with an error, the index of a block of
    the template, that block, and a result, which failed if [pure] holds;
    without an error, none of them. *)
Definition reports (pure : Prop) (t : ParsedTemplate) (r : SearchResult) : Prop :=
  template r = Some t
  /\ if found_error r
     then exists fi b er,
            0 <= fi < len (blocks t)
            /\ failing_block_index r = Some fi
            /\ failing_block r = Some b
            /\ blocks t !! Z.to_nat fi = Some b
            /\ error_result r = Some er
            /\ (pure -> success er = false)
     else failing_block r = None /\ failing_block_index r = None
          /\ error_result r = None.

End Verdict.

Module LineEnds.

(** The line ends in a carriage return that no line feed follows. *)
Definition ends_in_cr (l : str) : bool :=
  match last l with
  | Some c => (c =? PyStr.CR)%N
  | None => false
  end.

End LineEnds.

(** ** More example documents *)

Module MoreExamples.
Import Parser Executor.

(** The second unit of [Examples.if_end] as the parser writes it. *)
Definition if_end_open : TemplateBlock :=
  mkTemplateBlock IF (of_string "{{ if .x }}" ++ Examples.LF) 1 1 (Some []) 0.

End MoreExamples.

Module RendererExamples.
Import Executor HelmExecutor.

(** The executor that [main] builds when no option is given. *)
Definition plain_helm : HelmExecutor :=
  mkHelmExecutor (of_string "helm") (of_string "debug-release") [] [] [].

(** A process that never ends in time. *)
Definition hangs (cmd : list str) (timeout : Z) (w : unit) : outcome * unit :=
  (TimeoutExpired, w).

(** A file system that is not looked at. *)
Definition no_stage (c : chart) (w : unit) : str * unit := (of_string "chart", w).
Definition no_cleanup (c : chart) (w : unit) : unit := w.

(** A result whose error output has one marked line among three. *)
Definition noisy : HelmResult :=
  mkHelmResult false []
    (of_string "walk.go:74: found symbolic link" ++ [PyStr.LF]
     ++ of_string "Error: YAML parse error on chart/templates/a.yaml" ++ [PyStr.LF]
     ++ of_string "Use --debug flag to render out invalid YAML" ++ [PyStr.LF])
    1 [].

End RendererExamples.

Module SearchExamples.
Import Parser Executor.

(** A renderer that refuses everything. *)
Definition always_fails (c : chart) (w : unit) : HelmResult * unit := (Examples.fails, tt).

(** The name of a path that has a single component. *)
Definition whole_name (p : path) : str := p.

End SearchExamples.

Module AgreementExamples.
Import Parser Executor.

(** Three lines of content, the second of which [Examples.refuses_bad]
    refuses. *)
Definition bad_second : ParsedTemplate :=
  parse_file []
    (of_string "k: v" ++ Examples.LF ++ of_string "bad" ++ Examples.LF
     ++ of_string "k: v" ++ Examples.LF).

End AgreementExamples.

(** * Facts *)

(** ** Strings *)

Module PyStrFacts.
Import PyStr.

Lemma linebreak_isspace c : islinebreak c = true -> isspace c = true.
Proof.
  unfold islinebreak, isspace.
  rewrite !orb_true_iff, !andb_true_iff, !N.leb_le, !N.eqb_eq.
  intros H.
  destruct (N.le_gt_cases c 13); [left|]; lia.
Qed.

Lemma forallb_rev (p : char -> bool) w : forallb p (rev w) = forallb p w.
Proof.
  apply eq_true_iff_eq. rewrite !forallb_forall.
  split; intros H x Hx; apply H; [by apply in_rev in Hx | by apply in_rev].
Qed.

Lemma lstrip_by_app_all p w s :
  forallb p w = true -> lstrip_by p (w ++ s) = lstrip_by p s.
Proof.
  induction w as [|c w IH]; simpl; [done|].
  intros [Hc Hw]%andb_true_iff. rewrite Hc. auto.
Qed.

Lemma lstrip_by_all p w : forallb p w = true -> lstrip_by p w = [].
Proof.
  intros H. rewrite <- (app_nil_r w). rewrite lstrip_by_app_all; done.
Qed.

Lemma lstrip_by_app_some p s w :
  forallb p s = false -> lstrip_by p (s ++ w) = lstrip_by p s ++ w.
Proof.
  induction s as [|c s IH]; simpl; [done|].
  destruct (p c); simpl; auto.
Qed.

Lemma lstrip_by_split p s : exists w, s = w ++ lstrip_by p s /\ forallb p w = true.
Proof.
  induction s as [|c s (w & Hs & Hw)]; simpl.
  - by exists [].
  - destruct (p c) eqn:Hc.
    + exists (c :: w). simpl. rewrite Hc, Hw. split; [congruence | done].
    + by exists [].
Qed.

Lemma rstrip_by_split p s : exists w, s = rstrip_by p s ++ w /\ forallb p w = true.
Proof.
  unfold rstrip_by.
  destruct (lstrip_by_split p (rev s)) as (w & Hs & Hw).
  exists (rev w). split.
  - rewrite <- rev_app_distr, <- Hs. by rewrite rev_involutive.
  - by rewrite forallb_rev.
Qed.

Lemma rstrip_by_app_all p s w :
  forallb p w = true -> rstrip_by p (s ++ w) = rstrip_by p s.
Proof.
  intros H. unfold rstrip_by. rewrite rev_app_distr.
  rewrite lstrip_by_app_all; [done | by rewrite forallb_rev].
Qed.

(** A line is blank for [strip] exactly when it is made of white space. *)
Lemma strip_nil_iff s : strip s = [] <-> forallb isspace s = true.
Proof.
  unfold strip. split.
  - intros H.
    destruct (lstrip_by_split isspace s) as (w1 & Hs & Hw1).
    destruct (rstrip_by_split isspace (lstrip_by isspace s)) as (w2 & Hs2 & Hw2).
    rewrite H in Hs2. simpl in Hs2. rewrite Hs, Hs2, forallb_app, Hw1, Hw2. done.
  - intros H. rewrite lstrip_by_all; done.
Qed.

(** White space at the end of a line does not change [strip]. *)
Lemma strip_app_space s w : forallb isspace w = true -> strip (s ++ w) = strip s.
Proof.
  intros Hw. unfold strip.
  destruct (forallb isspace s) eqn:Hs.
  - rewrite lstrip_by_app_all by done.
    rewrite (lstrip_by_all _ w), (lstrip_by_all _ s); done.
  - rewrite lstrip_by_app_some by done. by apply rstrip_by_app_all.
Qed.

(** [strip] cuts a substring out of its argument. *)
Lemma strip_infix s : exists a b, s = a ++ strip s ++ b.
Proof.
  unfold strip.
  destruct (lstrip_by_split isspace s) as (w1 & Hs & _).
  destruct (rstrip_by_split isspace (lstrip_by isspace s)) as (w2 & Hs2 & _).
  exists w1, w2. by rewrite <- Hs2.
Qed.

Lemma join_cons_line c ls : join (cons_line c ls) = c :: join ls.
Proof. by destruct ls. Qed.

(** Induction that follows the recursion of [splitlines]. *)
Lemma str_ind2 (P : str -> Prop) :
  P [] ->
  (forall c, P [c]) ->
  (forall c c2 s, P s -> P (c2 :: s) -> P (c :: c2 :: s)) ->
  forall s, P s.
Proof.
  intros H0 H1 H2 s.
  assert (P s /\ forall c, P (c :: s)) as [? _]; [|done].
  induction s as [|c2 s [IH1 IH2]]; [by split|].
  split; [apply IH2|]. intros c. apply H2; [done | apply IH2].
Qed.

(** ["".join(s.splitlines(keepends=True)) == s] *)
Lemma join_splitlines s : join (splitlines true s) = s.
Proof.
  induction s as [|c|c c2 s IH1 IH2] using str_ind2.
  - done.
  - simpl. by destruct (islinebreak c).
  - change (splitlines true (c :: c2 :: s)) with
      (if islinebreak c then
         if (c =? CR)%N && (c2 =? LF)%N
         then [c; c2] :: splitlines true s
         else [c] :: splitlines true (c2 :: s)
       else cons_line c (splitlines true (c2 :: s))).
    destruct (islinebreak c).
    + destruct ((c =? CR)%N && (c2 =? LF)%N); unfold join in *; cbn [concat app]; congruence.
    + rewrite join_cons_line. congruence.
Qed.

(** Line by line, [splitlines(keepends=True)] is [splitlines()] with the
    line boundary (white space) put back. *)
Lemma splitlines_keepends s :
  Forall2 (fun line l0 => exists eol, line = l0 ++ eol /\ forallb isspace eol = true)
          (splitlines true s) (splitlines false s).
Proof.
  induction s as [|c|c c2 s IH1 IH2] using str_ind2.
  - constructor.
  - simpl. destruct (islinebreak c) eqn:Hc; repeat constructor.
    + exists [c]. simpl. by rewrite (linebreak_isspace c Hc).
    + by exists [].
  - change (splitlines true (c :: c2 :: s)) with
      (if islinebreak c then
         if (c =? CR)%N && (c2 =? LF)%N
         then [c; c2] :: splitlines true s
         else [c] :: splitlines true (c2 :: s)
       else cons_line c (splitlines true (c2 :: s))).
    change (splitlines false (c :: c2 :: s)) with
      (if islinebreak c then
         if (c =? CR)%N && (c2 =? LF)%N
         then [] :: splitlines false s
         else [] :: splitlines false (c2 :: s)
       else cons_line c (splitlines false (c2 :: s))).
    destruct (islinebreak c) eqn:Hc.
    + destruct ((c =? CR)%N && (c2 =? LF)%N) eqn:Hcr; constructor; try done.
      * exists [c; c2]. split; [done|].
        apply andb_true_iff in Hcr as [_ ->%N.eqb_eq].
        simpl. by rewrite (linebreak_isspace c Hc).
      * exists [c]. simpl. by rewrite (linebreak_isspace c Hc).
    + destruct IH2 as [|l l0 ls ls0 (eol & -> & Heol) IH2]; simpl.
      * repeat constructor. by exists [].
      * constructor; [|done]. by exists eol.
Qed.

Lemma length_splitlines s :
  length (splitlines true s) = length (splitlines false s).
Proof. eapply Forall2_length, splitlines_keepends. Qed.

End PyStrFacts.

(** ** Regular expressions: the matcher decides the language *)

Module ReFacts.
Import Re.

Create HintDb re.
#[local] Hint Constructors matches : re.

Lemma matches_void w : matches Void w <-> False.
Proof. split; inversion 1. Qed.

Lemma matches_eps w : matches Eps w <-> w = [].
Proof. split; [by inversion 1 | intros ->; constructor]. Qed.

Lemma matches_sym p w : matches (Sym p) w <-> exists c, w = [c] /\ p c = true.
Proof.
  split; [inversion 1; subst; eauto | intros (c & -> & H); by constructor].
Qed.

Lemma matches_cat r1 r2 w :
  matches (Cat r1 r2) w <-> exists w1 w2, w = w1 ++ w2 /\ matches r1 w1 /\ matches r2 w2.
Proof.
  split; [inversion 1; subst; eauto | intros (w1 & w2 & -> & H1 & H2); by constructor].
Qed.

Lemma matches_alt r1 r2 w : matches (Alt r1 r2) w <-> matches r1 w \/ matches r2 w.
Proof. split; [inversion 1; auto | intros [?|?]; auto with re]. Qed.

Lemma nullable_spec r : nullable r = true <-> matches r [].
Proof.
  induction r as [| |p|r1 IH1 r2 IH2|r1 IH1 r2 IH2|r IH]; simpl.
  - by rewrite matches_void.
  - by rewrite matches_eps.
  - rewrite matches_sym. split; [done | by intros (c & ? & _)].
  - rewrite andb_true_iff, IH1, IH2, matches_cat. split.
    + intros [H1 H2]. by exists [], [].
    + intros (w1 & w2 & Heq & H1 & H2). symmetry in Heq.
      apply app_eq_nil in Heq as [-> ->]. done.
  - by rewrite orb_true_iff, IH1, IH2, matches_alt.
  - split; auto with re.
Qed.

Lemma matches_cat' r1 r2 w : matches (cat' r1 r2) w <-> matches (Cat r1 r2) w.
Proof.
  rewrite matches_cat.
  assert (Heps : matches r2 w <->
                 exists w1 w2, w = w1 ++ w2 /\ matches Eps w1 /\ matches r2 w2).
  { split; [intros H; exists [], w; auto with re|].
    by intros (w1 & w2 & -> & ->%matches_eps & H). }
  assert (Hvl : False <-> exists w1 w2, w = w1 ++ w2 /\ matches Void w1 /\ matches r2 w2).
  { split; [done | by intros (? & ? & _ & ?%matches_void & _)]. }
  assert (Hvr : False <-> exists w1 w2, w = w1 ++ w2 /\ matches r1 w1 /\ matches Void w2).
  { split; [done | by intros (? & ? & _ & _ & ?%matches_void)]. }
  destruct r1; try (simpl; by rewrite matches_void);
    destruct r2; simpl;
    rewrite ?matches_void; try done; try apply matches_cat.
Qed.

Lemma matches_alt' r1 r2 w : matches (alt' r1 r2) w <-> matches (Alt r1 r2) w.
Proof.
  rewrite matches_alt.
  destruct r1; simpl; rewrite ?matches_void; try tauto;
    destruct r2; simpl; rewrite ?matches_alt, ?matches_void; tauto.
Qed.

(** A non-empty word of [Star r] starts with a non-empty word of [r]. *)
Lemma star_cons_inv r c w :
  matches (Star r) (c :: w) ->
  exists w1 w2, w = w1 ++ w2 /\ matches r (c :: w1) /\ matches (Star r) w2.
Proof.
  intros H. remember (Star r) as sr eqn:Hr. remember (c :: w) as cw eqn:Hw.
  revert w Hw.
  induction H as [| | | | | |r' w1 w2 H1 _ H2 IH2]; try done.
  injection Hr as ->. intros w Hw.
  destruct w1 as [|c' w1]; simpl in Hw.
  - by apply IH2.
  - injection Hw as -> <-. by exists w1, w2.
Qed.

Lemma deriv_spec c r w : matches (deriv c r) w <-> matches r (c :: w).
Proof.
  revert w.
  induction r as [| |p|r1 IH1 r2 IH2|r1 IH1 r2 IH2|r IH]; intros w; simpl.
  - by rewrite !matches_void.
  - rewrite matches_void, matches_eps. done.
  - rewrite matches_sym. destruct (p c) eqn:Hp.
    + rewrite matches_eps. split; [intros ->; eauto | by intros (? & [= -> ->] & _)].
    + rewrite matches_void. split; [done | intros (? & [= -> ->] & ?); congruence].
  - assert (Hcat : matches (cat' (deriv c r1) r2) w <->
                   exists w1 w2, w = w1 ++ w2 /\ matches r1 (c :: w1) /\ matches r2 w2).
    { rewrite matches_cat', matches_cat. by setoid_rewrite IH1. }
    assert (Hgoal : matches (Cat r1 r2) (c :: w) <->
              (exists w1 w2, w = w1 ++ w2 /\ matches r1 (c :: w1) /\ matches r2 w2)
              \/ (matches r1 [] /\ matches r2 (c :: w))).
    { rewrite matches_cat. split.
      - intros (w1 & w2 & Heq & H1 & H2).
        destruct w1 as [|c' w1]; simpl in Heq.
        + right. by subst.
        + injection Heq as <- ->. left. by exists w1, w2.
      - intros [(w1 & w2 & -> & H1 & H2) | [H1 H2]].
        + by exists (c :: w1), w2.
        + by exists [], (c :: w). }
    rewrite Hgoal. destruct (nullable r1) eqn:Hn.
    + rewrite matches_alt', matches_alt, Hcat, IH2.
      apply nullable_spec in Hn. tauto.
    + rewrite Hcat. split; [auto|]. intros [H | [H _]]; [done|].
      apply nullable_spec in H. congruence.
  - by rewrite matches_alt', !matches_alt, IH1, IH2.
  - rewrite matches_cat', matches_cat. split.
    + intros (w1 & w2 & -> & H1 & H2).
      apply (m_star_cons _ (c :: w1)); [by apply IH | done].
    + intros (w1 & w2 & -> & H1 & H2)%star_cons_inv.
      exists w1, w2. by rewrite IH.
Qed.

(** [match_] finds a prefix in the language. *)
Lemma match_spec r s :
  match_ r s = true <-> exists mid post, s = mid ++ post /\ matches r mid.
Proof.
  revert r. induction s as [|c s IH]; intros r; simpl.
  - rewrite orb_false_r, nullable_spec. split.
    + intros H. by exists [], [].
    + intros (mid & post & Heq & H). symmetry in Heq.
      apply app_eq_nil in Heq as [-> _]. done.
  - rewrite orb_true_iff, nullable_spec, IH. split.
    + intros [H | (mid & post & -> & H)].
      * by exists [], (c :: s).
      * exists (c :: mid), post. split; [done | by apply deriv_spec].
    + intros (mid & post & Heq & H). destruct mid as [|c' mid]; simpl in Heq.
      * by left.
      * injection Heq as <- ->. right. exists mid, post. split; [done | by apply deriv_spec].
Qed.

(** [search] finds a substring in the language. *)
Lemma search_spec r s :
  search r s = true <-> exists pre mid post, s = pre ++ mid ++ post /\ matches r mid.
Proof.
  induction s as [|c s IH].
  - change (search r []) with (match_ r [] || false).
    rewrite orb_false_r, match_spec. split.
    + intros (mid & post & Heq & H). by exists [], mid, post.
    + intros (pre & mid & post & Heq & H). symmetry in Heq.
      apply app_eq_nil in Heq as [-> Heq]. by exists mid, post.
  - change (search r (c :: s)) with (match_ r (c :: s) || search r s).
    rewrite orb_true_iff, match_spec, IH. split.
    + intros [(mid & post & -> & H) | (pre & mid & post & -> & H)].
      * by exists [], mid, post.
      * by exists (c :: pre), mid, post.
    + intros (pre & mid & post & Heq & H). destruct pre as [|c' pre]; simpl in Heq.
      * left. by exists mid, post.
      * injection Heq as <- ->. right. by exists pre, mid, post.
Qed.

(** A match inside a substring is a match inside the whole string. *)
Lemma search_infix r a s b : search r s = true -> search r (a ++ s ++ b) = true.
Proof.
  rewrite !search_spec. intros (pre & mid & post & -> & H).
  exists (a ++ pre), mid, (post ++ b). by rewrite <- !app_assoc.
Qed.

(** A pattern that ends in [x+] matches only where the pattern that ends in
    [x] matches: what [\s+] asks for at the end, [\s] finds too. *)
Lemma cats_plus_last rs x w :
  matches (cats (rs ++ [Plus x])) w ->
  exists w1 w2, w = w1 ++ w2 /\ matches (cats (rs ++ [x])) w1.
Proof.
  revert w. induction rs as [|r rs IH]; intros w; simpl.
  - unfold Plus.
    intros (wa & wb & -> & (wc & wd & -> & Hc & Hd)%matches_cat & ->%matches_eps)%matches_cat.
    exists (wc ++ []), wd. split; [by rewrite !app_nil_r | auto with re].
  - rewrite matches_cat. intros (wa & wb & -> & Ha & Hb).
    apply IH in Hb as (w1 & w2 & -> & Hb).
    exists (wa ++ w1), w2. split; [by rewrite app_assoc | auto with re].
Qed.

Lemma search_plus_last rs x s :
  search (cats (rs ++ [Plus x])) s = true -> search (cats (rs ++ [x])) s = true.
Proof.
  rewrite !search_spec. intros (pre & mid & post & -> & H).
  apply cats_plus_last in H as (w1 & w2 & -> & H).
  exists pre, w1, (w2 ++ post). by rewrite <- !app_assoc.
Qed.

End ReFacts.

(** ** The block model *)

Module ParserFacts.
Import Parser Spec.

Lemma parse_loop_units fp lines c d acc :
  parse_loop fp lines c d acc = acc ++ units fp c d lines.
Proof.
  revert c d acc. induction lines as [|line rest IH]; intros c d acc.
  - simpl. by rewrite app_nil_r.
  - cbn [parse_loop units]. fold (blank line).
    destruct (blank line); [apply IH|].
    unfold recorded, depth_step.
    destruct (_detect_block_type line); cbn [opens closes continues orb];
      rewrite IH, <- app_assoc; reflexivity.
Qed.

Lemma parse_units text fp :
  _parse_content text fp = units fp 1 0 (PyStr.splitlines true text).
Proof. unfold _parse_content. by rewrite parse_loop_units. Qed.

Lemma detect_first_match line :
  _detect_block_type line = first_match precedence (PyStr.strip line).
Proof. reflexivity. Qed.

Lemma units_lines fp c d lines :
  map (fun b => (start_line b, content b)) (units fp c d lines)
  = List.filter (fun '(_, l) => negb (blank l)) (enumerate_from c lines).
Proof.
  revert c d. induction lines as [|line rest IH]; intros c d; [done|].
  cbn [units enumerate_from List.filter].
  destruct (blank line); cbn [negb map]; [apply IH|].
  f_equal. apply IH.
Qed.

Lemma units_shape fp c d lines :
  Forall (fun b => end_line b = start_line b
                   /\ block_type b = _detect_block_type (content b)
                   /\ blank (content b) = false
                   /\ block_file_path b = Some fp)
         (units fp c d lines).
Proof.
  revert c d. induction lines as [|line rest IH]; intros c d; [constructor|].
  cbn [units]. destruct (blank line) eqn:Hb; [apply IH|].
  constructor; [done | apply IH].
Qed.

Lemma recorded_nonneg ty d : 0 <= d -> 0 <= recorded ty d.
Proof. unfold recorded. destruct (closes ty || continues ty); lia. Qed.

Lemma depth_step_nonneg ty d : 0 <= d -> 0 <= depth_step d ty.
Proof. unfold depth_step. destruct (opens ty), (closes ty); lia. Qed.

Lemma units_nonneg fp c d lines :
  0 <= d -> Forall (fun b => 0 <= nesting_level b) (units fp c d lines).
Proof.
  revert c d. induction lines as [|line rest IH]; intros c d Hd; [constructor|].
  cbn [units]. destruct (blank line); [by apply IH|].
  constructor; [by apply recorded_nonneg | by apply IH, depth_step_nonneg].
Qed.

(** The level written on a unit is the running depth before it, seen
    through [recorded]. *)
Lemma units_level fp c d lines (i : nat) b :
  units fp c d lines !! i = Some b ->
  nesting_level b = recorded (block_type b) (depth_from d (take i (units fp c d lines))).
Proof.
  revert c d i. induction lines as [|line rest IH]; intros c d i; [done|].
  cbn [units]. destruct (blank line); [apply IH|].
  destruct i as [|i]; simpl.
  - by intros [= <-].
  - intros H. by apply IH in H.
Qed.

Lemma depth_from_snoc d us b :
  depth_from d (us ++ [b]) = depth_step (depth_from d us) (block_type b).
Proof. unfold depth_from. by rewrite map_app, fold_left_app. Qed.

Lemma count_opens_cons b us :
  count_opens (b :: us) = (if opens (block_type b) then 1 else 0) + count_opens us.
Proof. unfold count_opens, len. simpl. destruct (opens (block_type b)); simpl; lia. Qed.

Lemma count_closes_cons b us :
  count_closes (b :: us) = (if closes (block_type b) then 1 else 0) + count_closes us.
Proof. unfold count_closes, len. simpl. destruct (closes (block_type b)); simpl; lia. Qed.

(** Where no close is ever met at depth zero, the running depth is the
    number of opens minus the number of closes. *)
Lemma depth_from_balance d us :
  (forall j : nat, 0 <= d + count_opens (take j us) - count_closes (take j us)) ->
  depth_from d us = d + count_opens us - count_closes us.
Proof.
  revert d. induction us as [|b us IH]; intros d H.
  - unfold depth_from, count_opens, count_closes, len. simpl. lia.
  - change (depth_from d (b :: us)) with (depth_from (depth_step d (block_type b)) us).
    rewrite count_opens_cons, count_closes_cons.
    pose proof (H 1%nat) as H1. simpl in H1. rewrite take_0 in H1.
    rewrite count_opens_cons, count_closes_cons in H1.
    assert (Hstep : depth_step d (block_type b)
                    = d + (if opens (block_type b) then 1 else 0)
                        - (if closes (block_type b) then 1 else 0)).
    { unfold depth_step, count_opens, count_closes, len in *. simpl in H1.
      destruct (block_type b); simpl in *; lia. }
    rewrite IH.
    + rewrite Hstep. lia.
    + intros j. specialize (H (S j)). simpl in H.
      rewrite count_opens_cons, count_closes_cons in H. rewrite Hstep. lia.
Qed.

End ParserFacts.

(** ** The structural mutator *)

Module ReduceFacts.
Import Re Parser Executor LineSearcher Spec Cut PyStrFacts ReFacts ParserFacts.

Lemma fold_left_snoc {A B} (f : list B -> A -> list B) (g : A -> B) l acc :
  (forall acc x, f acc x = acc ++ [g x]) ->
  fold_left f l acc = acc ++ map g l.
Proof.
  intros Hf. revert acc. induction l as [|x l IH]; intros acc; simpl.
  - by rewrite app_nil_r.
  - by rewrite Hf, IH, <- app_assoc.
Qed.

Lemma LF_CR_space w :
  forallb (fun c => existsb (N.eqb c) [PyStr.LF; PyStr.CR]) w = true ->
  forallb PyStr.isspace w = true.
Proof.
  rewrite !forallb_forall. intros H c Hc. specialize (H c Hc). simpl in H.
  rewrite orb_false_r, orb_true_iff, !N.eqb_eq in H. by destruct H as [-> | ->].
Qed.

(** [strip] does not see what [rstrip('\n\r')] took away. *)
Lemma strip_rstrip_newlines s :
  PyStr.strip (PyStr.rstrip [PyStr.LF; PyStr.CR] s) = PyStr.strip s.
Proof.
  unfold PyStr.rstrip.
  destruct (rstrip_by_split (fun c => existsb (N.eqb c) [PyStr.LF; PyStr.CR]) s)
    as (w & Hs & Hw).
  rewrite Hs at 2. symmetry. by apply strip_app_space, LF_CR_space.
Qed.

(** *** Block-range reduction *)

Lemma elem_of_add_all (l : list Z) (s : gset Z) n :
  n ∈ fold_left (fun included line_num => included ∪ {[ line_num ]}) l s
  <-> n ∈ s \/ n ∈ l.
Proof.
  revert s. induction l as [|x l IH]; intros s; simpl.
  - split; [auto | intros [?|?%elem_of_nil]; done].
  - rewrite IH, elem_of_union, elem_of_singleton, elem_of_cons. tauto.
Qed.

Lemma elem_of_included_lines bs n :
  n ∈ included_lines bs
  <-> exists b : TemplateBlock, b ∈ bs /\ start_line b <= n <= end_line b.
Proof.
  unfold included_lines.
  assert (Hgen : forall s : gset Z,
    n ∈ fold_left
          (fun included block =>
             fold_left (fun included line_num => included ∪ {[ line_num ]})
                       (range (start_line block) (end_line block + 1)) included)
          bs s
    <-> n ∈ s \/ exists b : TemplateBlock, b ∈ bs /\ start_line b <= n <= end_line b).
  { induction bs as [|b bs IH]; intros s; simpl.
    - split; [auto | intros [?|(b & Hb & _)]; [done | by apply elem_of_nil in Hb]].
    - rewrite IH, elem_of_add_all. unfold range. rewrite elem_of_seqZ. split.
      + intros [[?|?]|(b' & Hb' & ?)]; [by left | right; exists b | right; exists b'].
        * split; [left | lia].
        * split; [by right | done].
      + intros [?|(b' & [->|Hb']%elem_of_cons & ?)]; [by left; left | left; right; lia |].
        right. by exists b'. }
  rewrite Hgen. split; [intros [?%elem_of_empty|?]; done | auto].
Qed.

Lemma create_partial_template_map t bs :
  _create_partial_template t bs
  = PyStr.join (map (block_line (included_lines bs))
                    (enumerate (PyStr.splitlines true (original_content t)))).
Proof.
  unfold _create_partial_template. f_equal.
  rewrite (fold_left_snoc _ (block_line (included_lines bs))); [done|].
  intros acc [i line]. unfold block_line, blank. simpl.
  rewrite strip_rstrip_newlines.
  destruct (bool_decide _); [done|].
  by destruct (is_empty (PyStr.strip line)).
Qed.

Lemma map_snd_enumerate_from {A} c (l : list A) : map snd (enumerate_from c l) = l.
Proof. revert c. induction l as [|x l IH]; intros c; simpl; [done | by rewrite IH]. Qed.

Lemma elem_of_enumerate_from_nonblank c lines i line :
  (i, line) ∈ enumerate_from c lines -> blank line = false ->
  (i, line) ∈ List.filter (fun '(_, l) => negb (blank l)) (enumerate_from c lines).
Proof.
  intros Hin Hb. apply list_elem_of_In, filter_In. split.
  - by apply list_elem_of_In.
  - by rewrite Hb.
Qed.

Lemma enumerate_from_shift {A} c (l : list A) i x :
  (i, x) ∈ enumerate_from c l -> (i + 1, x) ∈ enumerate_from (c + 1) l.
Proof.
  revert c. induction l as [|y l IH]; intros c; simpl.
  - by intros ?%elem_of_nil.
  - intros [[= -> ->]|H]%elem_of_cons; [left | right; by apply IH].
Qed.

(** A line that is not blank lies in a parsed block. *)
Lemma nonblank_line_included text fp i line :
  (i, line) ∈ enumerate (PyStr.splitlines true text) -> blank line = false ->
  i + 1 ∈ included_lines (_parse_content text fp).
Proof.
  intros Hin Hb. apply elem_of_included_lines.
  apply (enumerate_from_shift 0) in Hin. simpl in Hin.
  apply elem_of_enumerate_from_nonblank in Hin; [|done].
  rewrite <- (units_lines fp 1 0), <- parse_units in Hin.
  apply list_elem_of_In, in_map_iff in Hin as (b & Heq & Hb').
  simpl in Heq. injection Heq as Hs Hc.
  exists b. split; [by apply list_elem_of_In|].
  pose proof (units_shape fp 1 0 (PyStr.splitlines true text)) as Hshape.
  rewrite <- parse_units, Forall_forall in Hshape.
  destruct (Hshape b) as (He & _); [by apply list_elem_of_In|]. lia.
Qed.

(** Reduction to all the parsed blocks writes the document back. *)
Lemma create_partial_template_full text fp :
  _create_partial_template (parse_file fp text) (_parse_content text fp) = text.
Proof.
  rewrite create_partial_template_map. cbn [original_content parse_file].
  rewrite <- (join_splitlines text) at 3. f_equal.
  rewrite <- (map_snd_enumerate_from 0 (PyStr.splitlines true text)) at 2.
  apply map_ext_in. intros [i line] Hin%list_elem_of_In.
  unfold block_line. cbn [fst snd].
  destruct (blank line) eqn:Hb; [by destruct (bool_decide _)|].
  rewrite bool_decide_eq_true_2; [done|]. by eapply nonblank_line_included.
Qed.

(** *** Line-cutoff reduction *)

Lemma structure_map_other (ls : list str) c (m0 : gmap Z bool) k :
  k <= c ->
  fold_left (fun structure_map '(i, line) =>
               <[ i + 1 := is_control_line line ]> structure_map)
            (enumerate_from c ls) m0 !! k = m0 !! k.
Proof.
  revert c m0. induction ls as [|l ls IH]; intros c m0 Hk; simpl; [done|].
  rewrite IH by lia. apply lookup_insert_ne. lia.
Qed.

Lemma structure_map_lookup (ls : list str) c (m0 : gmap Z bool) (j : nat) l0 :
  ls !! j = Some l0 ->
  fold_left (fun structure_map '(i, line) =>
               <[ i + 1 := is_control_line line ]> structure_map)
            (enumerate_from c ls) m0 !! (c + Z.of_nat j + 1)
  = Some (is_control_line l0).
Proof.
  revert c m0 j. induction ls as [|l ls IH]; intros c m0 j; [done|].
  destruct j as [|j]; intros H; simpl in H; cbn [enumerate_from fold_left].
  - injection H as ->. rewrite structure_map_other by lia.
    replace (c + Z.of_nat 0 + 1) with (c + 1) by lia. apply lookup_insert_eq.
  - replace (c + Z.of_nat (S j) + 1) with (c + 1 + Z.of_nat j + 1) by lia.
    by apply IH.
Qed.

Lemma partial_lines_fold N (smap : gmap Z bool) keep bare c acc :
  length keep = length bare ->
  (forall (j : nat) l0, bare !! j = Some l0 ->
     smap !! (c + Z.of_nat j + 1) = Some (is_control_line l0)) ->
  fold_left
    (fun new_lines '(i, line) =>
       let line_num := i + 1 in
       if line_num <=? N then new_lines ++ [line]
       else if default false (smap !! line_num) then new_lines ++ [line]
       else
         let stripped := PyStr.rstrip [PyStr.LF; PyStr.CR] line in
         if is_empty (PyStr.strip stripped)
         then new_lines ++ [line]
         else new_lines ++ [[PyStr.LF]])
    (enumerate_from c keep) acc
  = acc ++ cut_lines N (c + 1) keep bare.
Proof.
  revert bare c acc. induction keep as [|line keep IH]; intros bare c acc Hlen Hmap.
  - simpl. by rewrite app_nil_r.
  - destruct bare as [|l0 bare]; [done|].
    cbn [enumerate_from fold_left cut_lines].
    rewrite (IH bare (c + 1)).
    + match goal with |- ?X ++ _ = _ =>
        replace X with (acc ++ [cut_line N (c + 1) line l0])
      end.
      { by rewrite <- app_assoc. }
      unfold cut_line, blank. cbn zeta.
      pose proof (Hmap 0%nat l0 eq_refl) as H0.
      replace (c + Z.of_nat 0 + 1) with (c + 1) in H0 by lia.
      rewrite H0, strip_rstrip_newlines. cbn [default].
      destruct (c + 1 <=? N); [done|].
      destruct (is_control_line l0); [done|].
      by destruct (is_empty (PyStr.strip line)).
    + simpl in Hlen. lia.
    + intros j l Hj. specialize (Hmap (S j) l Hj).
      replace (c + 1 + Z.of_nat j + 1) with (c + Z.of_nat (S j) + 1) by lia. done.
Qed.

(** Line-cutoff reduction, line by line. *)
Lemma partial_lines_cut t N :
  partial_lines t N
  = cut_lines N 1 (PyStr.splitlines true (original_content t))
                  (PyStr.splitlines false (original_content t)).
Proof.
  unfold partial_lines, enumerate.
  rewrite (partial_lines_fold N _ _ (PyStr.splitlines false (original_content t))).
  - done.
  - apply length_splitlines.
  - intros j l0 Hj. unfold get_structure_map, enumerate.
    by apply (structure_map_lookup _ 0).
Qed.

Lemma cut_lines_all N n keep bare :
  length keep = length bare -> n + len keep <= N + 1 ->
  cut_lines N n keep bare = keep.
Proof.
  revert n bare. induction keep as [|line keep IH]; intros n bare Hlen HN; [done|].
  destruct bare as [|l0 bare]; [done|]. unfold len in *. simpl in *.
  unfold cut_line. rewrite (proj2 (Z.leb_le n N)) by lia.
  f_equal. apply IH; lia.
Qed.

(** Reduction at the last line writes the document back. *)
Lemma create_partial_by_line_full t :
  _create_partial_by_line t (total_lines t) = original_content t.
Proof.
  unfold _create_partial_by_line. rewrite partial_lines_cut.
  rewrite cut_lines_all.
  - apply join_splitlines.
  - apply length_splitlines.
  - unfold total_lines, len. rewrite length_splitlines.
    destruct (original_content t); [done | lia].
Qed.

Lemma cut_lines_lookup N n keep bare (i : nat) line l0 :
  keep !! i = Some line -> bare !! i = Some l0 ->
  cut_lines N n keep bare !! i = Some (cut_line N (n + Z.of_nat i) line l0).
Proof.
  revert n bare i. induction keep as [|x keep IH]; intros n bare i; [done|].
  destruct bare as [|y bare]; [done|].
  destruct i as [|i]; simpl.
  - intros [= ->] [= ->]. by rewrite Z.add_0_r.
  - intros H1 H2. rewrite (IH _ _ _ H1 H2). do 2 f_equal. lia.
Qed.

Lemma length_cut_lines N n keep bare :
  length keep = length bare -> length (cut_lines N n keep bare) = length keep.
Proof.
  revert n bare. induction keep as [|x keep IH]; intros n [|y bare] Hlen; try done.
  simpl in *. f_equal. apply IH. lia.
Qed.

(** *** Kinds and control lines *)

Lemma control_pattern r l :
  In r CONTROL_PATTERNS -> search r l = true -> is_control_line l = true.
Proof. intros Hin Hr. apply existsb_exists. by exists r. Qed.

(** A pattern of the parser that ends in [\s+] and is found in the stripped
    line is found, with [\s] at its end, in the line itself. *)
Lemma control_line_plus rs s a b :
  In (cats (rs ++ [Space])) CONTROL_PATTERNS ->
  search (cats (rs ++ [Plus Space])) s = true ->
  is_control_line (a ++ s ++ b) = true.
Proof.
  intros Hin Hs. eapply control_pattern; [done|].
  by apply search_infix, search_plus_last.
Qed.

Lemma control_line_same r s a b :
  In r CONTROL_PATTERNS -> search r s = true -> is_control_line (a ++ s ++ b) = true.
Proof. intros Hin Hs. eapply control_pattern; [done | by apply search_infix]. Qed.

Ltac in_control_patterns :=
  unfold CONTROL_PATTERNS;
  repeat first [ left; reflexivity | right ].

(** Every line that the parser files under if, range, with, define, end,
    else, else-if or template is a control line of the analyzer. *)
Lemma kept_kind_control line l0 eol :
  line = l0 ++ eol -> forallb PyStr.isspace eol = true ->
  kept_kind (_detect_block_type line) = true ->
  is_control_line l0 = true.
Proof.
  intros -> Heol. unfold _detect_block_type.
  rewrite strip_app_space by done.
  destruct (strip_infix l0) as (a & b & Hl0).
  set (s := PyStr.strip l0) in *. clearbody s. subst l0.
  destruct (search (PATTERNS k_comment) s); [done|].
  destruct (search (PATTERNS k_else_if) s) eqn:E.
  { intros _.
    apply (control_line_plus (action_open ++ [Lit "else"; Plus Space; Lit "if"]));
      [in_control_patterns | exact E]. }
  clear E. destruct (search (PATTERNS k_else) s) eqn:E.
  { intros _. apply (control_line_same (PATTERNS k_else)); [in_control_patterns | exact E]. }
  clear E. destruct (search (PATTERNS k_end) s) eqn:E.
  { intros _. apply (control_line_same (PATTERNS k_end)); [in_control_patterns | exact E]. }
  clear E. destruct (search (PATTERNS k_if_start) s) eqn:E.
  { intros _. apply (control_line_plus (action_open ++ [Lit "if"]));
      [in_control_patterns | exact E]. }
  clear E. destruct (search (PATTERNS k_range_start) s) eqn:E.
  { intros _. apply (control_line_plus (action_open ++ [Lit "range"]));
      [in_control_patterns | exact E]. }
  clear E. destruct (search (PATTERNS k_with_start) s) eqn:E.
  { intros _. apply (control_line_plus (action_open ++ [Lit "with"]));
      [in_control_patterns | exact E]. }
  clear E. destruct (search (PATTERNS k_define_start) s) eqn:E.
  { intros _. apply (control_line_plus (action_open ++ [Lit "define"]));
      [in_control_patterns | exact E]. }
  clear E. destruct (search (PATTERNS k_template) s) eqn:E.
  { intros _. apply (control_line_plus (action_open ++ [Lit "template"]));
      [in_control_patterns | exact E]. }
  destruct (search (PATTERNS k_include) s); [done|].
  by destruct (search (PATTERNS k_expression) s).
Qed.

(** A blank line has no kind but plain. *)
Lemma blank_plain line : blank line = true -> _detect_block_type line = PLAIN.
Proof.
  unfold blank, _detect_block_type. destruct (PyStr.strip line); [|done].
  intros _. by vm_compute.
Qed.

Lemma count_kind_cons P l ls :
  count_kind P (l :: ls)
  = ((if P (_detect_block_type l) then 1 else 0) + count_kind P ls)%nat.
Proof. unfold count_kind. simpl. by destruct (P (_detect_block_type l)). Qed.

(** Reduction and the skeleton hold the same lines of every kind that the
    analyzer is known to keep. *)
Lemma count_kind_cut P N n keep bare :
  (forall ty, P ty = true -> kept_kind ty = true) ->
  Forall2 (fun line l0 => exists eol, line = l0 ++ eol
                                      /\ forallb PyStr.isspace eol = true) keep bare ->
  count_kind P (cut_lines N n keep bare) = count_kind P (skeleton N n keep).
Proof.
  intros HP Hlines. revert n.
  assert (Hplain : P PLAIN = false).
  { destruct (P PLAIN) eqn:HPp; [|done]. by apply HP in HPp. }
  induction Hlines as [|line l0 keep bare (eol & Hline & Heol) _ IH]; intros n; [done|].
  cbn [cut_lines skeleton]. rewrite count_kind_cons, IH. unfold cut_line.
  destruct (n <=? N); cbn [orb app]; [by rewrite count_kind_cons|].
  destruct (P (_detect_block_type line)) eqn:Hkind.
  - pose proof (HP _ Hkind) as Hkept.
    rewrite (kept_kind_control line l0 eol Hline Heol Hkept).
    replace (control_kind (_detect_block_type line)) with true
      by (by destruct (_detect_block_type line)).
    cbn [app]. by rewrite count_kind_cons, Hkind.
  - assert (Hwritten : P (_detect_block_type
                            (if is_control_line l0 then line
                             else if blank line then line else [PyStr.LF])) = false).
    { destruct (is_control_line l0); [done|]. destruct (blank line); [done|].
      by rewrite (blank_plain [PyStr.LF]). }
    rewrite Hwritten.
    destruct (control_kind (_detect_block_type line)); cbn [app]; [|done].
    by rewrite count_kind_cons, Hkind.
Qed.

(** The skeleton holds every line of the document of a kind that is a
    control construct. *)
Lemma count_kind_skeleton P N n keep :
  (forall ty, P ty = true -> control_kind ty = true) ->
  count_kind P (skeleton N n keep) = count_kind P keep.
Proof.
  intros HP. revert n. induction keep as [|line keep IH]; intros n; [done|].
  cbn [skeleton]. rewrite count_kind_cons, <- (IH (n + 1)).
  destruct (P (_detect_block_type line)) eqn:Hkind.
  - rewrite (HP _ Hkind), orb_true_r. cbn [app]. by rewrite count_kind_cons, Hkind.
  - destruct ((n <=? N) || _); cbn [app]; [|done]. by rewrite count_kind_cons, Hkind.
Qed.

End ReduceFacts.

(** ** From the lines written to the text written *)

Module TextFacts.
Import Parser LineSearcher Spec Cut Lines PyStrFacts ReduceFacts.
Import PyStr.

Lemma list_ind2 {A} (P : list A -> Prop) :
  P [] ->
  (forall x, P [x]) ->
  (forall x y l, P l -> P (y :: l) -> P (x :: y :: l)) ->
  forall l, P l.
Proof.
  intros H0 H1 H2 l.
  assert (P l /\ forall x, P (x :: l)) as [? _]; [|done].
  induction l as [|y l [IH1 IH2]]; [by split|].
  split; [apply IH2|]. intros x. apply H2; [done | apply IH2].
Qed.

Lemma closed_line_LF : closed_line [LF].
Proof. exists [], [LF]. repeat split. left. by exists LF. Qed.

Lemma lines_ok_cons_line c ls :
  islinebreak c = false -> lines_ok ls -> lines_ok (cons_line c ls).
Proof.
  intros Hc Hls. destruct ls as [|l ls]; simpl.
  - split; [|done]. right. repeat split; [|done]. simpl. by rewrite Hc.
  - destruct Hls as [Hl Hls]. split; [|done].
    destruct Hl as [(body & eol & -> & Hb & He) | [[Hb Hne] ->]].
    + left. exists (c :: body), eol. repeat split; [|done]. simpl. by rewrite Hc.
    + right. repeat split; [|done]. simpl. by rewrite Hc.
Qed.

(** The lines of [splitlines(keepends=True)] are lines. *)
Lemma splitlines_lines_ok s : lines_ok (splitlines true s).
Proof.
  induction s as [|c|c c2 s IH1 IH2] using str_ind2.
  - done.
  - simpl. destruct (islinebreak c) eqn:Hc; simpl.
    + split; [|done]. left. exists [], [c]. repeat split. left. by exists c.
    + split; [|done]. right. repeat split; [|done]. simpl. by rewrite Hc.
  - change (splitlines true (c :: c2 :: s)) with
      (if islinebreak c then
         if (c =? CR)%N && (c2 =? LF)%N
         then [c; c2] :: splitlines true s
         else [c] :: splitlines true (c2 :: s)
       else cons_line c (splitlines true (c2 :: s))).
    destruct (islinebreak c) eqn:Hc; [|by apply lines_ok_cons_line].
    destruct ((c =? CR)%N && (c2 =? LF)%N) eqn:Hcr.
    + apply andb_true_iff in Hcr as [->%N.eqb_eq ->%N.eqb_eq].
      split; [|done]. left. exists [], [CR; LF]. repeat split. by right.
    + split; [|done]. left. exists [], [c]. repeat split. left. by exists c.
Qed.

(** Reduction keeps them lines. *)
Lemma cut_lines_ok N n keep bare :
  lines_ok keep -> lines_ok (cut_lines N n keep bare).
Proof.
  revert n bare. induction keep as [|l keep IH]; intros n [|l0 bare] Hok; try done.
  destruct Hok as [Hl Hok]. cbn [cut_lines lines_ok]. split; [|by apply IH].
  unfold cut_line.
  assert (Hkeep : closed_line l \/ open_line l /\ cut_lines N (n + 1) keep bare = []).
  { destruct Hl as [?|[? ->]]; [by left | by right]. }
  destruct (n <=? N); [done|]. destruct (is_control_line l0); [done|].
  destruct (blank l); [done|]. left. apply closed_line_LF.
Qed.

(** A text that starts with a closed line splits after it, unless the line
    ends in ["\r"] and the text goes on with ["\n"]. *)
Lemma splitlines_closed body eol rest :
  no_break body = true -> is_eol eol ->
  splitlines true (body ++ eol ++ rest)
  = match rest with
    | c2 :: rest' =>
        if bool_decide (eol = [CR]) && (c2 =? LF)%N
        then (body ++ [CR; LF]) :: splitlines true rest'
        else (body ++ eol) :: splitlines true rest
    | [] => [body ++ eol]
    end.
Proof.
  intros Hb He. induction body as [|c body IH].
  - cbn [app]. destruct He as [(c & -> & Hc) | ->].
    + cbn [app splitlines]. rewrite Hc. destruct rest as [|c2 rest']; [done|].
      destruct (decide (c = CR)) as [->|Hne].
      * rewrite N.eqb_refl, bool_decide_eq_true_2 by done. cbn [andb].
        destruct (c2 =? LF)%N eqn:H2; [apply N.eqb_eq in H2 as ->|]; done.
      * rewrite (proj2 (N.eqb_neq c CR) Hne). cbn [andb].
        rewrite bool_decide_eq_false_2; [done | congruence].
    + change (splitlines true ([CR; LF] ++ rest))
        with ([CR; LF] :: splitlines true rest).
      destruct rest as [|c2 rest']; [done|].
      rewrite bool_decide_eq_false_2; [done | congruence].
  - simpl in Hb. apply andb_true_iff in Hb as [Hc Hb]. apply negb_true_iff in Hc.
    specialize (IH Hb).
    change (splitlines true ((c :: body) ++ eol ++ rest))
      with (splitlines true (c :: (body ++ eol ++ rest))).
    assert (Hsplit : splitlines true (c :: body ++ eol ++ rest)
                     = cons_line c (splitlines true (body ++ eol ++ rest))).
    { destruct (body ++ eol ++ rest); simpl; by rewrite Hc. }
    rewrite Hsplit, IH. destruct rest as [|c2 rest']; [done|].
    by destruct (bool_decide (eol = [CR]) && (c2 =? LF)%N).
Qed.

Lemma splitlines_open l : open_line l -> splitlines true l = [l].
Proof.
  intros [Hb Hne]. induction l as [|c l IH]; [done|].
  simpl in Hb. apply andb_true_iff in Hb as [Hc Hb]. apply negb_true_iff in Hc.
  destruct l as [|c' l].
  - simpl. by rewrite Hc.
  - assert (Hsplit : splitlines true (c :: c' :: l)
                     = cons_line c (splitlines true (c' :: l))).
    { simpl. by rewrite Hc. }
    rewrite Hsplit, IH; done.
Qed.

(** A line that starts with ["\n"] is that boundary alone. *)
Lemma line_starts_LF l rest (ls : list str) :
  closed_line l \/ open_line l /\ ls = [] -> l = LF :: rest -> rest = [].
Proof.
  intros [(body & eol & Hl & Hb & He) | [[Hb _] _]] ->.
  - destruct body as [|c body].
    + destruct He as [(c & -> & _) | ->]; simpl in Hl; injection Hl as H1 H2;
        [done | by vm_compute in H1].
    + injection Hl as <- _. done.
  - done.
Qed.

(** White space at the end of a line does not change its kind. *)
Lemma detect_app_space s w :
  forallb isspace w = true -> _detect_block_type (s ++ w) = _detect_block_type s.
Proof. intros Hw. unfold _detect_block_type. by rewrite strip_app_space. Qed.

(** Splitting the text written gives, for every kind but plain, as many
    lines as were written. *)
Lemma count_kind_join P ls :
  P PLAIN = false -> lines_ok ls ->
  count_kind P (splitlines true (join ls)) = count_kind P ls.
Proof.
  intros HP. induction ls as [|l|l l2 ls IH1 IH2] using list_ind2; intros Hok.
  - done.
  - destruct Hok as [[(body & eol & -> & Hb & He) | [Hopen _]] _].
    + unfold join. cbn [concat]. rewrite <- app_assoc.
      by rewrite splitlines_closed.
    + unfold join. cbn [concat]. rewrite app_nil_r. by rewrite splitlines_open.
  - destruct Hok as [[(body & eol & -> & Hb & He) | [_ ?]] Hok2]; [|done].
    specialize (IH2 Hok2). pose proof Hok2 as [Hl2 Hok3]. specialize (IH1 Hok3).
    unfold join in *. cbn [concat] in *. rewrite <- app_assoc.
    rewrite splitlines_closed by done.
    destruct (l2 ++ concat ls) as [|c2 rest'] eqn:Hrest.
    { destruct l2; [|done].
      destruct Hl2 as [(b & e & Hnil & _ & He2) | [[_ ?] _]]; [|done].
      symmetry in Hnil. apply app_eq_nil in Hnil as [_ ->].
      by destruct He2 as [(? & ? & _) | ?]. }
    destruct (bool_decide (eol = [CR]) && (c2 =? LF)%N) eqn:Hmerge.
    + apply andb_true_iff in Hmerge as [->%bool_decide_eq_true ->%N.eqb_eq].
      destruct l2 as [|c l2'].
      { destruct Hl2 as [(b & e & Hnil & _ & He2) | [[_ ?] _]]; [|done].
        symmetry in Hnil. apply app_eq_nil in Hnil as [_ ->].
        by destruct He2 as [(? & ? & _) | ?]. }
      injection Hrest as -> <-.
      pose proof (line_starts_LF _ _ _ Hl2 eq_refl) as ->. cbn [app].
      rewrite !count_kind_cons, IH1.
      rewrite (detect_app_space body [CR; LF]), (detect_app_space body [CR]) by done.
      by rewrite (blank_plain [LF]), HP.
    + rewrite !count_kind_cons.
      rewrite count_kind_cons in IH2. by rewrite IH2.
Qed.

End TextFacts.

(** ** The search engine *)

Module SearchFacts.
Import Parser Executor LineSearcher Trail.

Section Bisection.
Context {World : Type}.
Variable run_template : chart -> World -> HelmResult * World.

Lemma bisection_unfold (probe : Z -> Env World -> HelmResult * Env World)
    low high last_good failing e :
  bisection probe low high last_good failing e
  = if decide (low <= high) then
      let mid := (low + high) `div` 2 in
      let re := probe mid e in
      let rest :=
        if success (fst re)
        then bisection probe (mid + 1) high mid failing (snd re)
        else bisection probe low (mid - 1) last_good (Some mid) (snd re) in
      (rest.1.1.1, rest.1.1.2, (mid, fst re) :: rest.1.2, rest.2)
    else (last_good, failing, [], e).
Proof.
  rewrite bisection_equation_1. destruct (decide (low <= high)); by simp bisection.
Qed.

Lemma block_bisect_unfold t low high last_successful failing_index steps step_number e :
  Searcher.bisect run_template t low high last_successful failing_index steps
                  step_number e
  = if decide (low <= high) then
      let mid := (low + high) `div` 2 in
      let re := execute_up_to_block run_template t mid e in
      let steps :=
        steps ++ [Searcher.mkSearchStep (step_number + 1) (Searcher.tested mid)
                    (fst re) (Some mid)] in
      if success (fst re)
      then Searcher.bisect run_template t (mid + 1) high mid failing_index steps
                           (step_number + 1) (snd re)
      else Searcher.bisect run_template t low (mid - 1) last_successful (Some mid)
                           steps (step_number + 1) (snd re)
    else (last_successful, failing_index, steps, e).
Proof.
  rewrite Searcher.bisect_equation_1.
  destruct (decide (low <= high)); by simp bisect.
Qed.

Lemma line_bisect_unfold t low high last_successful failing_line
    last_successful_result steps step_number e :
  LineSearcher.bisect run_template t low high last_successful failing_line
                      last_successful_result steps step_number e
  = if decide (low <= high) then
      let mid := (low + high) `div` 2 in
      let re := execute_up_to_line run_template t mid e in
      let steps :=
        steps ++ [mkLineSearchStep (step_number + 1) (tested mid) (fst re) (Some mid)] in
      if success (fst re)
      then LineSearcher.bisect run_template t (mid + 1) high mid failing_line
                               (Some (fst re)) steps (step_number + 1) (snd re)
      else LineSearcher.bisect run_template t low (mid - 1) last_successful (Some mid)
                               last_successful_result steps (step_number + 1) (snd re)
    else (last_successful, failing_line, last_successful_result, steps, e).
Proof.
  rewrite LineSearcher.bisect_equation_1.
  destruct (decide (low <= high)); by simp bisect.
Qed.

(** Induction on the width of the interval. *)
Lemma interval_ind (P : Z -> Z -> Prop) :
  (forall low high,
     (forall low' high', (high' - low' < high - low) -> low <= high -> P low' high') ->
     P low high) ->
  forall low high, P low high.
Proof.
  intros Hstep low high.
  remember (Z.to_nat (high - low + 1)) as n eqn:Hn.
  revert low high Hn. induction n as [n IH] using lt_wf_ind. intros low high ->.
  apply Hstep. intros low' high' Hlt Hle.
  apply (IH (Z.to_nat (high' - low' + 1))); [lia | done].
Qed.

(** The block searcher's loop is the bisection of the specification. *)
Lemma block_bisect_bisection t low high last_successful failing_index steps
    step_number e :
  Searcher.bisect run_template t low high last_successful failing_index steps
                  step_number e
  = let res := bisection (execute_up_to_block run_template t) low high
                         last_successful failing_index e in
    (res.1.1.1, res.1.1.2, steps ++ block_steps step_number res.1.2, res.2).
Proof.
  revert last_successful failing_index steps step_number e.
  pattern low, high. apply interval_ind. clear low high. intros low high H.
  intros last_successful failing_index steps step_number e.
  rewrite block_bisect_unfold, bisection_unfold.
  destruct (decide (low <= high)) as [Hle|Hgt]; cbn zeta.
  - destruct (success (execute_up_to_block run_template t _ e).1).
    + rewrite H by (Z.div_mod_to_equations; lia). cbn.
      by rewrite <- app_assoc.
    + rewrite H by (Z.div_mod_to_equations; lia). cbn.
      by rewrite <- app_assoc.
  - cbn. by rewrite app_nil_r.
Qed.

(** So is the line searcher's loop. *)
Lemma line_bisect_bisection t low high last_successful failing_line
    last_successful_result steps step_number e :
  LineSearcher.bisect run_template t low high last_successful failing_line
                      last_successful_result steps step_number e
  = let res := bisection (execute_up_to_line run_template t) low high
                         last_successful failing_line e in
    (res.1.1.1, res.1.1.2, last_passed last_successful_result res.1.2,
     steps ++ line_steps step_number res.1.2, res.2).
Proof.
  revert last_successful failing_line last_successful_result steps step_number e.
  pattern low, high. apply interval_ind. clear low high. intros low high H.
  intros last_successful failing_line last_successful_result steps step_number e.
  rewrite line_bisect_unfold, bisection_unfold.
  destruct (decide (low <= high)) as [Hle|Hgt]; cbn zeta.
  - destruct (success (execute_up_to_line run_template t _ e).1) eqn:Hs.
    + rewrite H by (Z.div_mod_to_equations; lia). cbn. rewrite Hs.
      by rewrite <- app_assoc.
    + rewrite H by (Z.div_mod_to_equations; lia). cbn. rewrite Hs.
      by rewrite <- app_assoc.
  - cbn. by rewrite app_nil_r.
Qed.

(** When the loop is left, the interval is empty and closed from both
    sides: a failing cutoff, if one was met, is the one after the last
    cutoff that passed. *)
Lemma bisection_gap probe low high last_good failing (e : Env World) :
  low <= high + 1 -> last_good = low - 1 ->
  let res := bisection probe low high last_good failing e in
  low - 1 <= res.1.1.1 <= high
  /\ ((res.1.1.2 = failing /\ res.1.1.1 = high)
      \/ (res.1.1.2 = Some (res.1.1.1 + 1) /\ res.1.1.1 < high)).
Proof.
  revert last_good failing e.
  pattern low, high. apply interval_ind. clear low high. intros low high IH.
  intros last_good failing e Hle ->. rewrite bisection_unfold.
  destruct (decide (low <= high)) as [Hlh|Hlh]; cbn zeta.
  - set (mid := (low + high) `div` 2).
    assert (low <= mid <= high) by (subst mid; Z.div_mod_to_equations; lia).
    destruct (success (probe mid e).1); cbn [fst snd].
    + destruct (IH (mid + 1) high ltac:(lia) Hlh mid failing (probe mid e).2
                   ltac:(lia) ltac:(lia)) as [? [[? ?]|[? ?]]].
      * split; [lia|]. left. split; [done | lia].
      * split; [lia|]. right. split; [done | lia].
    + destruct (IH low (mid - 1) ltac:(lia) Hlh (low - 1) (Some mid) (probe mid e).2
                   ltac:(lia) ltac:(lia)) as [? [[Hf Hl]|[? ?]]].
      * split; [lia|]. right. rewrite Hf, Hl. split; [f_equal; lia | lia].
      * split; [lia|]. right. split; [done | lia].
  - cbn. split; [lia|]. left. split; [done | lia].
Qed.

(** The loop makes at most [floor(log2 n) + 1] probes on an interval of
    [n] cutoffs. *)
Lemma bisection_steps probe low high last_good failing (e : Env World) :
  low <= high ->
  len (bisection probe low high last_good failing e).1.2
  <= Z.log2 (high - low + 1) + 1.
Proof.
  revert last_good failing e.
  pattern low, high. apply interval_ind. clear low high. intros low high IH.
  intros last_good failing e Hlh. rewrite bisection_unfold.
  destruct (decide (low <= high)) as [_|?]; [|done]. cbn zeta.
  set (mid := (low + high) `div` 2).
  assert (Hmid : low <= mid <= high
                 /\ 2 * (high - mid) <= high - low + 1
                 /\ 2 * (mid - low) <= high - low + 1)
    by (subst mid; Z.div_mod_to_equations; lia).
  assert (Hhalf : forall low' high', high' - low' < high - low ->
            2 * (high' - low' + 1) <= high - low + 1 ->
            forall lg f e', len (bisection probe low' high' lg f e').1.2
                            <= Z.log2 (high - low + 1)).
  { intros low' high' Hlt Hsz lg f e'.
    destruct (decide (low' <= high')) as [Hle'|Hgt'].
    - pose proof (IH low' high' Hlt Hlh lg f e' Hle') as Hrec.
      pose proof (Z.log2_double (high' - low' + 1) ltac:(lia)) as Hd.
      pose proof (Z.log2_le_mono (2 * (high' - low' + 1)) (high - low + 1)
                    ltac:(lia)) as Hm.
      lia.
    - rewrite bisection_unfold. destruct (decide (low' <= high')); [done|].
      cbn. apply Z.log2_nonneg. }
  unfold len in *. cbn [fst snd length].
  destruct (success (probe mid e).1); cbn [fst snd].
  - specialize (Hhalf (mid + 1) high ltac:(lia) ltac:(lia) mid failing (probe mid e).2).
    lia.
  - specialize (Hhalf low (mid - 1) ltac:(lia) ltac:(lia) last_good (Some mid)
                      (probe mid e).2).
    lia.
Qed.

(** Against a monotone oracle the loop ends on the first failing cutoff. *)
Lemma bisection_monotone probe low high last_good failing (e : Env World) k :
  (forall m e0, low <= m <= high -> success (probe m e0).1 = (m <? k)) ->
  low <= k <= high + 1 -> last_good = low - 1 ->
  let res := bisection probe low high last_good failing e in
  res.1.1.1 = k - 1
  /\ res.1.1.2 = (if decide (k <= high) then Some k else failing).
Proof.
  revert last_good failing e.
  pattern low, high. apply interval_ind. clear low high. intros low high IH.
  intros last_good failing e Hmono Hk ->. rewrite bisection_unfold.
  destruct (decide (low <= high)) as [Hlh|Hlh]; cbn zeta.
  - set (mid := (low + high) `div` 2).
    assert (low <= mid <= high) by (subst mid; Z.div_mod_to_equations; lia).
    rewrite Hmono by done. destruct (mid <? k) eqn:Hmk; cbn [fst snd].
    + apply Z.ltb_lt in Hmk.
      apply IH; [lia | done | | lia | lia].
      intros m e0 Hm. apply Hmono. lia.
    + apply Z.ltb_ge in Hmk.
      destruct (IH low (mid - 1) ltac:(lia) Hlh (low - 1) (Some mid) (probe mid e).2)
        as [Hl Hf]; [|lia|lia|].
      { intros m e0 Hm. apply Hmono. lia. }
      split; [done|]. rewrite Hf.
      destruct (decide (k <= mid - 1)), (decide (k <= high)); try lia; [done|].
      f_equal. lia.
  - cbn. split; [lia|]. destruct (decide (k <= high)); [lia | done].
Qed.

End Bisection.
End SearchFacts.

Module SearcherFacts.
Import Parser Executor LineSearcher Trail SearchFacts.

Lemma getitem_Some {A} (l : list A) i :
  0 <= i < len l -> exists x, getitem l i = Some x.
Proof.
  intros Hi. unfold getitem. rewrite (proj2 (Z.leb_le 0 i)) by lia.
  apply lookup_lt_is_Some_2. unfold len in Hi. lia.
Qed.

Lemma len_block_steps sn trail : len (block_steps sn trail) = len trail.
Proof.
  unfold len. f_equal. revert sn.
  induction trail as [|[m r] trail IH]; intros sn; [done|].
  simpl. by rewrite IH.
Qed.

Lemma len_line_steps sn trail : len (line_steps sn trail) = len trail.
Proof.
  unfold len. f_equal. revert sn.
  induction trail as [|[m r] trail IH]; intros sn; [done|].
  simpl. by rewrite IH.
Qed.

Lemma before_Some lines n : exists ctx, before lines n = Some ctx.
Proof.
  unfold before.
  assert (Hgen : forall (l : list Z) acc,
            Forall (fun i => 0 <= i) l ->
            exists ctx,
              fold_left
                (fun acc i =>
                   context_before ← acc;
                   if i <? len lines
                   then line ← getitem lines i; Some (context_before ++ [line])
                   else Some context_before)
                l (Some acc) = Some ctx).
  { induction l as [|i l IH]; intros acc Hl; [by exists acc|].
    apply Forall_cons in Hl as [Hi Hl]. cbn [fold_left mbind option_bind].
    destruct (i <? len lines) eqn:Hlt; [|by apply IH].
    apply Z.ltb_lt in Hlt.
    destruct (getitem_Some lines i ltac:(lia)) as [x ->]. by apply IH. }
  apply Hgen. apply Forall_forall. intros i Hi.
  unfold range in Hi. apply elem_of_seqZ in Hi. lia.
Qed.

Lemma after_Some lines n : 0 <= n -> exists ctx, after lines n = Some ctx.
Proof.
  intros Hn. unfold after.
  assert (Hgen : forall (l : list Z) acc,
            Forall (fun i => 0 <= i < len lines) l ->
            exists ctx,
              fold_left
                (fun acc i =>
                   context_after ← acc;
                   line ← getitem lines i; Some (context_after ++ [line]))
                l (Some acc) = Some ctx).
  { induction l as [|i l IH]; intros acc Hl; [by exists acc|].
    apply Forall_cons in Hl as [Hi Hl]. cbn [fold_left mbind option_bind].
    destruct (getitem_Some lines i Hi) as [x ->]. by apply IH. }
  apply Hgen. apply Forall_forall. intros i Hi.
  unfold range in Hi. apply elem_of_seqZ in Hi. lia.
Qed.

Lemma content_at_Some lines n : 1 <= n -> exists c, content_at lines n = Some c.
Proof.
  intros Hn. unfold content_at. destruct (n <=? len lines) eqn:Hle; [|by eexists].
  apply Z.leb_le in Hle. apply getitem_Some. lia.
Qed.

Lemma total_lines_len t :
  total_lines t = len (PyStr.splitlines false (original_content t)).
Proof. unfold total_lines. by destruct (original_content t). Qed.

Section Searchers.
Context {World : Type}.
Variable run_template : chart -> World -> HelmResult * World.

(** [BinarySearcher.search], once the full document has failed, in terms
    of the bisection of the specification. *)
Lemma block_search_run t (e : Env World) :
  blocks t <> [] ->
  success (validate_full_template run_template e).1 = false ->
  let res := bisection (execute_up_to_block run_template t) 0 (len (blocks t) - 1)
                       (-1) None (validate_full_template run_template e).2 in
  match res.1.1.2 with
  | Some fi =>
      exists b,
        getitem (blocks t) fi = Some b
        /\ Searcher.BinarySearcher_search run_template t e
           = Some (Searcher.mkSearchResult true (Some b) (Some fi)
                     (if 0 <=? res.1.1.1 then Some res.1.1.1 else None)
                     (block_steps 0 res.1.2)
                     (Some (execute_up_to_block run_template t fi res.2).1)
                     (Some t),
                   (execute_up_to_block run_template t fi res.2).2)
  | None =>
      Searcher.BinarySearcher_search run_template t e
      = Some (Searcher.mkSearchResult false None None None
                (block_steps 0 res.1.2) None (Some t),
              res.2)
  end.
Proof.
  intros Hne Hfull res. subst res.
  destruct (validate_full_template run_template e) as [full e1] eqn:Hv.
  cbn [fst snd] in *.
  set (res := bisection (execute_up_to_block run_template t) 0 (len (blocks t) - 1)
                        (-1) None e1).
  assert (Hlen : 0 < len (blocks t)).
  { unfold len. destruct (blocks t); [done | simpl; lia]. }
  pose proof (bisection_gap (execute_up_to_block run_template t) 0
                (len (blocks t) - 1) (-1) None e1 ltac:(lia) ltac:(lia))
    as [Hrange Hgap].
  fold res in Hrange, Hgap.
  unfold Searcher.BinarySearcher_search.
  destruct (blocks t) as [|b0 bs] eqn:Hbs; [done|]. cbn [is_empty].
  cbv [mbind M_bind bind lift]. rewrite Hv, Hfull.
  rewrite block_bisect_bisection. cbn zeta. fold res. cbn [app].
  destruct (res.1.1.2) as [fi|] eqn:Hfi.
  - destruct Hgap as [[? _]|[[= ->] Hlt]]; [done|].
    destruct (getitem_Some (b0 :: bs) (res.1.1.1 + 1) ltac:(lia)) as [b Hb].
    exists b. split; [done|]. cbv [try_]. rewrite Hb.
    by destruct (execute_up_to_block run_template t (res.1.1.1 + 1) res.2).
  - done.
Qed.

(** [LineBinarySearcher.search] in terms of the bisection of the
    specification. *)
Lemma line_search_run t (e : Env World) :
  total_lines t <> 0 ->
  let res := bisection (execute_up_to_line run_template t) 1 (total_lines t)
                       0 None e in
  match res.1.1.2 with
  | Some fl =>
      exists c ctx_before ctx_after,
        LineBinarySearcher_search run_template t e
        = Some (mkLineSearchResult true (Some fl) (Some c)
                  (if 0 <? res.1.1.1 then Some res.1.1.1 else None)
                  (line_steps 0 res.1.2)
                  (Some (execute_up_to_line run_template t fl res.2).1)
                  (last_passed None res.1.2) (Some t) ctx_before ctx_after,
                (execute_up_to_line run_template t fl res.2).2)
  | None =>
      LineBinarySearcher_search run_template t e
      = Some (no_error None (line_steps 0 res.1.2) t, res.2)
  end.
Proof.
  intros Hne res.
  assert (Hlen : 0 < total_lines t).
  { rewrite total_lines_len in *. unfold len in *. lia. }
  pose proof (bisection_gap (execute_up_to_line run_template t) 1
                (total_lines t) 0 None e ltac:(lia) ltac:(lia))
    as [Hrange Hgap].
  fold res in Hrange, Hgap.
  unfold LineBinarySearcher_search.
  rewrite (proj2 (Z.eqb_neq _ _) Hne).
  cbv [mbind M_bind bind lift].
  rewrite line_bisect_bisection. cbn zeta. fold res. cbn [app].
  destruct (res.1.1.2) as [fl|] eqn:Hfl; [|done].
  destruct Hgap as [[? _]|[[= ->] Hlt]]; [done|].
  set (lines := PyStr.splitlines false (original_content t)).
  destruct (content_at_Some lines (res.1.1.1 + 1) ltac:(lia)) as [c Hc].
  destruct (before_Some lines (res.1.1.1 + 1)) as [cb Hcb].
  destruct (after_Some lines (res.1.1.1 + 1) ltac:(lia)) as [ca Hca].
  exists c, cb, ca. cbv [try_]. rewrite Hc, Hcb, Hca.
  by destruct (execute_up_to_line run_template t (res.1.1.1 + 1) res.2).
Qed.

Lemma passed_but_last_cons x results :
  success x = true -> passed_but_last results -> passed_but_last (x :: results).
Proof.
  intros Hx Hrest [|j] y; simpl.
  - by intros [= <-].
  - intros Hy Hj. apply (Hrest j); [done | lia].
Qed.

Lemma passed_but_last_one x : passed_but_last [x].
Proof. intros [|j] y; simpl; [lia|done]. Qed.

(** The loop of [StepByStepSearcher.search] over the cutoffs
    [i, i + 1, ..., i + m - 1]. *)
Lemma block_step_loop_spec t start_from (m : nat) i prev steps (e : Env World) :
  0 <= i -> ((0 < m)%nat -> i + Z.of_nat m <= len (blocks t)) ->
  exists r e' results,
    Searcher.step_loop run_template t start_from (seqZ i (Z.of_nat m)) prev steps e = Some (r, e')
    /\ Searcher.steps r = steps ++ linear_block_steps start_from i results
    /\ probes_from run_template e (linear_trail (block_chart t) i results) e'
    /\ passed_but_last results
    /\ (if Searcher.found_error r
        then exists x, last results = Some x
                       /\ success x = false
                       /\ Searcher.failing_block_index r = Some (i + len results - 1)
                       /\ Searcher.error_result r = Some x
        else Forall (fun x => success x = true) results
             /\ len results = Z.of_nat m
             /\ Searcher.last_successful_block_index r = Some (len (blocks t) - 1)).
Proof.
  revert i prev steps e. induction m as [|m IH]; intros i prev steps e Hi Hm.
  - exists (Searcher.mkSearchResult false None None (Some (len (blocks t) - 1))
              steps None (Some t)), e, [].
    cbn. rewrite app_nil_r.
    split; [done|]. split; [done|]. split; [constructor|].
    split; [by intros [|?] ?|]. by repeat split.
  - rewrite seqZ_cons by lia. cbn [Searcher.step_loop].
    cbv [mbind M_bind bind lift].
    destruct (execute_up_to_block run_template t i e) as [x e1] eqn:Hx.
    destruct (success x) eqn:Hs.
    + destruct (IH (i + 1) i
                  (steps ++ [Searcher.mkSearchStep (i - start_from + 1)
                               (Searcher.tested i) x (Some i)]) e1)
        as (r & e' & results & Hrun & Hsteps & Hprobes & Hpass & Hres); [lia|lia|].
      exists r, e', (x :: results).
      replace (Z.succ i) with (i + 1) by lia.
      replace (Z.pred (Z.of_nat (S m))) with (Z.of_nat m) by lia.
      split; [done|]. split; [by rewrite Hsteps, <- app_assoc|].
      split; [by econstructor|]. split; [by apply passed_but_last_cons|].
      destruct (Searcher.found_error r).
      * destruct Hres as (y & Hlast & Hy & Hfi & Herr). exists y.
        split; [by rewrite last_cons, Hlast|]. split; [done|].
        split; [|done]. rewrite Hfi. unfold len. simpl length. f_equal. lia.
      * destruct Hres as (Hall & Hlen & Hlast).
        split; [by constructor|]. split; [|done]. unfold len in *. simpl length. lia.
    + destruct (getitem_Some (blocks t) i ltac:(lia)) as [b Hb].
      cbv [try_]. rewrite Hb.
      eexists _, e1, [x]. split; [done|]. cbn.
      split; [done|]. split; [econstructor; [done | constructor]|].
      split; [apply passed_but_last_one|].
      exists x. repeat split; try done. f_equal. unfold len. simpl. lia.
Qed.

(** The loop of [LineStepByStepSearcher.search] over the cutoffs
    [i, i + 1, ..., i + m - 1]. *)
Lemma line_step_loop_spec t start_line (m : nat) i prev last_result steps
    (e : Env World) :
  1 <= i ->
  exists r e' results,
    LineSearcher.step_loop run_template t start_line (seqZ i (Z.of_nat m)) prev last_result
                           steps e = Some (r, e')
    /\ LineSearcher.steps r = steps ++ linear_line_steps start_line i results
    /\ probes_from run_template e (linear_trail (line_chart t) i results) e'
    /\ passed_but_last results
    /\ (if found_error r
        then exists x, last results = Some x
                       /\ success x = false
                       /\ failing_line r = Some (i + len results - 1)
                       /\ error_result r = Some x
        else Forall (fun x => success x = true) results
             /\ len results = Z.of_nat m
             /\ last_successful_line r = Some (total_lines t)).
Proof.
  revert i prev last_result steps e.
  induction m as [|m IH]; intros i prev last_result steps e Hi.
  - exists (no_error (Some (total_lines t)) steps t), e, [].
    cbn. rewrite app_nil_r.
    split; [done|]. split; [done|]. split; [constructor|].
    split; [by intros [|?] ?|]. by repeat split.
  - rewrite seqZ_cons by lia. cbn [LineSearcher.step_loop].
    cbv [mbind M_bind bind lift].
    destruct (execute_up_to_line run_template t i e) as [x e1] eqn:Hx.
    destruct (success x) eqn:Hs.
    + destruct (IH (i + 1) i (Some x)
                  (steps ++ [mkLineSearchStep (i - start_line + 1) (tested i) x (Some i)])
                  e1)
        as (r & e' & results & Hrun & Hsteps & Hprobes & Hpass & Hres); [lia|].
      exists r, e', (x :: results).
      replace (Z.succ i) with (i + 1) by lia.
      replace (Z.pred (Z.of_nat (S m))) with (Z.of_nat m) by lia.
      split; [done|]. split; [by rewrite Hsteps, <- app_assoc|].
      split; [by econstructor|]. split; [by apply passed_but_last_cons|].
      destruct (found_error r).
      * destruct Hres as (y & Hlast & Hy & Hfi & Herr). exists y.
        split; [by rewrite last_cons, Hlast|]. split; [done|].
        split; [|done]. rewrite Hfi. unfold len. simpl length. f_equal. lia.
      * destruct Hres as (Hall & Hlen & Hlast).
        split; [by constructor|]. split; [|done]. unfold len in *. simpl length. lia.
    + set (lines := PyStr.splitlines false (original_content t)).
      destruct (content_at_Some lines i Hi) as [c Hc].
      destruct (before_Some lines i) as [cb Hcb].
      destruct (after_Some lines i ltac:(lia)) as [ca Hca].
      cbv [try_]. rewrite Hc, Hcb, Hca.
      eexists _, e1, [x]. split; [done|]. cbn.
      split; [done|]. split; [econstructor; [done | constructor]|].
      split; [apply passed_but_last_one|].
      exists x. repeat split; try done. f_equal. unfold len. simpl. lia.
Qed.

End Searchers.
End SearcherFacts.

(** ** The model on small inputs *)

Module Checks.
Import Parser Executor LineSearcher.

(** ["a\r\nb\n\nc\rd".splitlines(True)] *)
Example splitlines_keepends_ex :
  PyStr.splitlines true [97; 13; 10; 98; 10; 10; 99; 13; 100]%N
  = [[97; 13; 10]; [98; 10]; [10]; [99; 13]; [100]]%N.
Proof. reflexivity. Qed.

(** ["a\r\nb\n\nc\rd".splitlines()] *)
Example splitlines_ex :
  PyStr.splitlines false [97; 13; 10; 98; 10; 10; 99; 13; 100]%N
  = [[97]; [98]; []; [99]; [100]]%N.
Proof. reflexivity. Qed.

(** [" \ta b\n\r".strip()] *)
Example strip_ex : PyStr.strip [32; 9; 97; 32; 98; 10; 13]%N = [97; 32; 98]%N.
Proof. reflexivity. Qed.

(** [str(-12)] and [str(0)] *)
Example of_Z_ex : PyStr.of_Z (-12) = of_string "-12" /\ PyStr.of_Z 0 = of_string "0".
Proof. split; reflexivity. Qed.

(** [l[:-1]], [l[:2]], [l[:9]] and [l[:-9]] *)
Example slice_to_ex :
  slice_to [1; 2; 3; 4] (-1) = [1; 2; 3] /\ slice_to [1; 2; 3; 4] 2 = [1; 2]
  /\ slice_to [1; 2; 3; 4] 9 = [1; 2; 3; 4] /\ slice_to [1; 2; 3; 4] (-9) = [].
Proof. repeat split; reflexivity. Qed.

(** [l[-1]] wraps around, [l[4]] and [l[-5]] raise. *)
Example getitem_ex :
  getitem [1; 2; 3; 4] (-1) = Some 4 /\ getitem [1; 2; 3; 4] 4 = None
  /\ getitem [1; 2; 3; 4] (-5) = None.
Proof. repeat split; reflexivity. Qed.

Example detect_ex :
  map (fun s => _detect_block_type (of_string s))
      [ "{{- if .Values.x }}"; "{{if}}"; "{{ else if .x }}"; "{{ else }}";
        "{{- end -}}"; "  {{ range .items }}"; "{{ template foo . }}";
        "{{ include foo . | nindent 4 }}"; "{{/* note */}}";
        "name: {{ .Values.name }}"; "key: value"; "{{ block foo . }}";
        "{{/* c */}} {{ if .x }}" ]%string
  = [ IF; EXPRESSION; ELSE_IF; ELSE; END; RANGE; TEMPLATE; INCLUDE; COMMENT;
      EXPRESSION; PLAIN; EXPRESSION; COMMENT ].
Proof. by vm_compute. Qed.

Example is_control_line_ex :
  map (fun s => is_control_line (of_string s))
      [ "{{- if .Values.x }}"; "{{if}}"; "{{ else if .x }}"; "{{ else }}";
        "{{- end -}}"; "  {{ range .items }}"; "{{ template foo . }}";
        "{{ include foo . | nindent 4 }}"; "{{/* note */}}";
        "name: {{ .Values.name }}"; "key: value"; "{{ block foo . }}";
        "{{/* c */}} {{ if .x }}" ]%string
  = [ true; false; true; true; true; true; true; false; false; false; false;
      true; true ].
Proof. by vm_compute. Qed.

(** The scenario of the specification: ten units, the seventh refused. *)
Example ten_units_ex :
  match Searcher.BinarySearcher_search Examples.refuses_bad Examples.ten_lines
          Examples.start with
  | Some (r, e') =>
      Searcher.found_error r = true
      /\ Searcher.failing_block_index r = Some 6
      /\ Searcher.last_successful_block_index r = Some 5
      /\ map Searcher.block_index (Searcher.steps r) = [Some 4; Some 7; Some 5; Some 6]
      /\ length (probed e') = 6%nat
  | None => False
  end.
Proof. by vm_compute. Qed.

End Checks.

(** * The claims *)

Section BlockModel.
Import Parser Spec ParserFacts.

(** C6. Parsing is a function of the text alone and is defined on every
    text.  Its units are, in order, the lines that are not blank: each such
    line gives exactly one unit, which starts and ends on that line and
    holds it, and a blank line gives none.  The kind of a unit is the first
    match in the order comment, else-if, else, end, if, range, with, define,
    template, include, expression, and plain when nothing matches.  The
    empty document has no unit and no line. *)
Theorem parse_one_unit_per_nonblank_line (text : str) (fp : path) :
  let lines := PyStr.splitlines true text in
  let parsed := _parse_content text fp in
  map (fun b => (start_line b, content b)) parsed
    = List.filter (fun '(_, l) => negb (blank l)) (enumerate_from 1 lines)
  /\ Forall (fun b => start_line b = end_line b
                      /\ block_type b = first_match precedence (PyStr.strip (content b)))
            parsed
  /\ _parse_content [] fp = []
  /\ total_lines (parse_file fp []) = 0.
Proof.
  intros lines parsed. subst lines parsed. rewrite parse_units.
  split; [apply units_lines|].
  split; [|done].
  eapply Forall_impl; [apply units_shape|].
  intros b (He & Hty & _). split; [done|].
  by rewrite Hty, detect_first_match.
Qed.

(** C3, the claim as it stands fails: in a document made of an [if] and its
    [end], the prefix that holds the [if] alone has one open and no close,
    and the unit after it, the [end], is written at level 0. *)
Lemma close_level_below_balance :
  let parsed := _parse_content Examples.if_end [] in
  clamped_balance (take 1 parsed) = 1
  /\ level_at parsed 1 = 0
  /\ clamped_balance (take 1 parsed) <> level_at parsed 1.
Proof. by vm_compute. Qed.

(** C3, amended.  The level written on a unit is the running depth after
    the units before it (an open adds one, a close takes one away and stops
    at zero), lowered by one, not below zero, when the unit is a close or a
    continuation.  It is never negative.  An open is written at the depth
    before it counts, a close at the depth after it counts.  Where no prefix
    of the units before has more closes than opens, the running depth is
    opens minus closes clamped at zero, and that is the level of the unit
    unless it is a close or a continuation. *)
Theorem nesting_level_is_running_depth (text : str) (fp : path) (i : nat)
    (b : TemplateBlock) :
  let parsed := _parse_content text fp in
  parsed !! i = Some b ->
  nesting_level b = recorded (block_type b) (depth_after (take i parsed))
  /\ 0 <= nesting_level b
  /\ depth_after (take (S i) parsed)
     = (if opens (block_type b) then nesting_level b + 1
        else if closes (block_type b) then nesting_level b
        else depth_after (take i parsed))
  /\ (never_overclosed (take i parsed) ->
      depth_after (take i parsed) = clamped_balance (take i parsed)
      /\ (closes (block_type b) || continues (block_type b) = false ->
          nesting_level b = clamped_balance (take i parsed))).
Proof.
  intros parsed Hb. subst parsed. rewrite parse_units in *.
  pose proof (units_level _ _ _ _ _ _ Hb) as Hlevel.
  fold (depth_after (take i (units fp 1 0 (PyStr.splitlines true text)))) in Hlevel.
  split; [done|]. split.
  { pose proof (units_nonneg fp 1 0 (PyStr.splitlines true text) (Z.le_refl 0)) as Hnn.
    rewrite Forall_lookup in Hnn. by apply (Hnn i). }
  split.
  { rewrite (take_S_r _ _ _ Hb). unfold depth_after. rewrite depth_from_snoc.
    fold (depth_after (take i (units fp 1 0 (PyStr.splitlines true text)))).
    rewrite Hlevel. unfold depth_step, recorded.
    destruct (block_type b); reflexivity. }
  intros Hbal.
  assert (Hd : depth_after (take i (units fp 1 0 (PyStr.splitlines true text)))
               = clamped_balance (take i (units fp 1 0 (PyStr.splitlines true text)))).
  { unfold depth_after, clamped_balance. rewrite depth_from_balance.
    - pose proof (Hbal i) as Hi. rewrite take_take, Nat.min_id in Hi. lia.
    - intros j. specialize (Hbal j). lia. }
  split; [done|]. intros Hty. rewrite Hlevel. unfold recorded. by rewrite Hty.
Qed.

Lemma nesting_level_is_running_depth_witness :
  let parsed := _parse_content Examples.if_end [] in
  parsed !! 1%nat = Some Examples.if_end_close
  /\ never_overclosed (take 1 parsed)
  /\ nesting_level Examples.if_end_close = 0
  /\ depth_after (take 1 parsed) = 1
  /\ depth_after (take 2 parsed) = 0.
Proof.
  intros parsed.
  assert (Hb : parsed !! 1%nat = Some Examples.if_end_close) by (by vm_compute).
  assert (Hbal : never_overclosed (take 1 parsed)).
  { intros [|[|j]]; by vm_compute. }
  subst parsed.
  destruct (nesting_level_is_running_depth _ _ _ _ Hb)
    as (Hlevel & _ & Hafter & Hrest).
  destruct (Hrest Hbal) as [Hd _].
  split; [done|]. split; [done|]. split; [rewrite Hlevel; by vm_compute|].
  split; [rewrite Hd; by vm_compute | rewrite Hafter; by vm_compute].
Defined.

End BlockModel.

Section Mutator.
Import Parser Executor LineSearcher Spec Cut Lines PyStrFacts ReduceFacts TextFacts.

(** C7. Reduction with everything included gives the document back,
    character for character: block-range reduction given all the blocks
    parsed from the document, and line-cutoff reduction given the number of
    lines of the document as the cutoff. *)
Theorem full_inclusion_is_identity (text : str) (fp : path) :
  let t := parse_file fp text in
  _create_partial_template t (blocks t) = text
  /\ _create_partial_by_line t (total_lines t) = text.
Proof.
  intros t. split.
  - apply create_partial_template_full.
  - apply (create_partial_by_line_full t).
Qed.

(** C2, the claim as it stands fails: with the cutoff on line 1, the
    [include] on line 2, a cross-reference for the parser, is not passed
    through but replaced by an empty line. *)
Lemma include_line_is_cut :
  let t := Examples.with_include in
  PyStr.splitlines true (original_content t) !! 1%nat = Some Examples.include_line
  /\ control_kind (_detect_block_type Examples.include_line) = true
  /\ partial_lines t 1 !! 1%nat = Some [PyStr.LF]
  /\ partial_lines t 1 !! 1%nat <> Some Examples.include_line.
Proof. by vm_compute. Qed.

(** C2, amended.  Line-cutoff reduction writes one line for each line of
    the document.  Lines [1..N] pass through as they are.  A line after [N]
    passes through as it is when the analyzer finds one of its control
    patterns (if, else, else-if, end, range, with, define, template, block)
    in it, which it does in every line whose kind is if, range, with,
    define, end, else, else-if or template; the kind include does not make
    a line a control line.  Any other line after [N] that is not blank
    becomes an empty line, and a blank line stays as it is. *)
Theorem cut_by_line (t : ParsedTemplate) (N : Z) (i : nat) (line l0 : str) :
  let out := partial_lines t N in
  PyStr.splitlines true (original_content t) !! i = Some line ->
  PyStr.splitlines false (original_content t) !! i = Some l0 ->
  _create_partial_by_line t N = PyStr.join out
  /\ length out = length (PyStr.splitlines true (original_content t))
  /\ out !! i = Some (if Z.of_nat i + 1 <=? N then line
                      else if is_control_line l0 then line
                      else if blank line then line
                      else [PyStr.LF])
  /\ (kept_kind (_detect_block_type line) = true -> is_control_line l0 = true).
Proof.
  intros out Hline Hl0. subst out.
  unfold _create_partial_by_line. rewrite partial_lines_cut.
  split; [done|]. split; [apply length_cut_lines, length_splitlines|].
  split.
  - rewrite (cut_lines_lookup _ _ _ _ _ _ _ Hline Hl0).
    by replace (1 + Z.of_nat i) with (Z.of_nat i + 1) by lia.
  - destruct (Forall2_lookup_lr _ _ _ i _ _ (splitlines_keepends (original_content t))
                Hline Hl0) as (eol & -> & Heol).
    by apply (kept_kind_control (l0 ++ eol) l0 eol).
Qed.

Lemma cut_by_line_witness :
  let t := Examples.with_include in
  PyStr.splitlines true (original_content t) !! 2%nat = Some Examples.end_line
  /\ PyStr.splitlines false (original_content t) !! 2%nat = Some (of_string "{{ end }}")
  /\ partial_lines t 1 !! 2%nat = Some Examples.end_line.
Proof.
  intros t.
  assert (H1 : PyStr.splitlines true (original_content t) !! 2%nat
               = Some Examples.end_line) by (by vm_compute).
  assert (H2 : PyStr.splitlines false (original_content t) !! 2%nat
               = Some (of_string "{{ end }}")) by (by vm_compute).
  split; [done|]. split; [done|].
  destruct (cut_by_line t 1 2 _ _ H1 H2) as (_ & _ & Hout & _).
  rewrite Hout. by vm_compute.
Defined.

(** C5. The text that line-cutoff reduction writes holds, line for line,
    as many open lines and as many close lines as lines [1..N] of the
    document together with the lines after [N] that the parser files as a
    control construct, which is as many as the whole document holds; and
    every line that opens or closes a block is written as it is wherever it
    stands, so an unmatched [end] on line 20 is still there, as it was,
    after reduction at cutoff 15, and so is an [if] after the cutoff. *)
Theorem cut_keeps_control_skeleton (t : ParsedTemplate) (N : Z) :
  let keep := PyStr.splitlines true (original_content t) in
  let text := _create_partial_by_line t N in
  count_kind opens (PyStr.splitlines true text) = count_kind opens (skeleton N 1 keep)
  /\ count_kind closes (PyStr.splitlines true text) = count_kind closes (skeleton N 1 keep)
  /\ count_kind opens (skeleton N 1 keep) = count_kind opens keep
  /\ count_kind closes (skeleton N 1 keep) = count_kind closes keep
  /\ text = PyStr.join (partial_lines t N)
  /\ (forall (i : nat) line,
        keep !! i = Some line ->
        opens (_detect_block_type line) || closes (_detect_block_type line) = true ->
        partial_lines t N !! i = Some line).
Proof.
  intros keep text. subst keep text.
  unfold _create_partial_by_line. rewrite partial_lines_cut.
  assert (Hok : lines_ok (cut_lines N 1 (PyStr.splitlines true (original_content t))
                                    (PyStr.splitlines false (original_content t))))
    by apply cut_lines_ok, splitlines_lines_ok.
  pose proof (splitlines_keepends (original_content t)) as Hlines.
  assert (Hopens : forall ty, opens ty = true -> kept_kind ty = true) by (by intros []).
  assert (Hcloses : forall ty, closes ty = true -> kept_kind ty = true) by (by intros []).
  split; [by rewrite count_kind_join, (count_kind_cut opens)|].
  split; [by rewrite count_kind_join, (count_kind_cut closes)|].
  split; [apply count_kind_skeleton; by intros []|].
  split; [apply count_kind_skeleton; by intros []|].
  split; [done|].
  intros i line Hline Hkind.
  destruct (Forall2_lookup_l _ _ _ i _ Hlines Hline) as (l0 & Hl0 & eol & -> & Heol).
  rewrite (cut_lines_lookup _ _ _ _ _ _ _ Hline Hl0). unfold cut_line.
  rewrite (kept_kind_control (l0 ++ eol) l0 eol); [|done|done|].
  - by destruct (_ <=? _).
  - apply orb_true_iff in Hkind as [Hk|Hk]; [by apply Hopens | by apply Hcloses].
Qed.

Lemma cut_keeps_control_skeleton_witness :
  let t := Examples.stray_end in
  let u := Examples.open_after_cutoff in
  (PyStr.splitlines true (original_content t) !! 19%nat = Some Examples.end_line
   /\ opens (_detect_block_type Examples.end_line)
      || closes (_detect_block_type Examples.end_line) = true
   /\ partial_lines t 15 !! 19%nat = Some Examples.end_line)
  /\ (PyStr.splitlines true (original_content u) !! 1%nat = Some Examples.if_line
      /\ opens (_detect_block_type Examples.if_line)
         || closes (_detect_block_type Examples.if_line) = true
      /\ partial_lines u 1 !! 1%nat = Some Examples.if_line
      /\ count_kind opens (PyStr.splitlines true (_create_partial_by_line u 1)) = 1%nat
      /\ count_kind closes (PyStr.splitlines true (_create_partial_by_line u 1)) = 1%nat).
Proof.
  intros t u. split.
  - assert (H1 : PyStr.splitlines true (original_content t) !! 19%nat
                 = Some Examples.end_line) by (by vm_compute).
    assert (H2 : opens (_detect_block_type Examples.end_line)
                 || closes (_detect_block_type Examples.end_line) = true)
      by (by vm_compute).
    split; [exact H1|]. split; [exact H2|].
    destruct (cut_keeps_control_skeleton t 15) as (_ & _ & _ & _ & _ & Hkept).
    exact (Hkept _ _ H1 H2).
  - assert (H1 : PyStr.splitlines true (original_content u) !! 1%nat
                 = Some Examples.if_line) by (by vm_compute).
    assert (H2 : opens (_detect_block_type Examples.if_line)
                 || closes (_detect_block_type Examples.if_line) = true)
      by (by vm_compute).
    split; [exact H1|]. split; [exact H2|].
    destruct (cut_keeps_control_skeleton u 1) as (Ho & Hc & _ & _ & _ & Hkept).
    split; [exact (Hkept _ _ H1 H2)|].
    split; [rewrite Ho | rewrite Hc]; by vm_compute.
Defined.

End Mutator.

Section SearchEngine.
Import Parser Executor LineSearcher Trail SearchFacts SearcherFacts.
Context {World : Type}.
Variable run_template : chart -> World -> HelmResult * World.

Lemma run_fst c (e : Env World) :
  (run run_template c e).1 = (run_template c (world e)).1.
Proof. unfold run. by destruct (run_template c (world e)). Qed.

(** C1. Against a monotone oracle, where the probe cut at [m] passes
    exactly when [m < k], for some unit or line [k] of the document, and the
    full document fails, bisection reports an error, gives [k] as the
    failing index (the failing line, counted from 1, at line granularity)
    and [k - 1] as the last good one (none when [k] is the first), and
    records at most [floor(log2 n) + 1] steps for [n] units or lines. *)
Theorem bisection_converges (t : ParsedTemplate) (k : Z) (e : Env World) :
  (0 <= k < len (blocks t) ->
   (forall w, success (run_template OriginalChart w).1 = false) ->
   (forall m w, 0 <= m < len (blocks t) ->
      success (run_template (block_chart t m) w).1 = (m <? k)) ->
   exists r e',
     Searcher.BinarySearcher_search run_template t e = Some (r, e')
     /\ Searcher.found_error r = true
     /\ Searcher.failing_block_index r = Some k
     /\ Searcher.last_successful_block_index r = (if 0 <? k then Some (k - 1) else None)
     /\ len (Searcher.steps r) <= Z.log2 (len (blocks t)) + 1)
  /\ (1 <= k <= total_lines t ->
      (forall m w, 1 <= m <= total_lines t ->
         success (run_template (line_chart t m) w).1 = (m <? k)) ->
      exists r e',
        LineBinarySearcher_search run_template t e = Some (r, e')
        /\ found_error r = true
        /\ failing_line r = Some k
        /\ last_successful_line r = (if 1 <? k then Some (k - 1) else None)
        /\ len (steps r) <= Z.log2 (total_lines t) + 1).
Proof.
  split.
  - intros Hk Hfull Hmono.
    assert (Hne : blocks t <> []).
    { intros Hnil. rewrite Hnil in Hk. unfold len in Hk. simpl in Hk. lia. }
    pose proof (block_search_run run_template t e Hne) as Hrun.
    unfold validate_full_template in Hrun. rewrite run_fst in Hrun.
    specialize (Hrun (Hfull _)). cbn zeta in Hrun.
    set (res := bisection _ _ _ _ _ _) in Hrun.
    destruct (bisection_monotone (execute_up_to_block run_template t) 0
                (len (blocks t) - 1) (-1) None (run run_template OriginalChart e).2 k)
      as [Hl Hf]; [|lia|lia|].
    { intros m e0 Hm. unfold execute_up_to_block, execute_with_blocks.
      rewrite run_fst. apply Hmono. lia. }
    pose proof (bisection_steps (execute_up_to_block run_template t) 0
                  (len (blocks t) - 1) (-1) None (run run_template OriginalChart e).2
                  ltac:(lia)) as Hsteps.
    fold res in Hl, Hf, Hsteps. rewrite Hf in Hrun.
    destruct (decide (k <= len (blocks t) - 1)); [|lia].
    destruct Hrun as (b & _ & ->). eexists _, _. split; [done|]. cbn.
    split; [done|]. split; [done|]. split.
    + rewrite Hl. destruct (0 <=? k - 1) eqn:H1, (0 <? k) eqn:H2; try done; lia.
    + rewrite len_block_steps. by replace (len (blocks t) - 1 - 0 + 1)
        with (len (blocks t)) in Hsteps by lia.
  - intros Hk Hmono.
    pose proof (line_search_run run_template t e ltac:(lia)) as Hrun. cbn zeta in Hrun.
    set (res := bisection _ _ _ _ _ _) in Hrun.
    destruct (bisection_monotone (execute_up_to_line run_template t) 1
                (total_lines t) 0 None e k) as [Hl Hf]; [|lia|lia|].
    { intros m e0 Hm. unfold execute_up_to_line. rewrite run_fst. by apply Hmono. }
    pose proof (bisection_steps (execute_up_to_line run_template t) 1
                  (total_lines t) 0 None e ltac:(lia)) as Hsteps.
    fold res in Hl, Hf, Hsteps. rewrite Hf in Hrun.
    destruct (decide (k <= total_lines t)); [|lia].
    destruct Hrun as (c & cb & ca & ->). eexists _, _. split; [done|]. cbn.
    split; [done|]. split; [done|]. split.
    + rewrite Hl. destruct (0 <? k - 1) eqn:H1, (1 <? k) eqn:H2; try done; lia.
    + rewrite len_line_steps. by replace (total_lines t - 1 + 1)
        with (total_lines t) in Hsteps by lia.
Qed.

(** C10. Whatever the renderer answers, when bisection reports an error
    together with a last good index, the failing index is the one after
    it: [failing_block_index = last_successful_block_index + 1] and
    [failing_line = last_successful_line + 1].  The search itself always
    returns. *)
Theorem failing_follows_last_good (t : ParsedTemplate) (e : Env World) :
  (exists r e',
     Searcher.BinarySearcher_search run_template t e = Some (r, e')
     /\ forall good,
          Searcher.found_error r = true ->
          Searcher.last_successful_block_index r = Some good ->
          Searcher.failing_block_index r = Some (good + 1))
  /\ (exists r e',
        LineBinarySearcher_search run_template t e = Some (r, e')
        /\ forall good,
             found_error r = true ->
             last_successful_line r = Some good ->
             failing_line r = Some (good + 1)).
Proof.
  split.
  - destruct (blocks t) as [|b0 bs] eqn:Hbs.
    { unfold Searcher.BinarySearcher_search. rewrite Hbs. by eexists _, _. }
    destruct (success (validate_full_template run_template e).1) eqn:Hfull.
    { unfold Searcher.BinarySearcher_search. rewrite Hbs. cbn [is_empty].
      cbv [mbind M_bind bind lift].
      destruct (validate_full_template run_template e) as [full e1].
      cbn [fst] in Hfull. rewrite Hfull. by eexists _, _. }
    pose proof (block_search_run run_template t e ltac:(by rewrite Hbs) Hfull) as Hrun.
    cbn zeta in Hrun. set (res := bisection _ _ _ _ _ _) in Hrun.
    pose proof (bisection_gap (execute_up_to_block run_template t) 0
                  (len (blocks t) - 1) (-1) None
                  (validate_full_template run_template e).2) as Hgap.
    cbn zeta in Hgap. fold res in Hgap.
    destruct Hgap as [_ Hgap]; [rewrite Hbs; unfold len; simpl; lia | lia |].
    destruct (res.1.1.2) as [fi|] eqn:Hfi.
    + destruct Hrun as (b & _ & ->). eexists _, _. split; [done|]. cbn.
      intros good _ Hgood. destruct Hgap as [[? _]|[-> _]]; [done|].
      destruct (0 <=? res.1.1.1); [by injection Hgood as -> | done].
    + rewrite Hrun. eexists _, _. split; [done|]. by cbn.
  - destruct (decide (total_lines t = 0)) as [H0|Hne].
    { unfold LineBinarySearcher_search. rewrite H0. by eexists _, _. }
    pose proof (line_search_run run_template t e Hne) as Hrun.
    cbn zeta in Hrun. set (res := bisection _ _ _ _ _ _) in Hrun.
    pose proof (bisection_gap (execute_up_to_line run_template t) 1
                  (total_lines t) 0 None e) as Hgap.
    cbn zeta in Hgap. fold res in Hgap.
    assert (0 < total_lines t).
    { rewrite total_lines_len in *. unfold len in *. lia. }
    destruct Hgap as [_ Hgap]; [lia | lia |].
    destruct (res.1.1.2) as [fl|] eqn:Hfl.
    + destruct Hrun as (c & cb & ca & ->). eexists _, _. split; [done|]. cbn.
      intros good _ Hgood. destruct Hgap as [[? _]|[-> _]]; [done|].
      destruct (0 <? res.1.1.1); [by injection Hgood as -> | done].
    + rewrite Hrun. eexists _, _. split; [done|]. by cbn.
Qed.

(** C9. On the empty document every searcher, bisection and linear, over
    blocks and over lines, reports no error with no step, and leaves the
    world and the log of probes as they were: it does not call the
    renderer. *)
Theorem empty_document_no_error (fp : path) (start_from start_line : Z)
    (e : Env World) :
  let t := parse_file fp [] in
  (exists r, Searcher.BinarySearcher_search run_template t e = Some (r, e)
             /\ Searcher.found_error r = false /\ Searcher.steps r = [])
  /\ (exists r, Searcher.StepByStepSearcher_search run_template t start_from e = Some (r, e)
                /\ Searcher.found_error r = false /\ Searcher.steps r = [])
  /\ (exists r, LineBinarySearcher_search run_template t e = Some (r, e)
                /\ found_error r = false /\ steps r = [])
  /\ (exists r, LineStepByStepSearcher_search run_template t start_line e = Some (r, e)
                /\ found_error r = false /\ steps r = []).
Proof. intros t. repeat split; by eexists. Qed.

(** The half of C4 that holds: when the chart on disk renders, the block
    searcher reports no error with no step after that one probe. *)
Lemma block_bisection_short_circuit (t : ParsedTemplate) (e : Env World) :
  success (run_template OriginalChart (world e)).1 = true ->
  exists r e',
    Searcher.BinarySearcher_search run_template t e = Some (r, e')
    /\ Searcher.found_error r = false
    /\ Searcher.steps r = []
    /\ (probed e' = probed e \/ probed e' = probed e ++ [OriginalChart]).
Proof.
  intros Hfull. unfold Searcher.BinarySearcher_search.
  destruct (blocks t) as [|b0 bs]; cbn [is_empty].
  { eexists _, _. split; [done|]. cbn. auto. }
  cbv [mbind M_bind bind lift validate_full_template run].
  destruct (run_template OriginalChart (world e)) as [full w1]. cbn [fst] in Hfull.
  rewrite Hfull. eexists _, _. split; [done|]. cbn. auto.
Qed.

(** C8. Linear search over a document that is not empty probes the
    cutoffs one after the other from the starting unit or line, and records
    one step for each probe, in that order.  Every probe before the last
    one passed.  When an error is reported the last probe failed, and its
    cutoff is the failing index.  When none is reported every probe passed,
    the scan reached the end of the document, and the last successful index
    is the last unit, [len(blocks) - 1], or the last line, [total_lines]. *)
Theorem linear_search_stops_at_first_failure (t : ParsedTemplate) (start : Z)
    (e : Env World) :
  (blocks t <> [] -> 0 <= start ->
   exists r e' results,
     Searcher.StepByStepSearcher_search run_template t start e = Some (r, e')
     /\ Searcher.steps r = linear_block_steps start start results
     /\ probes_from run_template e (linear_trail (block_chart t) start results) e'
     /\ passed_but_last results
     /\ (if Searcher.found_error r
         then exists x, last results = Some x
                        /\ success x = false
                        /\ Searcher.failing_block_index r = Some (start + len results - 1)
                        /\ Searcher.error_result r = Some x
         else Forall (fun x => success x = true) results
              /\ len results = Z.max 0 (len (blocks t) - start)
              /\ Searcher.last_successful_block_index r = Some (len (blocks t) - 1)))
  /\ (total_lines t <> 0 -> 1 <= start ->
      exists r e' results,
        LineStepByStepSearcher_search run_template t start e = Some (r, e')
        /\ steps r = linear_line_steps start start results
        /\ probes_from run_template e (linear_trail (line_chart t) start results) e'
        /\ passed_but_last results
        /\ (if found_error r
            then exists x, last results = Some x
                           /\ success x = false
                           /\ failing_line r = Some (start + len results - 1)
                           /\ error_result r = Some x
            else Forall (fun x => success x = true) results
                 /\ len results = Z.max 0 (total_lines t + 1 - start)
                 /\ last_successful_line r = Some (total_lines t))).
Proof.
  split.
  - intros Hne Hstart. unfold Searcher.StepByStepSearcher_search.
    destruct (blocks t) as [|b0 bs] eqn:Hbs; [done|]. cbn [is_empty].
    rewrite <- Hbs. unfold range.
    replace (seqZ start (len (blocks t) - start))
      with (seqZ start (Z.of_nat (Z.to_nat (len (blocks t) - start))))
      by (unfold seqZ; by rewrite Nat2Z.id).
    destruct (block_step_loop_spec run_template t start
                (Z.to_nat (len (blocks t) - start)) start (-1) [] e Hstart ltac:(lia))
      as (r & e' & results & Hrun & Hsteps & Hprobes & Hpass & Hres).
    exists r, e', results. repeat (split; [done|]).
    destruct (Searcher.found_error r); [done|].
    destruct Hres as (Hall & Hlen & Hlast). repeat split; [done | lia | done].
  - intros Hne Hstart. unfold LineStepByStepSearcher_search.
    rewrite (proj2 (Z.eqb_neq _ _) Hne). unfold range.
    replace (seqZ start (total_lines t + 1 - start))
      with (seqZ start (Z.of_nat (Z.to_nat (total_lines t + 1 - start))))
      by (unfold seqZ; by rewrite Nat2Z.id).
    destruct (line_step_loop_spec run_template t start
                (Z.to_nat (total_lines t + 1 - start)) start 0 None [] e Hstart)
      as (r & e' & results & Hrun & Hsteps & Hprobes & Hpass & Hres).
    exists r, e', results. repeat (split; [done|]).
    destruct (found_error r); [done|].
    destruct Hres as (Hall & Hlen & Hlast). repeat split; [done | lia | done].
Qed.

End SearchEngine.

Section SearchEngineExamples.
Import Parser Executor LineSearcher Trail.

(** C4, the failing input: three lines of content and a renderer that
    accepts everything.  The full document renders, and the line searcher
    still probes twice, at lines 2 and 3, before it reports no error. *)
Theorem line_bisection_probes_passing_document :
  let t := Examples.three_lines in
  success (Examples.always_passes OriginalChart tt).1 = true
  /\ success (Examples.always_passes (line_chart t (total_lines t)) tt).1 = true
  /\ exists r e',
       LineBinarySearcher_search Examples.always_passes t Examples.start = Some (r, e')
       /\ found_error r = false
       /\ map line_number (steps r) = [Some 2; Some 3]
       /\ length (probed e') = 2%nat.
Proof. intros t. split; [done|]. split; [done|]. eexists _, _. by vm_compute. Qed.

Lemma ten_blocks : len (blocks Examples.ten_lines) = 10.
Proof. by vm_compute. Qed.

Lemma ten_total_lines : total_lines Examples.ten_lines = 10.
Proof. by vm_compute. Qed.

Lemma bisection_converges_witness :
  let t := Examples.ten_lines in
  (0 <= 6 < len (blocks t)
   /\ exists r e',
        Searcher.BinarySearcher_search Examples.refuses_bad t Examples.start = Some (r, e')
        /\ Searcher.failing_block_index r = Some 6
        /\ Searcher.last_successful_block_index r = Some 5
        /\ len (Searcher.steps r) <= 4)
  /\ (1 <= 7 <= total_lines t
      /\ exists r e',
           LineBinarySearcher_search Examples.refuses_bad t Examples.start = Some (r, e')
           /\ failing_line r = Some 7
           /\ last_successful_line r = Some 6
           /\ len (steps r) <= 4).
Proof.
  intros t. subst t. set (t := Examples.ten_lines). split.
  - assert (H2 : 0 <= 6 < len (blocks t)) by (subst t; rewrite ten_blocks; lia).
    split; [done|].
    destruct (bisection_converges Examples.refuses_bad t 6 Examples.start) as [Hb _].
    destruct Hb as (r & e' & Hrun & _ & Hf & Hl & Hs); [done | done | |].
    { intros m [] Hm. subst t. rewrite ten_blocks in Hm.
      assert (Hcases : m = 0 \/ m = 1 \/ m = 2 \/ m = 3 \/ m = 4 \/ m = 5 \/ m = 6
                       \/ m = 7 \/ m = 8 \/ m = 9) by lia.
      repeat (destruct Hcases as [->|Hcases]; [by vm_compute|]). subst m. by vm_compute. }
    exists r, e'. subst t. rewrite ten_blocks in Hs. by repeat split.
  - assert (H2 : 1 <= 7 <= total_lines t) by (subst t; rewrite ten_total_lines; lia).
    split; [done|].
    destruct (bisection_converges Examples.refuses_bad t 7 Examples.start) as [_ Hl].
    destruct Hl as (r & e' & Hrun & _ & Hf & Hl & Hs); [done | |].
    { intros m [] Hm. subst t. rewrite ten_total_lines in Hm.
      assert (Hcases : m = 1 \/ m = 2 \/ m = 3 \/ m = 4 \/ m = 5 \/ m = 6
                       \/ m = 7 \/ m = 8 \/ m = 9 \/ m = 10) by lia.
      repeat (destruct Hcases as [->|Hcases]; [by vm_compute|]). subst m. by vm_compute. }
    exists r, e'. subst t. rewrite ten_total_lines in Hs. by repeat split.
Defined.

Lemma failing_follows_last_good_witness :
  let t := Examples.ten_lines in
  (exists r e',
     Searcher.BinarySearcher_search Examples.refuses_bad t Examples.start = Some (r, e')
     /\ Searcher.found_error r = true
     /\ Searcher.last_successful_block_index r = Some 5
     /\ Searcher.failing_block_index r = Some (5 + 1))
  /\ (exists r e',
        LineBinarySearcher_search Examples.refuses_bad t Examples.start = Some (r, e')
        /\ found_error r = true
        /\ last_successful_line r = Some 6
        /\ failing_line r = Some (6 + 1)).
Proof.
  intros t.
  destruct (failing_follows_last_good Examples.refuses_bad t Examples.start)
    as [(r & e' & Hrun & Hgap) (r' & e'' & Hrun' & Hgap')].
  split.
  - exists r, e'.
    assert (Hr : Searcher.found_error r = true
                 /\ Searcher.last_successful_block_index r = Some 5).
    { pose proof Hrun as Hsome. vm_compute in Hsome.
      injection Hsome as <- _. split; reflexivity. }
    destruct Hr as [Hfound Hgood].
    split; [assumption|]. split; [assumption|]. split; [assumption|].
    apply Hgap; assumption.
  - exists r', e''.
    assert (Hr : found_error r' = true /\ last_successful_line r' = Some 6).
    { pose proof Hrun' as Hsome. vm_compute in Hsome.
      injection Hsome as <- _. split; reflexivity. }
    destruct Hr as [Hfound Hgood].
    split; [assumption|]. split; [assumption|]. split; [assumption|].
    apply Hgap'; assumption.
Defined.

Lemma linear_search_stops_at_first_failure_witness :
  let t := Examples.ten_lines in
  (blocks t <> []
   /\ 0 <= 0
   /\ exists r e' results,
        Searcher.StepByStepSearcher_search Examples.refuses_bad t 0 Examples.start
        = Some (r, e')
        /\ Searcher.steps r = linear_block_steps 0 0 results
        /\ probes_from Examples.refuses_bad Examples.start
             (linear_trail (block_chart t) 0 results) e'
        /\ passed_but_last results)
  /\ (total_lines t <> 0
      /\ 1 <= 1
      /\ exists r e' results,
           LineStepByStepSearcher_search Examples.refuses_bad t 1 Examples.start
           = Some (r, e')
           /\ steps r = linear_line_steps 1 1 results
           /\ probes_from Examples.refuses_bad Examples.start
                (linear_trail (line_chart t) 1 results) e'
           /\ passed_but_last results).
Proof.
  intros t.
  assert (H1 : blocks t <> []) by (by vm_compute).
  assert (H2 : total_lines t <> 0) by (by vm_compute).
  destruct (linear_search_stops_at_first_failure Examples.refuses_bad t 0 Examples.start)
    as [Hb _].
  destruct (linear_search_stops_at_first_failure Examples.refuses_bad t 1 Examples.start)
    as [_ Hl].
  destruct (Hb H1 ltac:(lia)) as (r & e' & results & ? & ? & ? & ? & _).
  destruct (Hl H2 ltac:(lia)) as (r' & e'' & results' & ? & ? & ? & ? & _).
  split.
  - split; [assumption|]. split; [lia|]. exists r, e', results. repeat split; assumption.
  - split; [assumption|]. split; [lia|]. exists r', e'', results'. repeat split; assumption.
Defined.

End SearchEngineExamples.

(** * Further properties *)

(** ** The block model *)

Module BlockOrder.
Import Parser Spec ParserFacts PyStrFacts.

Lemma units_lookup fp c d lines (i : nat) b :
  units fp c d lines !! i = Some b ->
  c + Z.of_nat i <= start_line b < c + len lines
  /\ lines !! Z.to_nat (start_line b - c) = Some (content b)
  /\ blank (content b) = false
  /\ (forall (j : nat) b', (i < j)%nat -> units fp c d lines !! j = Some b' ->
        start_line b < start_line b').
Proof.
  revert c d i b. induction lines as [|line rest IH]; intros c d i b; [done|].
  cbn [units]. unfold len. cbn [length].
  destruct (blank line) eqn:Hb.
  - intros Hi. destruct (IH _ _ _ _ Hi) as (Hr & Hl & Hnb & Hlater). unfold len in Hr.
    split; [lia|]. split; [|done].
    replace (Z.to_nat (start_line b - c)) with (S (Z.to_nat (start_line b - (c + 1))))
      by lia.
    done.
  - destruct i as [|i]; cbn [lookup list_lookup].
    + intros [= <-]. cbn [start_line content].
      split; [lia|]. split; [by replace (c - c) with 0 by lia|]. split; [done|].
      intros [|j] b' Hj; [lia|]. cbn [lookup list_lookup]. intros Hb'.
      apply IH in Hb' as (Hr & _). lia.
    + intros Hi. destruct (IH _ _ _ _ Hi) as (Hr & Hl & Hnb & Hlater). unfold len in Hr.
      split; [lia|]. split.
      { replace (Z.to_nat (start_line b - c))
          with (S (Z.to_nat (start_line b - (c + 1)))) by lia.
        done. }
      split; [done|].
      intros [|j] b' Hj; [lia|]. cbn [lookup list_lookup]. intros Hb'.
      apply (Hlater j); [lia | done].
Qed.

Lemma length_units fp c d lines : (length (units fp c d lines) <= length lines)%nat.
Proof.
  revert c d. induction lines as [|line rest IH]; intros c d; [done|].
  cbn [units length]. destruct (blank line); [|cbn [length]]; specialize (IH (c + 1)).
  - specialize (IH d). lia.
  - specialize (IH (depth_step d (_detect_block_type line))). lia.
Qed.

(** X1. The blocks of a parsed document stand in the order of its lines:
    the block at index [i] sits on a line not before line [i + 1] and not
    after the last line, holds exactly that line of the document (with its
    line ending) and is not blank; a later block sits on a later line; and
    there are never more blocks than lines. *)
Theorem blocks_follow_the_lines (text : str) (fp : path) (i : nat) (b : TemplateBlock) :
  let lines := PyStr.splitlines true text in
  let parsed := _parse_content text fp in
  parsed !! i = Some b ->
  Z.of_nat i + 1 <= start_line b <= len lines
  /\ lines !! Z.to_nat (start_line b - 1) = Some (content b)
  /\ blank (content b) = false
  /\ (forall (j : nat) b', (i < j)%nat -> parsed !! j = Some b' ->
        start_line b < start_line b')
  /\ len parsed <= len lines.
Proof.
  intros lines parsed. subst parsed. rewrite parse_units. fold lines. intros Hi.
  destruct (units_lookup _ _ _ _ _ _ Hi) as (Hr & Hl & Hnb & Hlater).
  split; [lia|]. split; [done|]. split; [done|]. split; [done|].
  pose proof (length_units fp 1 0 lines). unfold len. lia.
Qed.

Lemma blocks_follow_the_lines_witness :
  let parsed := _parse_content Examples.if_end [] in
  parsed !! 1%nat = Some Examples.if_end_close
  /\ 2 <= start_line Examples.if_end_close <= 2
  /\ PyStr.splitlines true Examples.if_end !! 1%nat
     = Some (content Examples.if_end_close).
Proof.
  intros parsed.
  assert (H : parsed !! 1%nat = Some Examples.if_end_close) by reflexivity.
  split; [exact H|].
  destruct (blocks_follow_the_lines Examples.if_end [] 1 Examples.if_end_close H)
    as (Hr & Hl & _).
  split; [exact Hr | exact Hl].
Defined.

Lemma recorded_step ty ty' d :
  0 <= d ->
  - 1 <= recorded ty' (depth_step d ty) - recorded ty d <= 1.
Proof.
  intros Hd. unfold recorded, depth_step.
  destruct ty, ty'; cbn [opens closes continues orb]; lia.
Qed.

Lemma units_level_step fp c d lines (i : nat) b b' :
  0 <= d ->
  units fp c d lines !! i = Some b -> units fp c d lines !! S i = Some b' ->
  - 1 <= nesting_level b' - nesting_level b <= 1.
Proof.
  revert c d i b b'. induction lines as [|line rest IH]; intros c d i b b' Hd; [done|].
  cbn [units]. destruct (blank line); [by apply IH|].
  destruct i as [|i]; cbn [lookup list_lookup].
  - intros [= <-]. cbn [nesting_level]. clear IH.
    set (ty := _detect_block_type line).
    assert (Hfirst : forall c' ls, units fp c' (depth_step d ty) ls !! 0%nat = Some b' ->
              exists ty', nesting_level b' = recorded ty' (depth_step d ty)).
    { intros c' ls. revert c'. induction ls as [|l ls IHl]; intros c'; [done|].
      cbn [units]. destruct (blank l); [apply IHl|].
      intros [= <-]. by eexists. }
    intros Hb'. apply Hfirst in Hb' as [ty' ->]. by apply recorded_step.
  - apply IH. by apply depth_step_nonneg.
Qed.

Lemma units_first_level fp c lines b :
  units fp c 0 lines !! 0%nat = Some b -> nesting_level b = 0.
Proof.
  revert c. induction lines as [|line rest IH]; intros c; [done|].
  cbn [units]. destruct (blank line); [apply IH|].
  intros [= <-]. cbn [nesting_level]. unfold recorded.
  destruct (closes _ || continues _); lia.
Qed.

(** X2. The first block of a document is at nesting level 0, whether or
    not another block follows, and from a block to the next the level goes
    up or down by at most one. *)
Theorem nesting_level_moves_by_one (text : str) (fp : path) :
  let parsed := _parse_content text fp in
  (forall b0, parsed !! 0%nat = Some b0 -> nesting_level b0 = 0)
  /\ (forall (i : nat) b b',
        parsed !! i = Some b -> parsed !! S i = Some b' ->
        - 1 <= nesting_level b' - nesting_level b <= 1).
Proof.
  intros parsed. subst parsed. rewrite parse_units. split.
  - intros b0. apply units_first_level.
  - intros i b b' Hb Hb'. by eapply units_level_step.
Qed.

Lemma nesting_level_moves_by_one_witness :
  let parsed := _parse_content Examples.if_end [] in
  parsed !! 0%nat = Some MoreExamples.if_end_open
  /\ parsed !! 1%nat = Some Examples.if_end_close
  /\ nesting_level MoreExamples.if_end_open = 0
  /\ - 1 <= nesting_level Examples.if_end_close
            - nesting_level MoreExamples.if_end_open <= 1
  /\ (forall b0, _parse_content (of_string "{{ end }}") [] !! 0%nat = Some b0 ->
        nesting_level b0 = 0).
Proof.
  intros parsed.
  assert (H0 : parsed !! 0%nat = Some MoreExamples.if_end_open) by reflexivity.
  assert (H1 : parsed !! 1%nat = Some Examples.if_end_close) by reflexivity.
  split; [exact H0|]. split; [exact H1|].
  split; [exact (proj1 (nesting_level_moves_by_one Examples.if_end []) _ H0)|].
  split; [exact (proj2 (nesting_level_moves_by_one Examples.if_end []) 0%nat _ _ H0 H1)|].
  exact (proj1 (nesting_level_moves_by_one (of_string "{{ end }}") [])).
Defined.

Lemma join_units fp c d lines :
  PyStr.join (map content (units fp c d lines))
  = PyStr.join (List.filter (fun l => negb (blank l)) lines).
Proof.
  revert c d. induction lines as [|line rest IH]; intros c d; [done|].
  cbn [units List.filter]. destruct (blank line); cbn [negb]; [apply IH|].
  unfold PyStr.join in *. cbn [map concat]. by rewrite IH.
Qed.

(** X3. Nothing but blank lines is lost between a document and its
    blocks: the contents of the blocks, put one after the other, are the
    lines of the document that are not blank; so a document without a blank
    line is the concatenation of its blocks. *)
Theorem blocks_hold_the_document (text : str) (fp : path) :
  let lines := PyStr.splitlines true text in
  let parsed := _parse_content text fp in
  PyStr.join (map content parsed)
    = PyStr.join (List.filter (fun l => negb (blank l)) lines)
  /\ (forallb (fun l => negb (blank l)) lines = true ->
      PyStr.join (map content parsed) = text).
Proof.
  intros lines parsed. subst parsed. rewrite parse_units. fold lines.
  rewrite join_units. split; [done|]. intros Hall.
  etransitivity; [|apply join_splitlines]. fold lines. f_equal.
  clear -Hall. induction lines as [|l ls IH]; [done|].
  cbn [forallb] in Hall. apply andb_true_iff in Hall as [Hl Hls].
  cbn [List.filter]. rewrite Hl. f_equal. by apply IH.
Qed.

End BlockOrder.

(** ** Reduction *)

Module ReduceMore.
Import Re Parser Executor LineSearcher Spec Cut Reduced.
Import PyStrFacts ReFacts ParserFacts ReduceFacts BlockOrder.

Lemma covers_included bs n :
  bool_decide (n ∈ included_lines bs) = existsb (covers n) bs.
Proof.
  apply eq_true_iff_eq. rewrite bool_decide_eq_true, elem_of_included_lines.
  rewrite existsb_exists. unfold covers. split.
  - intros (b & Hb & Hn). exists b. split; [by apply list_elem_of_In|].
    apply andb_true_iff. split; apply Z.leb_le; lia.
  - intros (b & Hb & [H1 H2]%andb_true_iff). exists b.
    split; [by apply list_elem_of_In|]. apply Z.leb_le in H1, H2. lia.
Qed.

Lemma map_block_line bs c lines :
  map (block_line (included_lines bs)) (enumerate_from c lines)
  = comment_lines bs (c + 1) lines.
Proof.
  revert c. induction lines as [|line rest IH]; intros c; [done|].
  cbn [enumerate_from map comment_lines]. rewrite IH. f_equal.
  unfold block_line, comment_line. cbn [fst snd]. by rewrite covers_included.
Qed.

Lemma create_partial_template_lines t bs :
  _create_partial_template t bs = PyStr.join (reduced_lines t bs).
Proof.
  rewrite create_partial_template_map. unfold enumerate, reduced_lines.
  by rewrite (map_block_line bs 0).
Qed.

Lemma comment_lines_lookup bs n lines (i : nat) line :
  lines !! i = Some line ->
  comment_lines bs n lines !! i = Some (comment_line bs (n + Z.of_nat i) line).
Proof.
  revert n i. induction lines as [|x rest IH]; intros n i; [done|].
  destruct i as [|i]; cbn [comment_lines lookup list_lookup].
  - intros [= ->]. by rewrite Z.add_0_r.
  - intros Hi. rewrite (IH _ _ Hi). do 2 f_equal. lia.
Qed.

Lemma length_comment_lines bs n lines : length (comment_lines bs n lines) = length lines.
Proof. revert n. induction lines as [|x rest IH]; intros n; simpl; [done | by rewrite IH]. Qed.

(** X4. Block-range reduction writes one line for each line of the
    document.  A line that lies in one of the included blocks passes
    through as it is, and so does a blank line; any other line is wrapped,
    without its line feed or carriage return, into a template comment that
    ends in a line feed. *)
Theorem comment_out_by_block (t : ParsedTemplate) (bs : list TemplateBlock)
    (i : nat) (line : str) :
  let lines := PyStr.splitlines true (original_content t) in
  let out := reduced_lines t bs in
  lines !! i = Some line ->
  _create_partial_template t bs = PyStr.join out
  /\ length out = length lines
  /\ out !! i
     = Some (if existsb (fun b => (start_line b <=? Z.of_nat i + 1)
                                  && (Z.of_nat i + 1 <=? end_line b)) bs
             then line
             else if blank line then line
             else of_string "{{/* " ++ PyStr.rstrip [PyStr.LF; PyStr.CR] line
                  ++ of_string " */}}" ++ [PyStr.LF]).
Proof.
  intros lines out Hi. split; [apply create_partial_template_lines|].
  split; [apply length_comment_lines|].
  subst out. unfold reduced_lines. fold lines.
  rewrite (comment_lines_lookup _ _ _ _ _ Hi).
  by replace (1 + Z.of_nat i) with (Z.of_nat i + 1) by lia.
Qed.

Lemma comment_out_by_block_witness :
  let t := Examples.with_include in
  PyStr.splitlines true (original_content t) !! 1%nat = Some Examples.include_line
  /\ reduced_lines t (take 1 (blocks t)) !! 1%nat
     = Some (of_string "{{/* {{ include x . }} */}}" ++ [PyStr.LF]).
Proof.
  intros t.
  assert (H : PyStr.splitlines true (original_content t) !! 1%nat
              = Some Examples.include_line) by reflexivity.
  split; [exact H|].
  destruct (comment_out_by_block t (take 1 (blocks t)) 1 _ H) as (_ & _ & Hout).
  rewrite Hout. reflexivity.
Defined.

Lemma strip_bare c m z :
  PyStr.isspace c = false -> PyStr.isspace z = false ->
  PyStr.strip (c :: m ++ [z]) = c :: m ++ [z].
Proof.
  intros Hc Hz. unfold PyStr.strip. cbn [PyStr.lstrip_by]. rewrite Hc.
  unfold PyStr.rstrip_by. change (c :: m ++ [z]) with ((c :: m) ++ [z]).
  rewrite rev_app_distr. cbn [rev app PyStr.lstrip_by]. rewrite Hz.
  change (z :: rev m ++ [c]) with ([z] ++ rev (c :: m)).
  by rewrite rev_app_distr, rev_involutive.
Qed.

Lemma matches_Lit s : matches (Lit s) (of_string s).
Proof.
  unfold Lit. induction s as [|a s IH]; cbn [of_string fold_right]; [constructor|].
  apply (m_cat _ _ [_]); [|done]. constructor. apply N.eqb_refl.
Qed.

Lemma matches_any w : matches (Star Dot) w.
Proof.
  induction w as [|c w IH]; [constructor|].
  apply (m_star_cons _ [c]); [by constructor | done].
Qed.

(** X5. What block-range reduction writes in place of an excluded line is,
    for the parser, a comment and not a blank line, whatever the line
    held: an excluded [if] or [end] no longer opens or closes anything. *)
Theorem commented_line_is_comment (stripped : str) :
  _detect_block_type (commented_out stripped) = COMMENT
  /\ blank (commented_out stripped) = false
  /\ opens (_detect_block_type (commented_out stripped)) = false
  /\ closes (_detect_block_type (commented_out stripped)) = false.
Proof.
  assert (Hstrip : PyStr.strip (commented_out stripped)
                   = of_string "{{/*" ++ (32%N :: stripped ++ [32%N]) ++ of_string "*/}}").
  { assert (Hshape : commented_out stripped
                     = (123 :: ([123; 47; 42; 32] ++ stripped ++ [32; 42; 47; 125])
                            ++ [125])%N ++ [PyStr.LF]).
    { unfold commented_out. cbn. by rewrite <- !app_assoc. }
    rewrite Hshape, strip_app_space, strip_bare by done.
    cbn. by rewrite <- !app_assoc. }
  assert (Hc : _detect_block_type (commented_out stripped) = COMMENT).
  { unfold _detect_block_type. cbv zeta. rewrite Hstrip.
    replace (search (PATTERNS k_comment) _) with true; [done|].
    symmetry. apply search_spec.
    exists [], (of_string "{{/*" ++ (32%N :: stripped ++ [32%N]) ++ of_string "*/}}"), [].
    rewrite app_nil_r. split; [done|].
    cbn [PATTERNS cats].
    apply m_cat; [apply matches_Lit|].
    apply m_cat; [apply matches_any|].
    rewrite <- (app_nil_r (of_string "*/}}")).
    apply m_cat; [apply matches_Lit | constructor]. }
  rewrite Hc. split; [done|]. split; [|done].
  unfold blank. rewrite Hstrip. done.
Qed.

(** X6. Growing the cutoff never takes back a line: a line that
    line-cutoff reduction writes as it is at cutoff [N] is written as it is
    at every cutoff after [N]; and a line that block-range reduction writes
    as it is for some blocks is written as it is when more blocks are
    included. *)
Theorem reduction_is_monotone (t : ParsedTemplate) (i : nat) (line : str) :
  PyStr.splitlines true (original_content t) !! i = Some line ->
  (forall N N', N <= N' ->
     partial_lines t N !! i = Some line -> partial_lines t N' !! i = Some line)
  /\ (forall bs bs' : list TemplateBlock, (forall b, b ∈ bs -> b ∈ bs') ->
        reduced_lines t bs !! i = Some line -> reduced_lines t bs' !! i = Some line).
Proof.
  intros Hi. split.
  - intros N N' HN. rewrite !partial_lines_cut.
    destruct (lookup_lt_is_Some_2 (PyStr.splitlines false (original_content t)) i)
      as [l0 Hl0].
    { rewrite <- length_splitlines. by eapply lookup_lt_Some. }
    rewrite !(cut_lines_lookup _ _ _ _ _ _ _ Hi Hl0). unfold cut_line.
    destruct (1 + Z.of_nat i <=? N) eqn:H1.
    + apply Z.leb_le in H1. by rewrite (proj2 (Z.leb_le _ N')) by lia.
    + destruct (1 + Z.of_nat i <=? N'); [done|].
      destruct (is_control_line l0); [done|]. by destruct (blank line).
  - intros bs bs' Hsub. unfold reduced_lines.
    rewrite !(comment_lines_lookup _ _ _ _ _ Hi). unfold comment_line.
    destruct (existsb (covers (1 + Z.of_nat i)) bs) eqn:Hc.
    + apply existsb_exists in Hc as (b & Hb & Hcov).
      replace (existsb (covers (1 + Z.of_nat i)) bs') with true; [done|].
      symmetry. apply existsb_exists. exists b. split; [|done].
      by apply list_elem_of_In, Hsub, list_elem_of_In.
    + destruct (existsb (covers (1 + Z.of_nat i)) bs'); [done|].
      by destruct (blank line).
Qed.

Lemma reduction_is_monotone_witness :
  let t := Examples.with_include in
  PyStr.splitlines true (original_content t) !! 0%nat = Some (of_string "a: 1" ++ [PyStr.LF])
  /\ partial_lines t 1 !! 0%nat = Some (of_string "a: 1" ++ [PyStr.LF])
  /\ partial_lines t 2 !! 0%nat = Some (of_string "a: 1" ++ [PyStr.LF]).
Proof.
  intros t.
  assert (H : PyStr.splitlines true (original_content t) !! 0%nat
              = Some (of_string "a: 1" ++ [PyStr.LF])) by reflexivity.
  assert (H1 : partial_lines t 1 !! 0%nat = Some (of_string "a: 1" ++ [PyStr.LF]))
    by reflexivity.
  split; [exact H|]. split; [exact H1|].
  exact (proj1 (reduction_is_monotone t 0 _ H) 1 2 ltac:(lia) H1).
Defined.

Lemma cut_lines_ext N N' n keep bare :
  (forall m, n <= m < n + len keep -> (m <=? N) = (m <=? N')) ->
  cut_lines N n keep bare = cut_lines N' n keep bare.
Proof.
  revert n bare. induction keep as [|line keep IH]; intros n bare H; [done|].
  destruct bare as [|l0 bare]; [done|]. cbn [cut_lines].
  unfold len in H. cbn [length] in H. f_equal.
  - unfold cut_line. by rewrite (H n) by lia.
  - apply IH. intros m Hm. apply H. unfold len in Hm. lia.
Qed.

(** X7. Line-cutoff reduction only looks at where the cutoff lies among
    the lines of the document: any cutoff below 1 gives the text of cutoff
    0, in which only control lines and blank lines are left, and any cutoff
    past the last line gives the document itself. *)
Theorem cutoff_is_clamped (t : ParsedTemplate) (N : Z) :
  _create_partial_by_line t N
    = _create_partial_by_line t (Z.max 0 (Z.min N (total_lines t)))
  /\ (total_lines t <= N -> _create_partial_by_line t N = original_content t).
Proof.
  assert (Hclamp : _create_partial_by_line t N
                   = _create_partial_by_line t (Z.max 0 (Z.min N (total_lines t)))).
  { unfold _create_partial_by_line. rewrite !partial_lines_cut. f_equal.
    apply cut_lines_ext. intros m Hm.
    assert (Hlen : len (PyStr.splitlines true (original_content t)) = total_lines t).
    { unfold total_lines, len. rewrite length_splitlines.
      by destruct (original_content t). }
    rewrite Hlen in Hm.
    destruct (m <=? N) eqn:H1; symmetry.
    - apply Z.leb_le in H1. apply Z.leb_le. lia.
    - apply Z.leb_gt in H1. apply Z.leb_gt. lia. }
  split; [done|]. intros HN. rewrite Hclamp.
  replace (Z.max 0 (Z.min N (total_lines t))) with (total_lines t).
  - apply create_partial_by_line_full.
  - assert (0 <= total_lines t); [|lia].
    unfold total_lines, len. destruct (original_content t); lia.
Qed.

Lemma cutoff_is_clamped_witness :
  total_lines Examples.three_lines <= 7
  /\ _create_partial_by_line Examples.three_lines 7
     = original_content Examples.three_lines.
Proof.
  assert (H : total_lines Examples.three_lines <= 7) by (vm_compute; discriminate).
  split; [exact H|].
  exact (proj2 (cutoff_is_clamped Examples.three_lines 7) H).
Defined.

End ReduceMore.

(** ** Line numbers in the reduced text *)

Module TextMore.
Import Parser Executor LineSearcher Spec Cut Lines LineEnds.
Import PyStrFacts ReduceFacts TextFacts.

Lemma join_nil_lines_ok ls : lines_ok ls -> PyStr.join ls = [] -> ls = [].
Proof.
  destruct ls as [|l ls]; [done|]. cbn [lines_ok PyStr.join concat].
  intros [Hl _] [Hnil _]%app_eq_nil. subst l.
  destruct Hl as [(body & eol & Heq & _ & He)|[[_ Hne] _]]; [|done].
  symmetry in Heq. apply app_eq_nil in Heq as [_ ->].
  by destruct He as [(c & ? & _)|?].
Qed.

Lemma ends_in_cr_closed body :
  ends_in_cr (body ++ [PyStr.CR]) = true.
Proof. unfold ends_in_cr. by rewrite last_snoc. Qed.

(** A text made of lines none of which ends in a lone carriage return
    splits back into these lines. *)
Lemma splitlines_join ls :
  lines_ok ls -> forallb (fun l => negb (ends_in_cr l)) ls = true ->
  PyStr.splitlines true (PyStr.join ls) = ls.
Proof.
  induction ls as [|l ls IH]; [done|].
  cbn [lines_ok forallb]. intros [Hl Hok] [Hcr Hrest]%andb_true_iff.
  unfold PyStr.join in *. cbn [concat].
  destruct Hl as [(body & eol & -> & Hb & He)|[Hopen ->]].
  - rewrite <- app_assoc, splitlines_closed by done.
    destruct (concat ls) as [|c2 rest'] eqn:Hjoin.
    + by rewrite (join_nil_lines_ok ls Hok Hjoin).
    + replace (bool_decide (eol = [PyStr.CR])) with false.
      * cbn [andb]. by rewrite IH.
      * symmetry. apply bool_decide_eq_false. intros ->.
        by rewrite ends_in_cr_closed in Hcr.
  - cbn [concat]. rewrite app_nil_r. by apply splitlines_open.
Qed.

Lemma cut_lines_no_cr N n keep bare :
  forallb (fun l => negb (ends_in_cr l)) keep = true ->
  forallb (fun l => negb (ends_in_cr l)) (cut_lines N n keep bare) = true.
Proof.
  revert n bare. induction keep as [|l keep IH]; intros n [|l0 bare]; try done.
  cbn [forallb cut_lines]. intros [Hl Hrest]%andb_true_iff.
  rewrite IH by done. rewrite andb_true_r. unfold cut_line.
  destruct (n <=? N); [done|]. destruct (is_control_line l0); [done|].
  by destruct (blank l).
Qed.

(** X8. Where no line of the document ends in a carriage return alone,
    the text that line-cutoff reduction writes has the lines it was made
    of: line [i] of the reduced text is what reduction made of line [i] of
    the document, and the reduced text has as many lines as the document,
    so a line number in an error of the renderer on the reduced text is a
    line number of the document. *)
Theorem cut_keeps_line_numbers (t : ParsedTemplate) (N : Z) :
  forallb (fun l => negb (ends_in_cr l))
          (PyStr.splitlines true (original_content t)) = true ->
  PyStr.splitlines true (_create_partial_by_line t N) = partial_lines t N
  /\ length (PyStr.splitlines true (_create_partial_by_line t N))
     = length (PyStr.splitlines true (original_content t))
  /\ total_lines (mkParsedTemplate (file_path t) (blocks t) (_create_partial_by_line t N))
     = total_lines t.
Proof.
  intros Hcr.
  assert (Hsplit : PyStr.splitlines true (_create_partial_by_line t N)
                   = partial_lines t N).
  { unfold _create_partial_by_line. rewrite partial_lines_cut.
    apply splitlines_join.
    - apply cut_lines_ok, splitlines_lines_ok.
    - by apply cut_lines_no_cr. }
  assert (Hlen : length (PyStr.splitlines true (_create_partial_by_line t N))
                 = length (PyStr.splitlines true (original_content t))).
  { rewrite Hsplit, partial_lines_cut. apply length_cut_lines, length_splitlines. }
  split; [done|]. split; [done|].
  rewrite !SearcherFacts.total_lines_len. cbn [original_content]. unfold len.
  by rewrite <- !length_splitlines, Hlen.
Qed.

Lemma cut_keeps_line_numbers_witness :
  let t := Examples.with_include in
  forallb (fun l => negb (ends_in_cr l))
          (PyStr.splitlines true (original_content t)) = true
  /\ PyStr.splitlines true (_create_partial_by_line t 1) = partial_lines t 1.
Proof.
  intros t.
  assert (H : forallb (fun l => negb (ends_in_cr l))
                (PyStr.splitlines true (original_content t)) = true) by reflexivity.
  split; [exact H|].
  exact (proj1 (cut_keeps_line_numbers t 1 H)).
Defined.

End TextMore.

(** ** The other executors *)

Module ExecutorMore.
Import Parser Executor Spec Cut Reduced.
Import PyStrFacts ParserFacts ReduceFacts BlockOrder ReduceMore.

Lemma units_end_line fp c d lines :
  Forall (fun b => c <= end_line b < c + len lines) (units fp c d lines).
Proof.
  apply Forall_forall. intros b Hb.
  pose proof (units_shape fp c d lines) as Hshape. rewrite Forall_forall in Hshape.
  destruct (Hshape b Hb) as (He & _).
  apply list_elem_of_lookup in Hb as [i Hi].
  apply units_lookup in Hi as (Hr & _). lia.
Qed.

(** The blocks that end on or before a line are the first blocks. *)
Lemma filter_units_prefix fp c d lines n :
  let kept := List.filter (fun b => end_line b <=? n) (units fp c d lines) in
  kept = take (length kept) (units fp c d lines).
Proof.
  revert c d. induction lines as [|line rest IH]; intros c d; [done|].
  cbn [units]. destruct (blank line); [apply IH|].
  cbn [List.filter end_line]. destruct (c <=? n) eqn:Hc.
  - cbn [length take]. f_equal. apply IH.
  - replace (List.filter _ _) with (@nil TemplateBlock); [done|].
    symmetry. apply Z.leb_gt in Hc.
    pose proof (units_end_line fp (c + 1) (depth_step d (_detect_block_type line)) rest)
      as Hall.
    induction Hall as [|b bs Hb _ IHb]; [done|].
    cbn [List.filter]. rewrite (proj2 (Z.leb_gt _ _)) by lia. done.
Qed.

Lemma slice_from_zero {A} (l : list A) b : slice l 0 b = slice_to l b.
Proof.
  unfold slice, slice_to. cbn [Z.ltb Z.compare].
  assert (0 <= len l) by (unfold len; lia).
  rewrite (Z.min_l 0) by done. rewrite drop_0, Z.sub_0_r.
  destruct (b <? 0) eqn:Hb.
  - f_equal. lia.
  - apply Z.ltb_ge in Hb. destruct (Z.le_gt_cases b (len l)).
    + by rewrite Z.min_l.
    + rewrite Z.min_r by lia. unfold len in *.
      rewrite !take_ge; [done | lia | lia].
Qed.

Section Oracle.
Context {World : Type}.
Variable run_template : chart -> World -> HelmResult * World.

(** X9. On a parsed document, [IncrementalExecutor.execute_up_to_line]
    probes a prefix of the blocks: the call for line [n] is the call of
    [execute_up_to_block] for the last block on or before line [n], and
    with [n] on or after the last line it probes the document itself. *)
Theorem up_to_line_is_a_block_prefix (text : str) (fp : path) (line_number : Z)
    (e : Env World) :
  let t := parse_file fp text in
  let count := len (List.filter (fun b => end_line b <=? line_number) (blocks t)) in
  IncrementalExecutor.execute_up_to_line run_template t line_number e
    = execute_up_to_block run_template t (count - 1) e
  /\ (len (PyStr.splitlines true text) <= line_number ->
      IncrementalExecutor.execute_up_to_line run_template t line_number e
      = run run_template (TempChart fp text) e).
Proof.
  intros t count. split.
  - unfold IncrementalExecutor.execute_up_to_line, execute_up_to_block. f_equal.
    unfold slice_to. subst count. unfold len.
    rewrite (proj2 (Z.ltb_ge _ _)) by lia.
    replace (Z.to_nat (_ - 1 + 1)) with
      (length (List.filter (fun b => end_line b <=? line_number) (blocks t))) by lia.
    subst t. cbn [blocks parse_file]. rewrite parse_units.
    apply filter_units_prefix.
  - intros Hn. unfold IncrementalExecutor.execute_up_to_line, execute_with_blocks.
    do 2 f_equal.
    replace (List.filter _ (blocks t)) with (blocks t).
    + apply create_partial_template_full.
    + subst t. cbn [blocks parse_file]. rewrite parse_units.
      pose proof (units_end_line fp 1 0 (PyStr.splitlines true text)) as Hall.
      induction Hall as [|b bs Hb _ IHb]; [done|].
      cbn [List.filter]. rewrite (proj2 (Z.leb_le _ _)) by lia. by f_equal.
Qed.

(** X10. [BlockRangeExecutor] reduces as [IncrementalExecutor] does: its
    text for a list of blocks is the same, a range that starts at block 0
    is the probe of [execute_up_to_block], for every end index, and the
    range of all the blocks of a parsed document probes the document
    itself. *)
Theorem block_range_from_zero_is_prefix (t : ParsedTemplate) (end_block : Z)
    (e : Env World) :
  (forall bs, BlockRangeExecutor._create_range_template t bs
              = _create_partial_template t bs)
  /\ BlockRangeExecutor.execute_block_range run_template t 0 end_block e
     = execute_up_to_block run_template t end_block e
  /\ (forall text fp,
        BlockRangeExecutor.execute_block_range run_template (parse_file fp text) 0
          (len (blocks (parse_file fp text)) - 1) e
        = run run_template (TempChart fp text) e).
Proof.
  split; [done|]. split.
  - unfold BlockRangeExecutor.execute_block_range, execute_up_to_block,
      execute_with_blocks.
    by rewrite slice_from_zero.
  - intros text fp. unfold BlockRangeExecutor.execute_block_range.
    rewrite slice_from_zero. unfold slice_to.
    assert (0 <= len (blocks (parse_file fp text))) by (unfold len; lia).
    rewrite (proj2 (Z.ltb_ge _ _)) by lia.
    rewrite take_ge by (unfold len; lia).
    change (BlockRangeExecutor._create_range_template ?t ?bs)
      with (_create_partial_template t bs).
    cbn [blocks parse_file file_path]. by rewrite create_partial_template_full.
Qed.
End Oracle.

Lemma up_to_line_is_a_block_prefix_witness :
  let t := Examples.three_lines in
  len (PyStr.splitlines true (original_content t)) <= 3
  /\ IncrementalExecutor.execute_up_to_line Examples.always_passes t 3 Examples.start
     = run Examples.always_passes (TempChart [] (original_content t)) Examples.start.
Proof.
  assert (H : len (PyStr.splitlines true
                     (concat (repeat (of_string "k: v" ++ Examples.LF) 3))) <= 3)
    by (vm_compute; discriminate).
  split; [exact H|].
  exact (proj2 (up_to_line_is_a_block_prefix Examples.always_passes
                  (concat (repeat (of_string "k: v" ++ Examples.LF) 3)) [] 3
                  Examples.start) H).
Defined.

End ExecutorMore.

(** ** The structure map *)

Module StructureMap.
Import Parser LineSearcher ReduceFacts.

Lemma structure_map_after (ls : list str) c (m0 : gmap Z bool) k :
  c + len ls < k ->
  fold_left (fun structure_map '(i, line) =>
               <[ i + 1 := is_control_line line ]> structure_map)
            (enumerate_from c ls) m0 !! k = m0 !! k.
Proof.
  revert c m0. induction ls as [|l ls IH]; intros c m0 Hk; [done|].
  unfold len in *. cbn [length] in Hk. cbn [enumerate_from fold_left].
  rewrite IH by (unfold len; lia). apply lookup_insert_ne. lia.
Qed.

(** X11. The structure map has one entry for each line of the document,
    under the number of the line counted from 1, and it says whether the
    line, without its line ending, is a control line; no other key is in
    the map, so that asking for a line outside the document gives the
    default, not a control line. *)
Theorem structure_map_entries (content : str) (k : Z) :
  let lines := PyStr.splitlines false content in
  get_structure_map content !! k
    = (if bool_decide (1 <= k) then is_control_line <$> lines !! Z.to_nat (k - 1)
       else None)
  /\ (k < 1 \/ len lines < k -> default false (get_structure_map content !! k) = false).
Proof.
  intros lines.
  assert (Hk : get_structure_map content !! k
               = (if bool_decide (1 <= k) then is_control_line <$> lines !! Z.to_nat (k - 1)
                  else None)).
  { unfold get_structure_map, enumerate. fold lines. cbv zeta.
    destruct (bool_decide (1 <= k)) eqn:H1.
    - apply bool_decide_eq_true in H1.
      destruct (lines !! Z.to_nat (k - 1)) as [l0|] eqn:Hl.
      + cbn [fmap option_fmap option_map].
        rewrite <- (structure_map_lookup lines 0 ∅ _ _ Hl). f_equal. lia.
      + apply lookup_ge_None in Hl.
        rewrite structure_map_after by (unfold len; lia). done.
    - apply bool_decide_eq_false in H1. rewrite structure_map_other by lia. done. }
  split; [done|]. rewrite Hk. intros [Hlow|Hhigh].
  - by rewrite bool_decide_eq_false_2 by lia.
  - destruct (bool_decide (1 <= k)); [|done].
    unfold len in Hhigh. rewrite (proj2 (lookup_ge_None _ _)) by lia. done.
Qed.

Lemma structure_map_entries_witness :
  let content := original_content Examples.with_include in
  (4 < 1 \/ len (PyStr.splitlines false content) < 4)
  /\ default false (get_structure_map content !! 4) = false
  /\ get_structure_map content !! 3 = Some true.
Proof.
  intros content.
  assert (H : 4 < 1 \/ len (PyStr.splitlines false content) < 4)
    by (right; vm_compute; reflexivity).
  split; [exact H|].
  split; [exact (proj2 (structure_map_entries content 4) H)|].
  rewrite (proj1 (structure_map_entries content 3)). reflexivity.
Defined.

End StructureMap.

(** ** The renderer *)

Module RendererFacts.
Import Parser Executor HelmExecutor Diag Trail.
Import PyStrFacts SearchFacts SearcherFacts.

Lemma contains_nonempty needle c hay :
  PyText.contains (c :: needle) hay = true -> hay <> [].
Proof. by destruct hay. Qed.

Lemma marked_nonempty l : marked l = true -> l <> [].
Proof.
  unfold marked. intros [[H|H]%orb_true_iff|H]%orb_true_iff;
    by apply contains_nonempty in H.
Qed.

Lemma forallb_false {A} (p : A -> bool) (l : list A) :
  forallb p l = false -> exists x, In x l /\ p x = false.
Proof.
  induction l as [|x l IH]; cbn [forallb]; [done|].
  destruct (p x) eqn:Hx.
  - intros (y & Hy & Hpy)%IH. exists y. split; [by right | done].
  - intros _. exists x. split; [by left | done].
Qed.

Lemma join_with_nil sep l ls : PyText.join_with sep (l :: ls) = [] -> l = [].
Proof. destruct ls; cbn [PyText.join_with]; [done|]. by intros [? _]%app_eq_nil. Qed.

(** X12. The message drawn from the error output of the renderer is empty
    only when the error output is empty.  It is the error output itself
    when no line of it holds one of the markers [Error:], [error:] and
    [template:]; otherwise it is made of the marked lines alone, in their
    order, joined by line feeds. *)
Theorem error_message_keeps_marked_lines (r : HelmResult) :
  let lines := PyStr.splitlines false (PyStr.strip (stderr r)) in
  (error_message r = [] <-> stderr r = [])
  /\ (forallb (fun l => negb (marked l)) lines = true -> error_message r = stderr r)
  /\ (forallb (fun l => negb (marked l)) lines = false ->
      error_message r = PyText.join_with [PyStr.LF] (List.filter marked lines)).
Proof.
  intros lines. unfold error_message. fold lines.
  change (fun l => _ || _ || _) with marked.
  destruct (stderr r) as [|c s] eqn:Hs; cbn [is_empty].
  { split; [done|]. split; [done|]. intros H. by vm_compute in H. }
  destruct (List.filter marked lines) as [|l ls] eqn:Hf; cbn [is_empty].
  - split; [done|]. split; [done|]. intros Hex.
    apply forallb_false in Hex as (l & Hl & Hm). apply negb_false_iff in Hm.
    assert (Hin : In l (List.filter marked lines)) by by apply filter_In.
    by rewrite Hf in Hin.
  - assert (Hl : In l (List.filter marked lines)) by (rewrite Hf; by left).
    apply filter_In in Hl as [Hl Hm]. split; [|split; [|done]].
    + split; [|done]. intros Hnil%join_with_nil. by apply marked_nonempty in Hm.
    + intros Hall. rewrite forallb_forall in Hall. apply Hall in Hl.
      by rewrite Hm in Hl.
Qed.

Lemma error_message_keeps_marked_lines_witness :
  forallb (fun l => negb (marked l))
    (PyStr.splitlines false (PyStr.strip (stderr RendererExamples.noisy))) = false
  /\ error_message RendererExamples.noisy
     = of_string "Error: YAML parse error on chart/templates/a.yaml".
Proof.
  assert (H : forallb (fun l => negb (marked l))
                (PyStr.splitlines false (PyStr.strip (stderr RendererExamples.noisy)))
              = false) by reflexivity.
  split; [exact H|].
  rewrite (proj2 (proj2 (error_message_keeps_marked_lines RendererExamples.noisy)) H).
  reflexivity.
Defined.

Lemma fold_left_flags (flag : str) (l : list str) (acc : list str) :
  fold_left (fun cmd x => cmd ++ [flag; x]) l acc
  = acc ++ concat (map (fun x => [flag; x]) l).
Proof.
  revert acc. induction l as [|x l IH]; intros acc; cbn [fold_left map concat].
  - by rewrite app_nil_r.
  - rewrite IH. by rewrite <- !app_assoc.
Qed.

Section Process.
Context {World : Type}.
Variable subprocess_run : list str -> Z -> World -> outcome * World.

(** X13. The command that [run_template] runs, and records in the
    result, is the executable, [template], the release and the chart
    path, then [-f] before each values file, then [--set] before each
    value, then the extra arguments.  A result is a success exactly when
    its exit code is 0; a process that is killed for time or does not
    start gives exit code [-1], no output, and the time-out notice or the
    text of the exception as its error output. *)
Theorem run_template_result (self : HelmExecutor) (chart_path : str) (timeout : Z)
    (w : World) :
  let r := (run_template subprocess_run self chart_path timeout w).1 in
  let o := (subprocess_run (cmd self chart_path) timeout w).1 in
  command r
    = [helm_path self; of_string "template"; release_name self; chart_path]
      ++ concat (map (fun v => [of_string "-f"; v]) (values_files self))
      ++ concat (map (fun s => [of_string "--set"; s]) (set_values self))
      ++ extra_args self
  /\ success r = (exit_code r =? 0)
  /\ match o with
     | Completed returncode out err =>
         exit_code r = returncode /\ stdout r = out /\ stderr r = err
     | TimeoutExpired =>
         exit_code r = -1 /\ stdout r = []
         /\ stderr r = of_string "Command timed out after " ++ PyStr.of_Z timeout
                       ++ of_string " seconds"
     | Raised message => exit_code r = -1 /\ stdout r = [] /\ stderr r = message
     end.
Proof.
  intros r o. subst r o. unfold run_template.
  assert (Hcmd : cmd self chart_path
            = [helm_path self; of_string "template"; release_name self; chart_path]
              ++ concat (map (fun v => [of_string "-f"; v]) (values_files self))
              ++ concat (map (fun s => [of_string "--set"; s]) (set_values self))
              ++ extra_args self).
  { unfold cmd. rewrite !fold_left_flags. by rewrite <- !app_assoc. }
  destruct (subprocess_run (cmd self chart_path) timeout w) as [[rc out err| |msg] w'];
    cbn [fst command success exit_code stdout stderr]; by rewrite <- Hcmd.
Qed.

Variable stage : chart -> World -> str * World.
Variable cleanup : chart -> World -> World.

Lemma render_timeout self c w :
  (forall cmd timeout w, (subprocess_run cmd timeout w).1 = TimeoutExpired) ->
  success (render subprocess_run stage cleanup self c w).1 = false
  /\ stderr (render subprocess_run stage cleanup self c w).1
     = of_string "Command timed out after 60 seconds"
  /\ exit_code (render subprocess_run stage cleanup self c w).1 = -1.
Proof.
  intros Hto. unfold render, run_template.
  destruct (stage c w) as [p w1].
  specialize (Hto (cmd self p) 60 w1).
  destruct (subprocess_run (cmd self p) 60 w1) as [o w2]. cbn [fst] in Hto.
  by subst o.
Qed.

Lemma run_render_fst self c (e : Env World) :
  (run (render subprocess_run stage cleanup self) c e).1
  = (render subprocess_run stage cleanup self c (world e)).1.
Proof. unfold run. by destruct (render _ _ _ _ _ _). Qed.

(** X14. When every call of the renderer is killed for time, block
    bisection over a document with blocks still ends: it blames the
    first block, with no last good block, and the error it hands on is
    the time-out notice of [run_template] with exit code [-1]. *)
Theorem bisection_when_helm_hangs (self : HelmExecutor) (t : ParsedTemplate)
    (e : Env World) :
  (forall cmd timeout w, (subprocess_run cmd timeout w).1 = TimeoutExpired) ->
  blocks t <> [] ->
  exists r e' err,
    Searcher.BinarySearcher_search (render subprocess_run stage cleanup self) t e
    = Some (r, e')
    /\ Searcher.found_error r = true
    /\ Searcher.failing_block_index r = Some 0
    /\ Searcher.failing_block r = blocks t !! 0%nat
    /\ Searcher.last_successful_block_index r = None
    /\ Searcher.error_result r = Some err
    /\ exit_code err = -1
    /\ error_message err = of_string "Command timed out after 60 seconds".
Proof.
  intros Hto Hne.
  set (rt := render subprocess_run stage cleanup self).
  assert (Hfail : forall c e0, success (run rt c e0).1 = false).
  { intros c e0. subst rt. rewrite run_render_fst. by apply render_timeout. }
  pose proof (block_search_run rt t e Hne (Hfail _ _)) as Hrun. cbv zeta in Hrun.
  assert (Hlen : 0 < len (blocks t)).
  { unfold len. destruct (blocks t); [done | simpl; lia]. }
  destruct (bisection_monotone (execute_up_to_block rt t) 0 (len (blocks t) - 1) (-1)
              None (validate_full_template rt e).2 0) as [Hlg Hfi]; [|lia|lia|].
  { intros m e0 Hm. unfold execute_up_to_block, execute_with_blocks.
    rewrite Hfail. symmetry. apply Z.ltb_ge. lia. }
  rewrite Hfi in Hrun. destruct (decide (0 <= len (blocks t) - 1)); [|lia].
  destruct Hrun as (b & Hb & Hrun). rewrite Hlg in Hrun.
  eexists _, _, _. split; [exact Hrun|].
  cbn [Searcher.found_error Searcher.failing_block_index Searcher.failing_block
       Searcher.last_successful_block_index Searcher.error_result].
  split; [done|]. split; [done|]. split; [by rewrite <- Hb|].
  split; [done|]. split; [done|].
  unfold execute_up_to_block, execute_with_blocks.
  subst rt. rewrite run_render_fst.
  destruct (render_timeout self
              (TempChart (file_path t)
                 (_create_partial_template t (slice_to (blocks t) (0 + 1))))
              (world (bisection
                        (fun i => run (render subprocess_run stage cleanup self)
                                    (TempChart (file_path t)
                                       (_create_partial_template t
                                          (slice_to (blocks t) (i + 1)))))
                        0 (len (blocks t) - 1) (-1) None
                        (validate_full_template
                           (render subprocess_run stage cleanup self) e).2).2) Hto)
    as (_ & Herr & Hexit).
  split; [exact Hexit|]. unfold error_message. rewrite Herr. reflexivity.
Qed.
End Process.

Lemma run_template_result_check :
  command (run_template RendererExamples.hangs
             (mkHelmExecutor (of_string "helm") (of_string "r")
                [of_string "a.yaml"; of_string "b.yaml"] [of_string "k=v"]
                [of_string "--debug"])
             (of_string "/tmp/chart") 60 tt).1
  = map of_string ["helm"; "template"; "r"; "/tmp/chart"; "-f"; "a.yaml"; "-f"; "b.yaml";
                   "--set"; "k=v"; "--debug"]%string.
Proof. reflexivity. Qed.

Lemma bisection_when_helm_hangs_witness :
  let rt := render RendererExamples.hangs RendererExamples.no_stage
              RendererExamples.no_cleanup RendererExamples.plain_helm in
  blocks Examples.three_lines <> []
  /\ exists r e' err,
       Searcher.BinarySearcher_search rt Examples.three_lines Examples.start = Some (r, e')
       /\ Searcher.failing_block_index r = Some 0
       /\ Searcher.error_result r = Some err
       /\ error_message err = of_string "Command timed out after 60 seconds".
Proof.
  intros rt.
  assert (Hne : blocks Examples.three_lines <> []) by (vm_compute; discriminate).
  split; [exact Hne|].
  destruct (bisection_when_helm_hangs RendererExamples.hangs RendererExamples.no_stage
              RendererExamples.no_cleanup RendererExamples.plain_helm
              Examples.three_lines Examples.start (fun _ _ _ => eq_refl) Hne)
    as (r & e' & err & Hrun & _ & Hfi & _ & _ & Herr & _ & Hmsg).
  exists r, e', err. repeat split; assumption.
Defined.

End RendererFacts.

(** ** The templates of a chart *)

Module ChartFacts.
Import Parser Spec Chart ParserFacts.

Lemma units_nil fp c d lines :
  is_empty (units fp c d lines) = forallb blank lines.
Proof.
  revert c d. induction lines as [|line rest IH]; intros c d; [done|].
  cbn [units forallb]. destruct (blank line); [apply IH | done].
Qed.

Lemma all_blocks_fold (ts : list ParsedTemplate) acc :
  fold_left (fun blocks template => blocks ++ Parser.blocks template) ts acc
  = acc ++ concat (map blocks ts).
Proof.
  revert acc. induction ts as [|t ts IH]; intros acc; cbn [fold_left map concat].
  - by rewrite app_nil_r.
  - by rewrite IH, <- app_assoc.
Qed.

Lemma parse_chart_fold (files : list (path * str)) acc :
  fold_left
    (fun templates '(file_path, content) =>
       let parsed := parse_file file_path content in
       if is_empty (blocks parsed) then templates else templates ++ [parsed])
    files acc
  = acc ++ map (fun '(p, c) => parse_file p c)
               (List.filter (fun '(_, c) => negb (forallb blank (PyStr.splitlines true c)))
                            files).
Proof.
  revert acc. induction files as [|[p c] files IH]; intros acc;
    cbn [fold_left List.filter].
  - by rewrite app_nil_r.
  - rewrite IH. cbv zeta. cbn [blocks parse_file]. rewrite parse_units, units_nil.
    destruct (forallb blank _); cbn [negb map]; [done|]. by rewrite <- app_assoc.
Qed.

(** X15. [parse_chart] keeps the template files in the order they are
    listed and drops exactly those in which every line is blank.  So every
    template it gives has a block, there are at least as many blocks as
    files, and [all_blocks] is the blocks of the templates one after the
    other. *)
Theorem parse_chart_drops_blank_files (cp : path) (files : list (path * str)) :
  let c := parse_chart cp files in
  templates c
    = map (fun '(p, text) => parse_file p text)
          (List.filter
             (fun '(_, text) => negb (forallb blank (PyStr.splitlines true text))) files)
  /\ Forall (fun t => blocks t <> []) (templates c)
  /\ all_blocks c = concat (map blocks (templates c))
  /\ total_files c <= total_blocks c.
Proof.
  intros c.
  assert (Ht : templates c
               = map (fun '(p, text) => parse_file p text)
                     (List.filter
                        (fun '(_, text) =>
                           negb (forallb blank (PyStr.splitlines true text))) files)).
  { subst c. unfold parse_chart. cbn [templates]. by rewrite parse_chart_fold. }
  assert (Hne : Forall (fun t => blocks t <> []) (templates c)).
  { rewrite Ht. apply Forall_forall. intros t Hin%list_elem_of_In.
    apply in_map_iff in Hin as ([p text] & <- & Hin).
    apply filter_In in Hin as [_ Hnb]. cbn [blocks parse_file].
    rewrite parse_units. intros Hnil.
    pose proof (units_nil p 1 0 (PyStr.splitlines true text)) as Hu.
    rewrite Hnil in Hu. cbn [is_empty] in Hu. by rewrite <- Hu in Hnb. }
  assert (Hall : all_blocks c = concat (map blocks (templates c))).
  { unfold all_blocks. by rewrite all_blocks_fold. }
  split; [done|]. split; [done|]. split; [done|].
  unfold total_files, total_blocks. rewrite Hall. unfold len.
  clear Ht Hall. induction Hne as [|t ts Hlt _ IH]; [done|].
  cbn [map concat length]. rewrite length_app.
  destruct (blocks t); [done|]. cbn [length]. lia.
Qed.

End ChartFacts.

(** ** What a bisection has seen *)

Module TrailFacts.
Import Parser Executor LineSearcher Trail SearchFacts SearcherFacts.

Lemma block_steps_lookup sn trail (j : nat) s :
  block_steps sn trail !! j = Some s ->
  exists m r, trail !! j = Some (m, r)
              /\ s = Searcher.mkSearchStep (sn + Z.of_nat j + 1) (Searcher.tested m) r
                       (Some m).
Proof.
  revert sn j. induction trail as [|[m r] trail IH]; intros sn j; [done|].
  destruct j as [|j]; cbn [block_steps lookup list_lookup].
  - intros [= <-]. exists m, r. split; [done|]. f_equal. lia.
  - intros (m' & r' & Hj & ->)%IH. exists m', r'. split; [done|]. f_equal. lia.
Qed.

Lemma line_steps_lookup sn trail (j : nat) s :
  line_steps sn trail !! j = Some s ->
  exists m r, trail !! j = Some (m, r)
              /\ s = mkLineSearchStep (sn + Z.of_nat j + 1) (tested m) r (Some m).
Proof.
  revert sn j. induction trail as [|[m r] trail IH]; intros sn j; [done|].
  destruct j as [|j]; cbn [line_steps lookup list_lookup].
  - intros [= <-]. exists m, r. split; [done|]. f_equal. lia.
  - intros (m' & r' & Hj & ->)%IH. exists m', r'. split; [done|]. f_equal. lia.
Qed.

Lemma block_steps_elem sn trail m r :
  (m, r) ∈ trail ->
  exists s, s ∈ block_steps sn trail /\ Searcher.block_index s = Some m
            /\ Searcher.result s = r.
Proof.
  revert sn. induction trail as [|[m' r'] trail IH]; intros sn.
  - by intros ?%elem_of_nil.
  - cbn [block_steps]. intros [[= -> ->]|Hin]%elem_of_cons.
    + eexists. split; [left|]. done.
    + destruct (IH (sn + 1) Hin) as (s & Hs & Hm & Hr).
      exists s. split; [by right | done].
Qed.

Lemma line_steps_elem sn trail m r :
  (m, r) ∈ trail ->
  exists s, s ∈ line_steps sn trail /\ line_number s = Some m /\ result s = r.
Proof.
  revert sn. induction trail as [|[m' r'] trail IH]; intros sn.
  - by intros ?%elem_of_nil.
  - cbn [line_steps]. intros [[= -> ->]|Hin]%elem_of_cons.
    + eexists. split; [left|]. done.
    + destruct (IH (sn + 1) Hin) as (s & Hs & Hm & Hr).
      exists s. split; [by right | done].
Qed.

Lemma block_steps_index sn trail :
  map Searcher.block_index (block_steps sn trail) = map (fun mr => Some mr.1) trail.
Proof.
  revert sn. induction trail as [|[m r] trail IH]; intros sn; [done|].
  cbn [block_steps map]. by rewrite IH.
Qed.

Lemma line_steps_index sn trail :
  map line_number (line_steps sn trail) = map (fun mr => Some mr.1) trail.
Proof.
  revert sn. induction trail as [|[m r] trail IH]; intros sn; [done|].
  cbn [line_steps map]. by rewrite IH.
Qed.

Lemma omap_block_steps sn trail :
  omap Searcher.block_index (block_steps sn trail) = map fst trail.
Proof.
  revert sn. induction trail as [|[m r] trail IH]; intros sn; [done|].
  cbn [block_steps map]. cbn. by rewrite IH.
Qed.

Lemma omap_line_steps sn trail :
  omap line_number (line_steps sn trail) = map fst trail.
Proof.
  revert sn. induction trail as [|[m r] trail IH]; intros sn; [done|].
  cbn [line_steps map]. cbn. by rewrite IH.
Qed.

Lemma NoDup_map_Some (l : list Z) : NoDup l -> NoDup (map Some l).
Proof.
  induction 1 as [|x l Hx Hl IH]; cbn [map]; constructor; [|done].
  intros Hin%list_elem_of_In%in_map_iff. destruct Hin as (y & [= ->] & Hy).
  by apply Hx, list_elem_of_In.
Qed.

Section Bisection.
Context {World : Type}.
Variable run_template : chart -> World -> HelmResult * World.

Lemma run_probed c (e : Env World) :
  probed (run run_template c e).2 = probed e ++ [c].
Proof. unfold run. by destruct (run_template c (world e)). Qed.

Lemma run_result c (e : Env World) :
  (run run_template c e).1 = (run_template c (world e)).1.
Proof. unfold run. by destruct (run_template c (world e)). Qed.

(** The log of a bisection: one chart for each probe, in order. *)
Lemma bisection_probed (chart_of : Z -> chart) low high last_good failing
    (e : Env World) :
  let res := bisection (fun m => run run_template (chart_of m)) low high last_good
                       failing e in
  probed res.2 = probed e ++ map chart_of (map fst res.1.2).
Proof.
  revert last_good failing e.
  pattern low, high. apply interval_ind. clear low high. intros low high IH.
  intros last_good failing e. rewrite bisection_unfold.
  destruct (decide (low <= high)) as [Hlh|Hlh]; cbn zeta.
  - set (mid := (low + high) `div` 2).
    assert (low <= mid <= high) by (subst mid; Z.div_mod_to_equations; lia).
    destruct (success (run run_template (chart_of mid) e).1); cbn [fst snd map].
    + rewrite IH by lia. rewrite run_probed. by rewrite <- app_assoc.
    + rewrite IH by lia. rewrite run_probed. by rewrite <- app_assoc.
  - cbn. by rewrite app_nil_r.
Qed.

(** Every probe of a bisection is inside the interval, and no cutoff is
    probed twice. *)
Lemma bisection_cutoffs probe low high last_good failing (e : Env World) :
  let res := bisection probe low high last_good failing e in
  Forall (fun m => low <= m <= high) (map fst res.1.2)
  /\ NoDup (map fst res.1.2).
Proof.
  revert last_good failing e.
  pattern low, high. apply interval_ind. clear low high. intros low high IH.
  intros last_good failing e. rewrite bisection_unfold.
  destruct (decide (low <= high)) as [Hlh|Hlh]; cbn zeta.
  - set (mid := (low + high) `div` 2).
    assert (Hmid : low <= mid <= high) by (subst mid; Z.div_mod_to_equations; lia).
    destruct (success (probe mid e).1); cbn [fst snd map].
    + destruct (IH (mid + 1) high ltac:(lia) Hlh mid failing (probe mid e).2)
        as [Hr Hnd].
      split.
      * constructor; [done|]. eapply Forall_impl; [exact Hr|]. cbn. intros; lia.
      * constructor; [|done]. intros Hin.
        rewrite Forall_forall in Hr. apply Hr in Hin. lia.
    + destruct (IH low (mid - 1) ltac:(lia) Hlh last_good (Some mid) (probe mid e).2)
        as [Hr Hnd].
      split.
      * constructor; [done|]. eapply Forall_impl; [exact Hr|]. cbn. intros; lia.
      * constructor; [|done]. intros Hin.
        rewrite Forall_forall in Hr. apply Hr in Hin. lia.
  - cbn. split; constructor.
Qed.

(** The verdict of a bisection against what it has seen: every cutoff
    that passed is at or below the last good one, every cutoff that
    failed is at or above the failing one. *)
Lemma bisection_bounds probe low high last_good failing (e : Env World) :
  low <= high + 1 -> last_good = low - 1 ->
  let res := bisection probe low high last_good failing e in
  (forall m r, (m, r) ∈ res.1.2 -> success r = true -> m <= res.1.1.1)
  /\ (forall m r, (m, r) ∈ res.1.2 -> success r = false ->
        exists fi, res.1.1.2 = Some fi /\ fi <= m).
Proof.
  revert last_good failing e.
  pattern low, high. apply interval_ind. clear low high. intros low high IH.
  intros last_good failing e Hle ->. rewrite bisection_unfold.
  destruct (decide (low <= high)) as [Hlh|Hlh]; cbn zeta.
  - set (mid := (low + high) `div` 2).
    assert (Hmid : low <= mid <= high) by (subst mid; Z.div_mod_to_equations; lia).
    destruct (success (probe mid e).1) eqn:Hs; cbn [fst snd].
    + destruct (IH (mid + 1) high ltac:(lia) Hlh mid failing (probe mid e).2
                   ltac:(lia) ltac:(lia)) as [Hp Hf].
      pose proof (bisection_gap probe (mid + 1) high mid failing (probe mid e).2
                    ltac:(lia) ltac:(lia)) as [Hrange _].
      split.
      * intros m r [[= -> ->]|Hin]%elem_of_cons Hr; [lia | by eapply Hp].
      * intros m r [[= -> ->]|Hin]%elem_of_cons Hr; [congruence | by eapply Hf].
    + destruct (IH low (mid - 1) ltac:(lia) Hlh (low - 1) (Some mid) (probe mid e).2
                   ltac:(lia) ltac:(lia)) as [Hp Hf].
      pose proof (bisection_gap probe low (mid - 1) (low - 1) (Some mid)
                    (probe mid e).2 ltac:(lia) ltac:(lia)) as [Hrange Hgap].
      split.
      * intros m r [[= -> ->]|Hin]%elem_of_cons Hr; [congruence | by eapply Hp].
      * intros m r [[= -> ->]|Hin]%elem_of_cons Hr; [|by eapply Hf].
        destruct Hgap as [[-> _]|[-> ?]]; eexists; (split; [done | lia]).
  - cbn. split; intros m r Hin; by apply elem_of_nil in Hin.
Qed.

(** The verdict of a bisection was seen: a probe at the last good cutoff
    passed and a probe at the failing cutoff failed, unless they are
    still as they were before the loop. *)
Lemma bisection_seen probe low high last_good failing (e : Env World) :
  let res := bisection probe low high last_good failing e in
  (res.1.1.1 = last_good
   \/ exists r, (res.1.1.1, r) ∈ res.1.2 /\ success r = true)
  /\ (res.1.1.2 = failing
      \/ exists fi r, res.1.1.2 = Some fi /\ (fi, r) ∈ res.1.2 /\ success r = false).
Proof.
  revert last_good failing e.
  pattern low, high. apply interval_ind. clear low high. intros low high IH.
  intros last_good failing e. rewrite bisection_unfold.
  destruct (decide (low <= high)) as [Hlh|Hlh]; cbn zeta.
  - set (mid := (low + high) `div` 2).
    assert (Hmid : low <= mid <= high) by (subst mid; Z.div_mod_to_equations; lia).
    destruct (success (probe mid e).1) eqn:Hs; cbn [fst snd].
    + destruct (IH (mid + 1) high ltac:(lia) Hlh mid failing (probe mid e).2)
        as [Hg Hf].
      split.
      * right. destruct Hg as [->|(r & Hin & Hr)].
        -- eexists. split; [left | done].
        -- exists r. split; [by right | done].
      * destruct Hf as [?|(fi & r & ? & Hin & Hr)]; [by left | right].
        exists fi, r. split; [done|]. split; [by right | done].
    + destruct (IH low (mid - 1) ltac:(lia) Hlh last_good (Some mid) (probe mid e).2)
        as [Hg Hf].
      split.
      * destruct Hg as [?|(r & Hin & Hr)]; [by left | right].
        exists r. split; [by right | done].
      * right. destruct Hf as [->|(fi & r & ? & Hin & Hr)].
        -- eexists _, _. split; [done|]. split; [left | done].
        -- exists fi, r. split; [done|]. split; [by right | done].
  - cbn. by split; left.
Qed.

(** The loop makes at least [floor(log2 (n + 1))] probes on an interval
    of [n] cutoffs. *)
Lemma bisection_steps_lower probe low high last_good failing (e : Env World) :
  low <= high + 1 ->
  Z.log2 (high - low + 2) <= len (bisection probe low high last_good failing e).1.2.
Proof.
  revert last_good failing e.
  pattern low, high. apply interval_ind. clear low high. intros low high IH.
  intros last_good failing e Hle. rewrite bisection_unfold.
  destruct (decide (low <= high)) as [Hlh|Hlh]; cbn zeta.
  - set (mid := (low + high) `div` 2).
    assert (Hmid : low <= mid <= high
                   /\ high - low <= 2 * (high - mid) + 1
                   /\ high - low <= 2 * (mid - low) + 1)
      by (subst mid; Z.div_mod_to_equations; lia).
    assert (Hhalf : forall s', 0 <= s' -> high - low <= 2 * s' + 1 ->
              Z.log2 (high - low + 2) <= 1 + Z.log2 (s' + 1)).
    { intros s' Hs' Hsz.
      pose proof (Z.log2_double (s' + 1) ltac:(lia)) as Hd.
      pose proof (Z.log2_succ_double (s' + 1) ltac:(lia)) as Hsd.
      destruct (decide (high - low + 2 <= 2 * (s' + 1))) as [Hbig|Hsmall].
      - pose proof (Z.log2_le_mono _ _ Hbig). lia.
      - assert (high - low + 2 = 2 * (s' + 1) + 1) as -> by lia. lia. }
    unfold len in *. cbn [fst snd length].
    destruct (success (probe mid e).1); cbn [fst snd length].
    + pose proof (IH (mid + 1) high ltac:(lia) Hlh mid failing (probe mid e).2
                     ltac:(lia)) as Hrec.
      pose proof (Hhalf (high - mid) ltac:(lia) ltac:(lia)) as Hh.
      replace (high - (mid + 1) + 2) with (high - mid + 1) in Hrec by lia. lia.
    + pose proof (IH low (mid - 1) ltac:(lia) Hlh last_good (Some mid) (probe mid e).2
                     ltac:(lia)) as Hrec.
      pose proof (Hhalf (mid - low) ltac:(lia) ltac:(lia)) as Hh.
      replace (mid - 1 - low + 2) with (mid - low + 1) in Hrec by lia. lia.
  - cbn. assert (high - low + 2 = 1) as -> by lia. done.
Qed.

(** Every result of the trail is the answer to its probe. *)
Lemma bisection_results probe low high last_good failing (e : Env World) :
  let res := bisection probe low high last_good failing e in
  Forall (fun mr => exists e0 : Env World, mr.2 = (probe mr.1 e0).1) res.1.2.
Proof.
  revert last_good failing e.
  pattern low, high. apply interval_ind. clear low high. intros low high IH.
  intros last_good failing e. rewrite bisection_unfold.
  destruct (decide (low <= high)) as [Hlh|Hlh]; cbn zeta; [|constructor].
  set (mid := (low + high) `div` 2).
  assert (Hmid : low <= mid <= high) by (subst mid; Z.div_mod_to_equations; lia).
  destruct (success (probe mid e).1); cbn [fst snd];
    (constructor; [by exists e | apply IH; lia]).
Qed.

(** The result kept as the last that passed is the result of the probe
    at the last good cutoff. *)
Lemma bisection_last_passed probe low high last_good failing prev (e : Env World) :
  let res := bisection probe low high last_good failing e in
  (res.1.1.1 = last_good /\ last_passed prev res.1.2 = prev)
  \/ exists r, (res.1.1.1, r) ∈ res.1.2 /\ success r = true
               /\ last_passed prev res.1.2 = Some r.
Proof.
  revert last_good failing prev e.
  pattern low, high. apply interval_ind. clear low high. intros low high IH.
  intros last_good failing prev e. rewrite bisection_unfold.
  destruct (decide (low <= high)) as [Hlh|Hlh]; cbn zeta; [|by left].
  set (mid := (low + high) `div` 2).
  assert (Hmid : low <= mid <= high) by (subst mid; Z.div_mod_to_equations; lia).
  destruct (success (probe mid e).1) eqn:Hs; cbn [fst snd last_passed]; rewrite Hs.
  - right.
    destruct (IH (mid + 1) high ltac:(lia) Hlh mid failing (Some (probe mid e).1)
                 (probe mid e).2) as [[-> ->]|(r & Hin & Hr & ->)].
    + eexists. split; [left|]. done.
    + exists r. split; [by right | done].
  - destruct (IH low (mid - 1) ltac:(lia) Hlh last_good (Some mid) prev
                 (probe mid e).2) as [[-> ->]|(r & Hin & Hr & ->)]; [by left | right].
    exists r. split; [by right | done].
Qed.

(** The three ways [BinarySearcher.search] ends. *)
Lemma block_search_cases t (e : Env World) :
  (blocks t = []
   /\ Searcher.BinarySearcher_search run_template t e
      = Some (Searcher.mkSearchResult false None None None [] None (Some t), e))
  \/ (blocks t <> []
      /\ success (run_template OriginalChart (world e)).1 = true
      /\ Searcher.BinarySearcher_search run_template t e
         = Some (Searcher.mkSearchResult false None None None [] None (Some t),
                 (run run_template OriginalChart e).2))
  \/ (blocks t <> []
      /\ success (run_template OriginalChart (world e)).1 = false
      /\ let res := bisection (execute_up_to_block run_template t) 0
                      (len (blocks t) - 1) (-1) None
                      (run run_template OriginalChart e).2 in
         match res.1.1.2 with
         | Some fi =>
             exists b,
               getitem (blocks t) fi = Some b
               /\ Searcher.BinarySearcher_search run_template t e
                  = Some (Searcher.mkSearchResult true (Some b) (Some fi)
                            (if 0 <=? res.1.1.1 then Some res.1.1.1 else None)
                            (block_steps 0 res.1.2)
                            (Some (execute_up_to_block run_template t fi res.2).1)
                            (Some t),
                          (execute_up_to_block run_template t fi res.2).2)
         | None =>
             Searcher.BinarySearcher_search run_template t e
             = Some (Searcher.mkSearchResult false None None None
                       (block_steps 0 res.1.2) None (Some t),
                     res.2)
         end).
Proof.
  destruct (blocks t) as [|b0 bs] eqn:Hbs.
  { left. split; [done|]. unfold Searcher.BinarySearcher_search. by rewrite Hbs. }
  right. rewrite <- Hbs.
  assert (Hne : blocks t <> []) by by rewrite Hbs.
  destruct (success (run_template OriginalChart (world e)).1) eqn:Hfull.
  - left. split; [done|]. split; [done|].
    unfold Searcher.BinarySearcher_search. rewrite Hbs. cbn [is_empty].
    cbv [mbind M_bind bind lift validate_full_template].
    destruct (run run_template OriginalChart e) as [full e1] eqn:Hrun.
    pose proof (run_result OriginalChart e) as Hr. rewrite Hrun in Hr. cbn [fst] in Hr.
    rewrite Hr, Hfull. done.
  - right. split; [done|]. split; [done|].
    apply (block_search_run run_template t e Hne).
    unfold validate_full_template. by rewrite run_result.
Qed.

(** The two ways [LineBinarySearcher.search] ends. *)
Lemma line_search_cases t (e : Env World) :
  (total_lines t = 0
   /\ LineBinarySearcher_search run_template t e = Some (no_error None [] t, e))
  \/ (total_lines t <> 0
      /\ let res := bisection (execute_up_to_line run_template t) 1 (total_lines t)
                      0 None e in
         match res.1.1.2 with
         | Some fl =>
             exists c ctx_before ctx_after,
               LineBinarySearcher_search run_template t e
               = Some (mkLineSearchResult true (Some fl) (Some c)
                         (if 0 <? res.1.1.1 then Some res.1.1.1 else None)
                         (line_steps 0 res.1.2)
                         (Some (execute_up_to_line run_template t fl res.2).1)
                         (last_passed None res.1.2) (Some t) ctx_before ctx_after,
                       (execute_up_to_line run_template t fl res.2).2)
         | None =>
             LineBinarySearcher_search run_template t e
             = Some (no_error None (line_steps 0 res.1.2) t, res.2)
         end).
Proof.
  destruct (decide (total_lines t = 0)) as [H0|Hne].
  - left. split; [done|]. unfold LineBinarySearcher_search. by rewrite H0.
  - right. split; [done|]. by apply line_search_run.
Qed.

End Bisection.
End TrailFacts.

(** ** Bisection against any renderer *)

Module BisectionFacts.
Import Parser Executor LineSearcher Trail SearchFacts SearcherFacts ReduceFacts TrailFacts.

Lemma block_steps_elem_inv sn trail s :
  s ∈ block_steps sn trail ->
  exists m, (m, Searcher.result s) ∈ trail /\ Searcher.block_index s = Some m.
Proof.
  intros [j Hj]%list_elem_of_lookup.
  apply block_steps_lookup in Hj as (m & r & Hj & ->).
  exists m. split; [|done]. by eapply list_elem_of_lookup_2.
Qed.

Lemma line_steps_elem_inv sn trail s :
  s ∈ line_steps sn trail ->
  exists m, (m, result s) ∈ trail /\ line_number s = Some m.
Proof.
  intros [j Hj]%list_elem_of_lookup.
  apply line_steps_lookup in Hj as (m & r & Hj & ->).
  exists m. split; [|done]. by eapply list_elem_of_lookup_2.
Qed.

Lemma elem_of_map_fst (trail : list (Z * HelmResult)) m r :
  (m, r) ∈ trail -> m ∈ map fst trail.
Proof.
  intros Hin. apply list_elem_of_In, in_map_iff. exists (m, r).
  split; [done | by apply list_elem_of_In].
Qed.

Section Searchers.
Context {World : Type}.
Variable run_template : chart -> World -> HelmResult * World.

Lemma block_probed t low high last_good failing (e : Env World) :
  let res := bisection (execute_up_to_block run_template t) low high last_good
                       failing e in
  probed res.2 = probed e ++ map (block_chart t) (map fst res.1.2).
Proof. apply (bisection_probed run_template (block_chart t)). Qed.

Lemma line_probed t low high last_good failing (e : Env World) :
  let res := bisection (execute_up_to_line run_template t) low high last_good
                       failing e in
  probed res.2 = probed e ++ map (line_chart t) (map fst res.1.2).
Proof. apply (bisection_probed run_template (line_chart t)). Qed.

(** X16. The calls that block bisection makes of the renderer, for any
    renderer: none on a document without blocks; otherwise one on the
    chart as it is on disk, then one for each step, on the document
    reduced to the blocks up to the index of the step, and, when an error
    is reported, one more on the failing prefix.  A search that finds an
    error has called the renderer two times more than it has steps, and
    its last call repeats the probe of an earlier step. *)
Theorem block_bisection_probe_log (t : ParsedTemplate) (e : Env World) :
  exists r e',
    Searcher.BinarySearcher_search run_template t e = Some (r, e')
    /\ probed e'
       = probed e
         ++ (if is_empty (blocks t) then []
             else OriginalChart
                  :: map (block_chart t)
                         (omap Searcher.block_index (Searcher.steps r))
                  ++ match Searcher.failing_block_index r with
                     | Some fi => [block_chart t fi]
                     | None => []
                     end)
    /\ (Searcher.found_error r = true ->
        len (probed e') = len (probed e) + len (Searcher.steps r) + 2
        /\ exists fi, Searcher.failing_block_index r = Some fi
                      /\ fi ∈ omap Searcher.block_index (Searcher.steps r)).
Proof.
  destruct (block_search_cases run_template t e)
    as [[Hnil Hrun]|[(Hne & Hfull & Hrun)|(Hne & Hfull & Hrun)]].
  - eexists _, _. split; [exact Hrun|]. rewrite Hnil. cbn.
    by rewrite app_nil_r.
  - eexists _, _. split; [exact Hrun|].
    destruct (blocks t); [done|]. cbn. by rewrite run_probed.
  - cbv zeta in Hrun.
    set (e1 := (run run_template OriginalChart e).2) in *.
    pose proof (block_probed t 0 (len (blocks t) - 1) (-1) None e1) as Hlog.
    pose proof (bisection_seen (execute_up_to_block run_template t) 0
                  (len (blocks t) - 1) (-1) None e1) as [_ Hseen].
    cbv zeta in Hlog.
    set (res := bisection _ _ _ _ _ _) in *.
    assert (He1 : probed e1 = probed e ++ [OriginalChart]) by apply run_probed.
    destruct (blocks t) as [|b0 bs] eqn:Hbs; [done|]. cbn [is_empty].
    destruct (res.1.1.2) as [fi|] eqn:Hfi.
    + destruct Hrun as (b & Hb & Hrun). eexists _, _. split; [exact Hrun|].
      cbn [Searcher.steps Searcher.failing_block_index Searcher.found_error].
      rewrite omap_block_steps.
      assert (Hp : probed (execute_up_to_block run_template t fi res.2).2
                   = probed e ++ OriginalChart
                       :: map (block_chart t) (map fst res.1.2) ++ [block_chart t fi]).
      { unfold execute_up_to_block, execute_with_blocks. rewrite run_probed.
        rewrite Hlog, He1. by rewrite <- !app_assoc. }
      split; [exact Hp|]. intros _. split.
      * rewrite Hp. unfold len. rewrite !length_app. cbn [length].
        rewrite !length_app, !length_map. cbn [length].
        pose proof (len_block_steps 0 res.1.2) as Hl. unfold len in Hl. lia.
      * exists fi. split; [done|].
        destruct Hseen as [?|(fi' & r & [= <-] & Hin & _)]; [done|].
        by eapply elem_of_map_fst.
    + eexists _, _. split; [exact Hrun|].
      cbn [Searcher.steps Searcher.failing_block_index Searcher.found_error].
      rewrite omap_block_steps. split; [|done].
      rewrite Hlog, He1. rewrite app_nil_r. by rewrite <- !app_assoc.
Qed.

(** X17. The calls that line bisection makes of the renderer, for any
    renderer: one for each step, on the document cut at the line of the
    step, and, when an error is reported, one more on the document cut at
    the failing line, which repeats the probe of an earlier step.  It
    never renders the chart as it is on disk. *)
Theorem line_bisection_probe_log (t : ParsedTemplate) (e : Env World) :
  exists r e',
    LineBinarySearcher_search run_template t e = Some (r, e')
    /\ probed e'
       = probed e
         ++ map (line_chart t) (omap line_number (steps r))
         ++ match failing_line r with
            | Some fl => [line_chart t fl]
            | None => []
            end
    /\ (found_error r = true ->
        len (probed e') = len (probed e) + len (steps r) + 1
        /\ exists fl, failing_line r = Some fl /\ fl ∈ omap line_number (steps r)).
Proof.
  destruct (line_search_cases run_template t e) as [[H0 Hrun]|[Hne Hrun]].
  - eexists _, _. split; [exact Hrun|]. cbn. by rewrite app_nil_r.
  - cbv zeta in Hrun.
    pose proof (line_probed t 1 (total_lines t) 0 None e) as Hlog.
    pose proof (bisection_seen (execute_up_to_line run_template t) 1
                  (total_lines t) 0 None e) as [_ Hseen].
    cbv zeta in Hlog.
    set (res := bisection _ _ _ _ _ _) in *.
    destruct (res.1.1.2) as [fl|] eqn:Hfl.
    + destruct Hrun as (c & cb & ca & Hrun). eexists _, _. split; [exact Hrun|].
      cbn [steps failing_line found_error]. rewrite omap_line_steps.
      assert (Hp : probed (execute_up_to_line run_template t fl res.2).2
                   = probed e ++ map (line_chart t) (map fst res.1.2)
                       ++ [line_chart t fl]).
      { unfold execute_up_to_line. rewrite run_probed.
        rewrite Hlog. by rewrite <- !app_assoc. }
      split; [exact Hp|]. intros _. split.
      * rewrite Hp. unfold len. rewrite !length_app, !length_map. cbn [length].
        pose proof (len_line_steps 0 res.1.2) as Hl. unfold len in Hl. lia.
      * exists fl. split; [done|].
        destruct Hseen as [?|(fl' & r & [= <-] & Hin & _)]; [done|].
        by eapply elem_of_map_fst.
    + eexists _, _. split; [exact Hrun|].
      cbn [steps failing_line found_error no_error]. rewrite omap_line_steps.
      split; [|done]. by rewrite Hlog, app_nil_r.
Qed.

(** X18. What block bisection reports is what it has seen, for any
    renderer.  The steps are numbered from 1 in the order they were
    made; each is a probe of the blocks up to an index of the document,
    and no index is probed twice.  The reported failing index was probed
    and failed; every probe that failed was at or after it, and every
    probe that passed was before it.  A reported last good index was
    probed and passed. *)
Theorem block_bisection_evidence (t : ParsedTemplate) (e : Env World) :
  exists r e',
    Searcher.BinarySearcher_search run_template t e = Some (r, e')
    /\ (forall (j : nat) s, Searcher.steps r !! j = Some s ->
          Searcher.step_number s = Z.of_nat j + 1
          /\ exists m, Searcher.block_index s = Some m
                       /\ Searcher.blocks_tested s = Searcher.tested m
                       /\ 0 <= m < len (blocks t))
    /\ NoDup (map Searcher.block_index (Searcher.steps r))
    /\ (forall fi, Searcher.failing_block_index r = Some fi ->
          (exists s, s ∈ Searcher.steps r /\ Searcher.block_index s = Some fi
                     /\ Searcher.passed s = false)
          /\ (forall s m, s ∈ Searcher.steps r -> Searcher.block_index s = Some m ->
                if Searcher.passed s then m < fi else fi <= m))
    /\ (forall g, Searcher.last_successful_block_index r = Some g ->
          exists s, s ∈ Searcher.steps r /\ Searcher.block_index s = Some g
                    /\ Searcher.passed s = true).
Proof.
  destruct (block_search_cases run_template t e)
    as [[Hnil Hrun]|[(Hne & Hfull & Hrun)|(Hne & Hfull & Hrun)]].
  - eexists _, _. split; [exact Hrun|]. cbn. repeat split; try done. constructor.
  - eexists _, _. split; [exact Hrun|]. cbn. repeat split; try done. constructor.
  - cbv zeta in Hrun.
    set (e1 := (run run_template OriginalChart e).2) in *.
    assert (Hlen : 0 < len (blocks t)).
    { unfold len. destruct (blocks t); [done | simpl; lia]. }
    pose proof (bisection_cutoffs (execute_up_to_block run_template t) 0
                  (len (blocks t) - 1) (-1) None e1) as [Hrange Hnd].
    pose proof (bisection_bounds (execute_up_to_block run_template t) 0
                  (len (blocks t) - 1) (-1) None e1 ltac:(lia) ltac:(lia))
      as [Hpass Hfail].
    pose proof (bisection_seen (execute_up_to_block run_template t) 0
                  (len (blocks t) - 1) (-1) None e1) as [Hsg Hsf].
    pose proof (bisection_gap (execute_up_to_block run_template t) 0
                  (len (blocks t) - 1) (-1) None e1 ltac:(lia) ltac:(lia))
      as [Hlg Hgap].
    set (res := bisection _ _ _ _ _ _) in *.
    assert (Hsteps : forall (j : nat) s, block_steps 0 res.1.2 !! j = Some s ->
              Searcher.step_number s = Z.of_nat j + 1
              /\ exists m, Searcher.block_index s = Some m
                           /\ Searcher.blocks_tested s = Searcher.tested m
                           /\ 0 <= m < len (blocks t)).
    { intros j s (m & r & Hj & ->)%block_steps_lookup. cbn. split; [lia|].
      exists m. split; [done|]. split; [done|].
      rewrite Forall_forall in Hrange.
      assert (0 <= m <= len (blocks t) - 1); [|lia].
      apply Hrange. eapply elem_of_map_fst. by eapply list_elem_of_lookup_2. }
    assert (Hnodup : NoDup (map Searcher.block_index (block_steps 0 res.1.2))).
    { rewrite block_steps_index.
      rewrite <- (map_map fst Some). by apply NoDup_map_Some. }
    destruct (res.1.1.2) as [fi|] eqn:Hfi.
    + destruct Hrun as (b & Hb & Hrun). eexists _, _. split; [exact Hrun|].
      cbn [Searcher.steps Searcher.failing_block_index
           Searcher.last_successful_block_index].
      split; [exact Hsteps|]. split; [exact Hnodup|].
      destruct Hgap as [[? _]|[[= Hfi'] Hlt]]; [done|].
      split.
      * intros fi0 [= <-]. split.
        -- destruct Hsf as [?|(fi' & r & [= <-] & Hin & Hr)]; [done|].
           destruct (block_steps_elem 0 _ _ _ Hin) as (s & Hs & Hm & Hres).
           exists s. split; [done|]. split; [done|].
           unfold Searcher.passed. by rewrite Hres.
        -- intros s m (m' & Hin & Hm')%block_steps_elem_inv Hm.
           rewrite Hm' in Hm. injection Hm as ->.
           unfold Searcher.passed. destruct (success (Searcher.result s)) eqn:Hs.
           ++ pose proof (Hpass _ _ Hin Hs). lia.
           ++ destruct (Hfail _ _ Hin Hs) as (fi' & [= <-] & ?). done.
      * intros g Hg. destruct (0 <=? res.1.1.1) eqn:H0; [|done].
        injection Hg as <-. apply Z.leb_le in H0.
        destruct Hsg as [?|(r & Hin & Hr)]; [lia|].
        destruct (block_steps_elem 0 _ _ _ Hin) as (s & Hs & Hm & Hres).
        exists s. split; [done|]. split; [done|].
        unfold Searcher.passed. by rewrite Hres.
    + eexists _, _. split; [exact Hrun|].
      cbn [Searcher.steps Searcher.failing_block_index
           Searcher.last_successful_block_index].
      split; [exact Hsteps|]. split; [exact Hnodup|]. done.
Qed.

(** X19. What line bisection reports is what it has seen, for any
    renderer.  The steps are numbered from 1 in the order they were
    made; each is a probe of the document cut at one of its lines, and no
    line is probed twice.  The reported failing line was probed and
    failed; every probe that failed was at or after it, and every probe
    that passed was before it.  A reported last good line was probed and
    passed, and the last good result is the result of that probe. *)
Theorem line_bisection_evidence (t : ParsedTemplate) (e : Env World) :
  exists r e',
    LineBinarySearcher_search run_template t e = Some (r, e')
    /\ (forall (j : nat) s, steps r !! j = Some s ->
          step_number s = Z.of_nat j + 1
          /\ exists m, line_number s = Some m
                       /\ lines_tested s = tested m
                       /\ 1 <= m <= total_lines t)
    /\ NoDup (map line_number (steps r))
    /\ (forall fl, failing_line r = Some fl ->
          (exists s, s ∈ steps r /\ line_number s = Some fl /\ passed s = false)
          /\ (forall s m, s ∈ steps r -> line_number s = Some m ->
                if passed s then m < fl else fl <= m))
    /\ (forall g, last_successful_line r = Some g ->
          exists s, s ∈ steps r /\ line_number s = Some g /\ passed s = true
                    /\ last_successful_result r = Some (result s)).
Proof.
  destruct (line_search_cases run_template t e) as [[H0 Hrun]|[Hne Hrun]].
  - eexists _, _. split; [exact Hrun|]. cbn. repeat split; try done. constructor.
  - cbv zeta in Hrun.
    assert (Hlen : 0 < total_lines t).
    { rewrite total_lines_len in *. unfold len in *. lia. }
    pose proof (bisection_cutoffs (execute_up_to_line run_template t) 1
                  (total_lines t) 0 None e) as [Hrange Hnd].
    pose proof (bisection_bounds (execute_up_to_line run_template t) 1
                  (total_lines t) 0 None e ltac:(lia) ltac:(lia))
      as [Hpass Hfail].
    pose proof (bisection_seen (execute_up_to_line run_template t) 1
                  (total_lines t) 0 None e) as [Hsg Hsf].
    pose proof (bisection_gap (execute_up_to_line run_template t) 1
                  (total_lines t) 0 None e ltac:(lia) ltac:(lia))
      as [Hlg Hgap].
    pose proof (bisection_last_passed (execute_up_to_line run_template t) 1
                  (total_lines t) 0 None None e) as Hlast.
    set (res := bisection _ _ _ _ _ _) in *.
    assert (Hsteps : forall (j : nat) s, line_steps 0 res.1.2 !! j = Some s ->
              step_number s = Z.of_nat j + 1
              /\ exists m, line_number s = Some m
                           /\ lines_tested s = tested m
                           /\ 1 <= m <= total_lines t).
    { intros j s (m & r & Hj & ->)%line_steps_lookup. cbn. split; [lia|].
      exists m. split; [done|]. split; [done|].
      rewrite Forall_forall in Hrange.
      apply Hrange. eapply elem_of_map_fst. by eapply list_elem_of_lookup_2. }
    assert (Hnodup : NoDup (map line_number (line_steps 0 res.1.2))).
    { rewrite line_steps_index.
      rewrite <- (map_map fst Some). by apply NoDup_map_Some. }
    destruct (res.1.1.2) as [fl|] eqn:Hfl.
    + destruct Hrun as (c & cb & ca & Hrun). eexists _, _. split; [exact Hrun|].
      cbn [steps failing_line last_successful_line].
      split; [exact Hsteps|]. split; [exact Hnodup|].
      destruct Hgap as [[? _]|[[= Hfl'] Hlt]]; [done|].
      split.
      * intros fl0 [= <-]. split.
        -- destruct Hsf as [?|(fl' & r & [= <-] & Hin & Hr)]; [done|].
           destruct (line_steps_elem 0 _ _ _ Hin) as (s & Hs & Hm & Hres).
           exists s. split; [done|]. split; [done|].
           unfold passed. by rewrite Hres.
        -- intros s m (m' & Hin & Hm')%line_steps_elem_inv Hm.
           rewrite Hm' in Hm. injection Hm as ->.
           unfold passed. destruct (success (result s)) eqn:Hs.
           ++ pose proof (Hpass _ _ Hin Hs). lia.
           ++ destruct (Hfail _ _ Hin Hs) as (fl' & [= <-] & ?). done.
      * intros g Hg. destruct (0 <? res.1.1.1) eqn:H0; [|done].
        injection Hg as <-. apply Z.ltb_lt in H0.
        destruct Hlast as [[? _]|(r & Hin & Hr & Hlp)]; [lia|].
        destruct (line_steps_elem 0 _ _ _ Hin) as (s & Hs & Hm & Hres).
        exists s. split; [done|]. split; [done|].
        unfold passed. rewrite Hres. split; [done|].
        cbn [last_successful_result]. done.
    + eexists _, _. split; [exact Hrun|].
      cbn [steps failing_line last_successful_line no_error].
      split; [exact Hsteps|]. split; [exact Hnodup|]. done.
Qed.

(** X20. Bisection reports no error only after it has seen the whole
    document render.  Line bisection on a document with lines: every
    probe passed, and one of them was cut at the last line, where the
    text probed is the document itself.  Block bisection on a document
    with blocks: either the chart on disk rendered and no step was made,
    or every probe passed, the one with all the blocks among them. *)
Theorem no_error_after_full_render (t : ParsedTemplate) (e : Env World) :
  (exists r e',
     LineBinarySearcher_search run_template t e = Some (r, e')
     /\ (found_error r = false -> total_lines t <> 0 ->
         Forall (fun s => passed s = true) (steps r)
         /\ (exists s, s ∈ steps r /\ line_number s = Some (total_lines t)
                       /\ passed s = true)
         /\ line_chart t (total_lines t) = TempChart (file_path t) (original_content t)))
  /\ (exists r e',
        Searcher.BinarySearcher_search run_template t e = Some (r, e')
        /\ (Searcher.found_error r = false -> blocks t <> [] ->
            (success (run_template OriginalChart (world e)).1 = true
             /\ Searcher.steps r = [])
            \/ (success (run_template OriginalChart (world e)).1 = false
                /\ Forall (fun s => Searcher.passed s = true) (Searcher.steps r)
                /\ exists s, s ∈ Searcher.steps r
                             /\ Searcher.block_index s = Some (len (blocks t) - 1)
                             /\ Searcher.passed s = true))).
Proof.
  split.
  - destruct (line_search_cases run_template t e) as [[H0 Hrun]|[Hne Hrun]].
    { eexists _, _. split; [exact Hrun|]. done. }
    cbv zeta in Hrun.
    assert (Hlen : 0 < total_lines t).
    { rewrite total_lines_len in *. unfold len in *. lia. }
    pose proof (bisection_bounds (execute_up_to_line run_template t) 1
                  (total_lines t) 0 None e ltac:(lia) ltac:(lia))
      as [Hpass Hfail].
    pose proof (bisection_seen (execute_up_to_line run_template t) 1
                  (total_lines t) 0 None e) as [Hsg Hsf].
    pose proof (bisection_gap (execute_up_to_line run_template t) 1
                  (total_lines t) 0 None e ltac:(lia) ltac:(lia))
      as [Hlg Hgap].
    set (res := bisection _ _ _ _ _ _) in *.
    destruct (res.1.1.2) as [fl|] eqn:Hfl.
    { destruct Hrun as (c & cb & ca & Hrun). eexists _, _. split; [exact Hrun|]. done. }
    eexists _, _. split; [exact Hrun|]. cbn [found_error steps no_error].
    intros _ _. destruct Hgap as [[_ Hhigh]|[? _]]; [|done].
    split; [|split].
    + apply Forall_forall. intros s (m & Hin & Hm)%line_steps_elem_inv.
      unfold passed. destruct (success (result s)) eqn:Hs; [done|].
      by destruct (Hfail _ _ Hin Hs) as (? & ? & _).
    + destruct Hsg as [?|(r & Hin & Hr)]; [lia|].
      destruct (line_steps_elem 0 _ _ _ Hin) as (s & Hs & Hm & Hres).
      exists s. split; [done|]. split; [by rewrite Hm, Hhigh|].
      unfold passed. by rewrite Hres.
    + unfold line_chart. by rewrite create_partial_by_line_full.
  - destruct (block_search_cases run_template t e)
      as [[Hnil Hrun]|[(Hne & Hfull & Hrun)|(Hne & Hfull & Hrun)]].
    { eexists _, _. split; [exact Hrun|]. done. }
    { eexists _, _. split; [exact Hrun|]. intros _ _. by left. }
    cbv zeta in Hrun.
    set (e1 := (run run_template OriginalChart e).2) in *.
    assert (Hlen : 0 < len (blocks t)).
    { unfold len. destruct (blocks t); [done | simpl; lia]. }
    pose proof (bisection_bounds (execute_up_to_block run_template t) 0
                  (len (blocks t) - 1) (-1) None e1 ltac:(lia) ltac:(lia))
      as [Hpass Hfail].
    pose proof (bisection_seen (execute_up_to_block run_template t) 0
                  (len (blocks t) - 1) (-1) None e1) as [Hsg Hsf].
    pose proof (bisection_gap (execute_up_to_block run_template t) 0
                  (len (blocks t) - 1) (-1) None e1 ltac:(lia) ltac:(lia))
      as [Hlg Hgap].
    set (res := bisection _ _ _ _ _ _) in *.
    destruct (res.1.1.2) as [fi|] eqn:Hfi.
    { destruct Hrun as (b & Hb & Hrun). eexists _, _. split; [exact Hrun|]. done. }
    eexists _, _. split; [exact Hrun|]. cbn [Searcher.found_error Searcher.steps].
    intros _ _. right. split; [done|].
    destruct Hgap as [[_ Hhigh]|[? _]]; [|done].
    split.
    + apply Forall_forall. intros s (m & Hin & Hm)%block_steps_elem_inv.
      unfold Searcher.passed. destruct (success (Searcher.result s)) eqn:Hs; [done|].
      by destruct (Hfail _ _ Hin Hs) as (? & ? & _).
    + destruct Hsg as [?|(r & Hin & Hr)]; [lia|].
      destruct (block_steps_elem 0 _ _ _ Hin) as (s & Hs & Hm & Hres).
      exists s. split; [done|]. split; [by rewrite Hm, Hhigh|].
      unfold Searcher.passed. by rewrite Hres.
Qed.

(** X21. Whatever the renderer answers, the number of steps of a
    bisection is fixed by the size of the document up to one: over [n]
    blocks, once the chart on disk has failed, or over [n] lines, it
    makes at least [floor(log2 (n + 1))] and at most [floor(log2 n) + 1]
    steps. *)
Theorem bisection_step_count (t : ParsedTemplate) (e : Env World) :
  (exists r e',
     Searcher.BinarySearcher_search run_template t e = Some (r, e')
     /\ (blocks t <> [] -> success (run_template OriginalChart (world e)).1 = false ->
         Z.log2 (len (blocks t) + 1) <= len (Searcher.steps r)
           <= Z.log2 (len (blocks t)) + 1))
  /\ (exists r e',
        LineBinarySearcher_search run_template t e = Some (r, e')
        /\ (total_lines t <> 0 ->
            Z.log2 (total_lines t + 1) <= len (steps r) <= Z.log2 (total_lines t) + 1)).
Proof.
  split.
  - destruct (block_search_cases run_template t e)
      as [[Hnil Hrun]|[(Hne & Hfull & Hrun)|(Hne & Hfull & Hrun)]].
    { eexists _, _. split; [exact Hrun|]. done. }
    { eexists _, _. split; [exact Hrun|]. intros _ Hf. by rewrite Hfull in Hf. }
    cbv zeta in Hrun.
    set (e1 := (run run_template OriginalChart e).2) in *.
    assert (Hlen : 0 < len (blocks t)).
    { unfold len. destruct (blocks t); [done | simpl; lia]. }
    pose proof (bisection_steps (execute_up_to_block run_template t) 0
                  (len (blocks t) - 1) (-1) None e1 ltac:(lia)) as Hup.
    pose proof (bisection_steps_lower (execute_up_to_block run_template t) 0
                  (len (blocks t) - 1) (-1) None e1 ltac:(lia)) as Hlow.
    replace (len (blocks t) - 1 - 0 + 1) with (len (blocks t)) in Hup by lia.
    replace (len (blocks t) - 1 - 0 + 2) with (len (blocks t) + 1) in Hlow by lia.
    set (res := bisection _ _ _ _ _ _) in *.
    destruct (res.1.1.2) as [fi|].
    + destruct Hrun as (b & Hb & Hrun). eexists _, _. split; [exact Hrun|].
      intros _ _. cbn [Searcher.steps]. rewrite len_block_steps. lia.
    + eexists _, _. split; [exact Hrun|].
      intros _ _. cbn [Searcher.steps]. rewrite len_block_steps. lia.
  - destruct (line_search_cases run_template t e) as [[H0 Hrun]|[Hne Hrun]].
    { eexists _, _. split; [exact Hrun|]. done. }
    cbv zeta in Hrun.
    assert (Hlen : 0 < total_lines t).
    { rewrite total_lines_len in *. unfold len in *. lia. }
    pose proof (bisection_steps (execute_up_to_line run_template t) 1
                  (total_lines t) 0 None e ltac:(lia)) as Hup.
    pose proof (bisection_steps_lower (execute_up_to_line run_template t) 1
                  (total_lines t) 0 None e ltac:(lia)) as Hlow.
    replace (total_lines t - 1 + 1) with (total_lines t) in Hup by lia.
    replace (total_lines t - 1 + 2) with (total_lines t + 1) in Hlow by lia.
    set (res := bisection _ _ _ _ _ _) in *.
    destruct (res.1.1.2) as [fl|].
    + destruct Hrun as (c & cb & ca & Hrun). eexists _, _. split; [exact Hrun|].
      intros _. cbn [steps]. rewrite len_line_steps. lia.
    + eexists _, _. split; [exact Hrun|].
      intros _. cbn [steps no_error]. rewrite len_line_steps. lia.
Qed.

End Searchers.
End BisectionFacts.

(** ** The lines around a failing line *)

Module ContextFacts.
Import Parser Executor LineSearcher Trail SearchFacts SearcherFacts TrailFacts.

Lemma take_drop_slice {A} (l : list A) a b :
  0 <= a -> 0 <= b ->
  take (Z.to_nat (b - a)) (drop (Z.to_nat a) l) = slice l a b.
Proof.
  intros Ha Hb. unfold slice.
  rewrite !(proj2 (Z.ltb_ge _ _)) by lia.
  destruct (Z.le_gt_cases (len l) a) as [Hge|Hlt].
  - unfold len in *. rewrite !drop_ge by lia. by rewrite !take_nil.
  - rewrite (Z.min_l a) by lia.
    destruct (Z.le_gt_cases b (len l)) as [Hb'|Hb']; [by rewrite Z.min_l|].
    rewrite Z.min_r by lia. unfold len in *.
    rewrite !take_ge; [done | rewrite length_drop; lia | rewrite length_drop; lia].
Qed.

Lemma length_slice {A} (l : list A) a b :
  0 <= a -> 0 <= b -> len (slice l a b) <= Z.max 0 (b - a).
Proof.
  intros Ha Hb. unfold slice, len. rewrite !(proj2 (Z.ltb_ge _ 0)) by lia.
  rewrite length_take, length_drop. lia.
Qed.

Lemma before_fold (lines : list str) (m : nat) a acc :
  0 <= a ->
  fold_left
    (fun acc i =>
       context_before ← acc;
       if i <? len lines
       then line ← getitem lines i; Some (context_before ++ [line])
       else Some context_before)
    (seqZ a (Z.of_nat m)) (Some acc)
  = Some (acc ++ take m (drop (Z.to_nat a) lines)).
Proof.
  revert a acc. induction m as [|m IH]; intros a acc Ha.
  - cbn. by rewrite take_0, app_nil_r.
  - rewrite seqZ_cons by lia. cbn [fold_left mbind option_bind].
    replace (Z.pred (Z.of_nat (S m))) with (Z.of_nat m) by lia.
    replace (Z.succ a) with (a + 1) by lia.
    destruct (a <? len lines) eqn:Hlt.
    + apply Z.ltb_lt in Hlt. unfold getitem. rewrite (proj2 (Z.leb_le 0 a)) by lia.
      destruct (lookup_lt_is_Some_2 lines (Z.to_nat a)) as [x Hx];
        [unfold len in Hlt; lia|].
      rewrite Hx. cbn [mbind option_bind]. rewrite IH by lia.
      rewrite (drop_S _ _ _ Hx). cbn [take].
      replace (Z.to_nat (a + 1)) with (S (Z.to_nat a)) by lia.
      by rewrite <- app_assoc.
    + apply Z.ltb_ge in Hlt. rewrite IH by lia. unfold len in Hlt.
      rewrite !drop_ge by lia. by rewrite !take_nil.
Qed.

Lemma after_fold (lines : list str) (m : nat) a acc :
  0 <= a -> a + Z.of_nat m <= len lines ->
  fold_left
    (fun acc i =>
       context_after ← acc;
       line ← getitem lines i; Some (context_after ++ [line]))
    (seqZ a (Z.of_nat m)) (Some acc)
  = Some (acc ++ take m (drop (Z.to_nat a) lines)).
Proof.
  revert a acc. induction m as [|m IH]; intros a acc Ha Hm.
  - cbn. by rewrite take_0, app_nil_r.
  - rewrite seqZ_cons by lia. cbn [fold_left mbind option_bind].
    replace (Z.pred (Z.of_nat (S m))) with (Z.of_nat m) by lia.
    replace (Z.succ a) with (a + 1) by lia.
    unfold getitem. rewrite (proj2 (Z.leb_le 0 a)) by lia.
    destruct (lookup_lt_is_Some_2 lines (Z.to_nat a)) as [x Hx];
      [unfold len in Hm; lia|].
    rewrite Hx. cbn [mbind option_bind]. rewrite IH by lia.
    rewrite (drop_S _ _ _ Hx). cbn [take].
    replace (Z.to_nat (a + 1)) with (S (Z.to_nat a)) by lia.
    by rewrite <- app_assoc.
Qed.

(** [context_before] is [lines[max(0, n - 4):n - 1]]. *)
Lemma before_slice lines n :
  1 <= n -> before lines n = Some (slice lines (Z.max 0 (n - 4)) (n - 1)).
Proof.
  intros Hn. unfold before, range.
  replace (n - 1 - Z.max 0 (n - 4))
    with (Z.of_nat (Z.to_nat (n - 1 - Z.max 0 (n - 4)))) by lia.
  rewrite before_fold by lia. cbn [app]. f_equal. apply take_drop_slice; lia.
Qed.

(** [context_after] is [lines[n:n + 3]]. *)
Lemma after_slice lines n :
  0 <= n -> after lines n = Some (slice lines n (n + 3)).
Proof.
  intros Hn. unfold after, range.
  assert (0 <= len lines) by (unfold len; lia).
  destruct (Z.le_gt_cases (len lines) n) as [Hge|Hlt].
  - rewrite Z.min_l by lia.
    replace (len lines - n) with (- (n - len lines)) by lia.
    rewrite seqZ_nil by lia. cbn [fold_left]. f_equal.
    rewrite <- take_drop_slice by lia. unfold len in Hge.
    rewrite drop_ge by lia. by rewrite take_nil.
  - replace (Z.min (len lines) (n + 3) - n)
      with (Z.of_nat (Z.to_nat (Z.min (len lines) (n + 3) - n))) by lia.
    rewrite after_fold by lia. cbn [app]. f_equal.
    rewrite <- take_drop_slice by lia.
    destruct (Z.le_gt_cases (n + 3) (len lines)).
    + by rewrite Z.min_r by lia.
    + rewrite Z.min_l by lia. unfold len in *.
      rewrite !take_ge; [done | rewrite length_drop; lia | rewrite length_drop; lia].
Qed.

(** [failing_content] is the line itself. *)
Lemma content_at_line lines n :
  1 <= n <= len lines -> content_at lines n = lines !! Z.to_nat (n - 1).
Proof.
  intros Hn. unfold content_at, getitem.
  rewrite (proj2 (Z.leb_le n _)) by lia. by rewrite (proj2 (Z.leb_le 0 _)) by lia.
Qed.

Section Searchers.
Context {World : Type}.
Variable run_template : chart -> World -> HelmResult * World.

(** [LineBinarySearcher.search] with all the fields of its result. *)
Lemma line_search_exact (t : ParsedTemplate) (e : Env World) :
  total_lines t <> 0 ->
  let lines := PyStr.splitlines false (original_content t) in
  let res := bisection (execute_up_to_line run_template t) 1 (total_lines t)
                       0 None e in
  match res.1.1.2 with
  | Some fl =>
      1 <= fl <= len lines
      /\ fl = res.1.1.1 + 1
      /\ exists c,
           lines !! Z.to_nat (fl - 1) = Some c
           /\ LineBinarySearcher_search run_template t e
              = Some (mkLineSearchResult true (Some fl) (Some c)
                        (if 0 <? res.1.1.1 then Some res.1.1.1 else None)
                        (line_steps 0 res.1.2)
                        (Some (execute_up_to_line run_template t fl res.2).1)
                        (last_passed None res.1.2) (Some t)
                        (slice lines (Z.max 0 (fl - 4)) (fl - 1))
                        (slice lines fl (fl + 3)),
                      (execute_up_to_line run_template t fl res.2).2)
  | None =>
      LineBinarySearcher_search run_template t e
      = Some (no_error None (line_steps 0 res.1.2) t, res.2)
  end.
Proof.
  intros Hne lines res.
  assert (Hlen : 0 < total_lines t).
  { rewrite total_lines_len in *. unfold len in *. lia. }
  pose proof (bisection_gap (execute_up_to_line run_template t) 1
                (total_lines t) 0 None e ltac:(lia) ltac:(lia)) as [Hrange Hgap].
  fold res in Hrange, Hgap.
  unfold LineBinarySearcher_search.
  rewrite (proj2 (Z.eqb_neq _ _) Hne).
  cbv [mbind M_bind bind lift].
  rewrite line_bisect_bisection. cbn zeta. fold res. cbn [app].
  destruct (res.1.1.2) as [fl|] eqn:Hfl; [|done].
  destruct Hgap as [[? _]|[[= ->] Hlt]]; [done|].
  fold lines.
  assert (Hn : 1 <= res.1.1.1 + 1 <= len lines).
  { subst lines. rewrite <- total_lines_len. lia. }
  split; [done|]. split; [done|].
  destruct (lookup_lt_is_Some_2 lines (Z.to_nat (res.1.1.1 + 1 - 1))) as [c Hc];
    [unfold len in Hn; lia|].
  exists c. split; [done|].
  cbv [try_]. rewrite content_at_line by done.
  rewrite Hc, before_slice, after_slice by lia.
  by destruct (execute_up_to_line run_template t (res.1.1.1 + 1) res.2) as [er e2].
Qed.

(** X22. What line bisection shows around a failing line, for any
    renderer: the failing line is a line of the document, the failing
    content is that line without its line ending, the context before is
    the lines before it, three of them or as many as there are, and the
    context after is the up to three lines after it. *)
Theorem failing_line_context (t : ParsedTemplate) (e : Env World) :
  let lines := PyStr.splitlines false (original_content t) in
  exists r e',
    LineBinarySearcher_search run_template t e = Some (r, e')
    /\ (forall n, failing_line r = Some n ->
          1 <= n <= len lines
          /\ failing_content r = lines !! Z.to_nat (n - 1)
          /\ context_before r = slice lines (Z.max 0 (n - 4)) (n - 1)
          /\ context_after r = slice lines n (n + 3)
          /\ len (context_before r) <= 3
          /\ len (context_after r) <= 3)
    /\ (failing_line r = None ->
        failing_content r = None /\ context_before r = [] /\ context_after r = []).
Proof.
  intros lines.
  destruct (decide (total_lines t = 0)) as [H0|Hne].
  { unfold LineBinarySearcher_search. rewrite H0. cbn. eexists _, _.
    split; [done|]. cbn. split; [done|]. done. }
  pose proof (line_search_exact t e Hne) as Hrun. cbv zeta in Hrun. fold lines in Hrun.
  set (res := bisection _ _ _ _ _ _) in *.
  destruct (res.1.1.2) as [fl|] eqn:Hfl.
  - destruct Hrun as (Hn & _ & c & Hc & Hrun).
    eexists _, _. split; [exact Hrun|].
    cbn [failing_line failing_content context_before context_after].
    split; [|done]. intros n [= <-].
    split; [done|]. split; [done|]. split; [done|]. split; [done|].
    split.
    + etransitivity; [apply length_slice; lia|]. lia.
    + etransitivity; [apply length_slice; lia|]. lia.
  - eexists _, _. split; [exact Hrun|]. cbn. done.
Qed.
End Searchers.

End ContextFacts.

(** ** The line numbers of the JSON report *)

Module JsonFacts.
Import Parser Executor LineSearcher Trail SearchFacts SearcherFacts TrailFacts.
Import ContextFacts.

Lemma enumerate_from_lookup {A} c (l : list A) (i : nat) x :
  l !! i = Some x -> enumerate_from c l !! i = Some (c + Z.of_nat i, x).
Proof.
  revert c i. induction l as [|y l IH]; intros c i; [done|].
  destruct i as [|i]; cbn [enumerate_from lookup list_lookup].
  - intros [= ->]. by rewrite Z.add_0_r.
  - intros Hi. rewrite (IH _ _ Hi). do 2 f_equal. lia.
Qed.

Lemma mapM_total {A B} (f : A -> option B) (g : A -> B) (l : list A) :
  (forall x, f x = Some (g x)) -> mapM f l = Some (map g l).
Proof.
  intros Hf. induction l as [|x l IH]; [done|].
  cbn [mapM map]. rewrite Hf, IH. done.
Qed.

Lemma length_enumerate_from {A} c (l : list A) :
  length (enumerate_from c l) = length l.
Proof. revert c. induction l as [|y l IH]; intros c; simpl; [done | by rewrite IH]. Qed.

(** The entries made of a slice of the lines: each has the number, counted
    from 1, of the line it holds, and the numbers go up one by one. *)
Lemma numbered_slice (lines : list str) a b (base : Z) :
  0 <= a -> a <= b <= len lines -> base = a + 1 ->
  let entries := map (fun '(i, c) => (base + i, c)) (enumerate (slice lines a b)) in
  map fst entries = seqZ (a + 1) (b - a)
  /\ Forall (fun '(n, c) => lines !! Z.to_nat (n - 1) = Some c) entries.
Proof.
  intros Ha Hb -> entries. subst entries.
  rewrite <- take_drop_slice by lia. unfold len in Hb.
  assert (Hgen : forall (m : nat) (k : nat) c0,
            (k + m <= length lines)%nat -> c0 = Z.of_nat k - a ->
            map fst (map (fun '(i, c) => (a + 1 + i, c))
                         (enumerate_from c0 (take m (drop k lines))))
            = seqZ (Z.of_nat k + 1) (Z.of_nat m)
            /\ Forall (fun '(n, c) => lines !! Z.to_nat (n - 1) = Some c)
                      (map (fun '(i, c) => (a + 1 + i, c))
                           (enumerate_from c0 (take m (drop k lines))))).
  { induction m as [|m IH]; intros k c0 Hk ->.
    - rewrite take_0. cbn. split; [done | constructor].
    - destruct (lookup_lt_is_Some_2 lines k) as [x Hx]; [lia|].
      rewrite (drop_S _ _ _ Hx). cbn [take enumerate_from map].
      destruct (IH (S k) (Z.of_nat k - a + 1)) as [Hfst Hall]; [lia | lia|].
      split.
      + rewrite seqZ_cons by lia. f_equal; [cbn; lia|].
        rewrite Hfst. f_equal; lia.
      + constructor; [|done].
        replace (Z.to_nat (a + 1 + (Z.of_nat k - a) - 1)) with k by lia. done. }
  destruct (Hgen (Z.to_nat (b - a)) (Z.to_nat a) 0) as [Hfst Hall]; [lia | lia|].
  unfold enumerate. split; [|done].
  rewrite Hfst. f_equal; lia.
Qed.

Section Searchers.
Context {World : Type}.
Variable run_template : chart -> World -> HelmResult * World.

(** X23. The line numbers that the JSON report puts on the lines of a
    line error are right, for any renderer: after a line bisection that
    found failing line [n], the failing entry is line [n] with its
    content, the context before is numbered up to [n - 1] and the context
    after from [n + 1], one by one, and every entry holds the line of the
    document that its number names.  For a result without a failing line
    the failing entry has no line and no content, and both contexts are
    empty. *)
Theorem json_lines_are_numbered_right (t : ParsedTemplate) (e : Env World) :
  let lines := PyStr.splitlines false (original_content t) in
  exists r e',
    LineBinarySearcher_search run_template t e = Some (r, e')
    /\ (forall n, failing_line r = Some n ->
          exists c cb ca,
            JsonReporter.failing_lines r = [(Some n, c)]
            /\ lines !! Z.to_nat (n - 1) = Some c
            /\ JsonReporter.context_before_entries r = Some cb
            /\ map fst cb = seqZ (n - len cb) (len cb)
            /\ Forall (fun '(m, c) => lines !! Z.to_nat (m - 1) = Some c) cb
            /\ JsonReporter.context_after_entries r = Some ca
            /\ map fst ca = seqZ (n + 1) (len ca)
            /\ Forall (fun '(m, c) => lines !! Z.to_nat (m - 1) = Some c) ca)
    /\ (failing_line r = None ->
        JsonReporter.failing_lines r = [(None, [])]
        /\ JsonReporter.context_before_entries r = Some []
        /\ JsonReporter.context_after_entries r = Some []).
Proof.
  intros lines.
  destruct (decide (total_lines t = 0)) as [H0|Hne].
  { unfold LineBinarySearcher_search. rewrite H0. cbn. eexists _, _.
    split; [done|]. split; done. }
  pose proof (line_search_exact run_template t e Hne) as Hrun. cbv zeta in Hrun.
  fold lines in Hrun.
  set (res := bisection _ _ _ _ _ _) in *.
  destruct (res.1.1.2) as [fl|] eqn:Hfl.
  - destruct Hrun as (Hn & _ & c & Hc & Hrun).
    eexists _, _. split; [exact Hrun|]. split; [|done].
    cbn [failing_line]. intros n [= <-].
    unfold JsonReporter.failing_lines, JsonReporter.context_before_entries,
      JsonReporter.context_after_entries.
    cbn [failing_line failing_content context_before context_after default].
    rewrite (mapM_total _ (fun '(i, c) =>
               (fl - len (slice lines (Z.max 0 (fl - 4)) (fl - 1)) + i, c)))
      by (by intros []).
    rewrite (mapM_total _ (fun '(i, c) => (fl + 1 + i, c))) by (by intros []).
    assert (Hlb : len (slice lines (Z.max 0 (fl - 4)) (fl - 1))
                  = fl - 1 - Z.max 0 (fl - 4)).
    { rewrite <- take_drop_slice by lia. unfold len in *.
      rewrite length_take, length_drop. lia. }
    assert (Hla : len (slice lines fl (fl + 3)) = Z.min (len lines) (fl + 3) - fl).
    { rewrite <- take_drop_slice by lia. unfold len in *.
      rewrite length_take, length_drop. lia. }
    destruct (numbered_slice lines (Z.max 0 (fl - 4)) (fl - 1)
                (fl - len (slice lines (Z.max 0 (fl - 4)) (fl - 1))))
      as [Hb1 Hb2]; [lia | lia | lia |].
    destruct (numbered_slice lines fl (Z.min (len lines) (fl + 3)) (fl + 1))
      as [Ha1 Ha2]; [lia | lia | lia |].
    assert (Hsl : slice lines fl (Z.min (len lines) (fl + 3)) = slice lines fl (fl + 3)).
    { rewrite <- !take_drop_slice by lia. unfold len in *.
      destruct (Z.le_gt_cases (fl + 3) (Z.of_nat (length lines))).
      - by rewrite Z.min_r by lia.
      - rewrite Z.min_l by lia.
        rewrite !take_ge; [done | rewrite length_drop; lia | rewrite length_drop; lia]. }
    rewrite Hsl in Ha1, Ha2.
    eexists c, _, _. split; [done|]. split; [done|].
    split; [done|]. split.
    { rewrite Hb1. unfold len. rewrite length_map.
      unfold enumerate. rewrite length_enumerate_from.
      fold (len (slice lines (Z.max 0 (fl - 4)) (fl - 1))). rewrite Hlb.
      f_equal; lia. }
    split; [exact Hb2|]. split; [done|]. split; [|exact Ha2].
    rewrite Ha1. unfold len at 2. rewrite length_map.
    unfold enumerate. rewrite length_enumerate_from.
    fold (len (slice lines fl (fl + 3))). rewrite Hla. done.
  - eexists _, _. split; [exact Hrun|]. cbn. split; done.
Qed.
End Searchers.

Lemma json_lines_are_numbered_right_witness :
  exists r e',
    LineBinarySearcher_search Examples.refuses_bad AgreementExamples.bad_second
      Examples.start = Some (r, e')
    /\ failing_line r = Some 2
    /\ JsonReporter.context_before_entries r = Some [(1, of_string "k: v")]
    /\ JsonReporter.context_after_entries r = Some [(3, of_string "k: v")].
Proof.
  destruct (json_lines_are_numbered_right Examples.refuses_bad AgreementExamples.bad_second
              Examples.start) as (r & e' & Hrun & Hctx).
  assert (Hr : failing_line r = Some 2
               /\ JsonReporter.context_before_entries r = Some [(1, of_string "k: v")]
               /\ JsonReporter.context_after_entries r = Some [(3, of_string "k: v")]).
  { pose proof Hrun as Hsome. vm_compute in Hsome. injection Hsome as <- _.
    repeat split; reflexivity. }
  exists r, e'. split; [assumption | exact Hr].
Defined.

End JsonFacts.

(** ** Linear search and bisection *)

Module LinearFacts.
Import Parser Executor LineSearcher Trail SearchFacts SearcherFacts TrailFacts.
Import ContextFacts.

Section Searchers.
Context {World : Type}.
Variable run_template : chart -> World -> HelmResult * World.

(** The loop of [StepByStepSearcher.search] against a monotone oracle. *)
Lemma block_step_loop_monotone t start_from k (m : nat) i prev steps
    (e : Env World) :
  (forall c w, 0 <= c < len (blocks t) ->
     success (run_template (block_chart t c) w).1 = (c <? k)) ->
  0 <= i <= k -> k < i + Z.of_nat m <= len (blocks t) -> prev = i - 1 ->
  exists r e',
    Searcher.step_loop run_template t start_from (seqZ i (Z.of_nat m)) prev steps e
    = Some (r, e')
    /\ Searcher.found_error r = true
    /\ Searcher.failing_block_index r = Some k
    /\ Searcher.failing_block r = blocks t !! Z.to_nat k
    /\ Searcher.last_successful_block_index r = (if 0 <? k then Some (k - 1) else None)
    /\ len (Searcher.steps r) = len steps + (k - i + 1).
Proof.
  intros Hmono. revert i prev steps e.
  induction m as [|m IH]; intros i prev steps e Hi Hm ->; [lia|].
  rewrite seqZ_cons by lia. cbn [Searcher.step_loop].
  cbv [mbind M_bind bind lift].
  destruct (execute_up_to_block run_template t i e) as [x e1] eqn:Hx.
  assert (Hs : success x = (i <? k)).
  { pose proof (run_result run_template (block_chart t i) e) as Hr.
    unfold execute_up_to_block, execute_with_blocks in Hx. unfold block_chart in Hr.
    rewrite Hx in Hr. cbn [fst] in Hr. rewrite Hr. apply Hmono. lia. }
  rewrite Hs. destruct (i <? k) eqn:Hik.
  - apply Z.ltb_lt in Hik.
    replace (Z.succ i) with (i + 1) by lia.
    replace (Z.pred (Z.of_nat (S m))) with (Z.of_nat m) by lia.
    destruct (IH (i + 1) i
                (steps ++ [Searcher.mkSearchStep (i - start_from + 1)
                             (Searcher.tested i) x (Some i)]) e1)
      as (r & e' & Hrun & Hf & Hfi & Hfb & Hlast & Hlen); [lia | lia | lia |].
    exists r, e'. split; [done|]. repeat (split; [done|]).
    rewrite Hlen. unfold len. rewrite length_app. cbn [length]. lia.
  - apply Z.ltb_ge in Hik. assert (i = k) as -> by lia.
    unfold getitem. rewrite (proj2 (Z.leb_le 0 k)) by lia.
    destruct (lookup_lt_is_Some_2 (blocks t) (Z.to_nat k)) as [b Hb];
      [unfold len in Hm; lia|].
    cbv [try_]. rewrite Hb. eexists _, _. split; [done|].
    cbn [Searcher.found_error Searcher.failing_block_index Searcher.failing_block
         Searcher.last_successful_block_index Searcher.steps].
    split; [done|]. split; [done|]. split; [done|]. split.
    + destruct (0 <=? k - 1) eqn:H1, (0 <? k) eqn:H2; try done; lia.
    + unfold len. rewrite length_app. cbn [length]. lia.
Qed.

(** The loop of [LineStepByStepSearcher.search] against a monotone
    oracle. *)
Lemma line_step_loop_monotone t start_line k (m : nat) i prev last_result acc
    (e : Env World) :
  let lines := PyStr.splitlines false (original_content t) in
  (forall c w, 1 <= c <= total_lines t ->
     success (run_template (line_chart t c) w).1 = (c <? k)) ->
  1 <= i <= k -> k < i + Z.of_nat m <= total_lines t + 1 -> prev = i - 1 ->
  exists r e',
    LineSearcher.step_loop run_template t start_line (seqZ i (Z.of_nat m)) prev
                           last_result acc e
    = Some (r, e')
    /\ found_error r = true
    /\ failing_line r = Some k
    /\ failing_content r = lines !! Z.to_nat (k - 1)
    /\ context_before r = slice lines (Z.max 0 (k - 4)) (k - 1)
    /\ context_after r = slice lines k (k + 3)
    /\ last_successful_line r = (if 1 <? k then Some (k - 1) else None)
    /\ len (steps r) = len acc + (k - i + 1).
Proof.
  intros lines Hmono. revert i prev last_result acc e.
  induction m as [|m IH]; intros i prev last_result acc e Hi Hm ->; [lia|].
  rewrite seqZ_cons by lia. cbn [LineSearcher.step_loop].
  cbv [mbind M_bind bind lift].
  destruct (execute_up_to_line run_template t i e) as [x e1] eqn:Hx.
  assert (Hs : success x = (i <? k)).
  { pose proof (run_result run_template (line_chart t i) e) as Hr.
    unfold execute_up_to_line in Hx. unfold line_chart in Hr.
    rewrite Hx in Hr. cbn [fst] in Hr. rewrite Hr. apply Hmono. lia. }
  rewrite Hs. destruct (i <? k) eqn:Hik.
  - apply Z.ltb_lt in Hik.
    replace (Z.succ i) with (i + 1) by lia.
    replace (Z.pred (Z.of_nat (S m))) with (Z.of_nat m) by lia.
    destruct (IH (i + 1) i (Some x)
                (acc ++ [mkLineSearchStep (i - start_line + 1) (tested i) x (Some i)])
                e1)
      as (r & e' & Hrun & Hf & Hfl & Hfc & Hcb & Hca & Hlast & Hlen);
      [lia | lia | lia |].
    exists r, e'. split; [done|]. repeat (split; [done|]).
    rewrite Hlen. unfold len. rewrite length_app. cbn [length]. lia.
  - apply Z.ltb_ge in Hik. assert (i = k) as -> by lia.
    assert (Hn : 1 <= k <= len lines).
    { subst lines. rewrite <- total_lines_len. lia. }
    fold lines. cbv [try_]. rewrite content_at_line by done.
    destruct (lookup_lt_is_Some_2 lines (Z.to_nat (k - 1))) as [c Hc];
      [unfold len in Hn; lia|].
    rewrite Hc, before_slice, after_slice by lia.
    eexists _, _. split; [done|].
    cbn [found_error failing_line failing_content context_before context_after
         last_successful_line steps].
    repeat (split; [done|]). split.
    + destruct (0 <? k - 1) eqn:H1, (1 <? k) eqn:H2; try done; lia.
    + unfold len. rewrite length_app. cbn [length]. lia.
Qed.

(** X24. Against a monotone oracle, where the probe of the blocks up to
    [m] passes exactly when [m < k] and the chart on disk fails, the
    linear search from the first block and bisection give the same
    verdict, the failing block [k] and the last good block [k - 1]; the
    linear search gets there in exactly [k + 1] steps. *)
Theorem linear_block_search_agrees (t : ParsedTemplate) (k : Z) (e e0 : Env World) :
  0 <= k < len (blocks t) ->
  (forall w, success (run_template OriginalChart w).1 = false) ->
  (forall m w, 0 <= m < len (blocks t) ->
     success (run_template (block_chart t m) w).1 = (m <? k)) ->
  exists rb eb rl el,
    Searcher.BinarySearcher_search run_template t e = Some (rb, eb)
    /\ Searcher.StepByStepSearcher_search run_template t 0 e0 = Some (rl, el)
    /\ Searcher.found_error rl = true
    /\ Searcher.found_error rb = true
    /\ Searcher.failing_block_index rl = Some k
    /\ Searcher.failing_block_index rb = Some k
    /\ Searcher.failing_block rl = Searcher.failing_block rb
    /\ Searcher.last_successful_block_index rl = Searcher.last_successful_block_index rb
    /\ len (Searcher.steps rl) = k + 1.
Proof.
  intros Hk Hfull Hmono.
  assert (Hne : blocks t <> []).
  { intros Hnil. rewrite Hnil in Hk. unfold len in Hk. simpl in Hk. lia. }
  (* bisection *)
  destruct (block_search_cases run_template t e)
    as [[Hnil _]|[(_ & Hpass & _)|(_ & _ & Hrun)]];
    [done | by rewrite Hfull in Hpass |].
  cbv zeta in Hrun.
  destruct (bisection_monotone (execute_up_to_block run_template t) 0
              (len (blocks t) - 1) (-1) None (run run_template OriginalChart e).2 k)
    as [Hl Hf]; [|lia|lia|].
  { intros m e1 Hm. unfold execute_up_to_block, execute_with_blocks.
    rewrite run_result. apply Hmono. lia. }
  set (res := bisection _ _ _ _ _ _) in *. rewrite Hf in Hrun.
  destruct (decide (k <= len (blocks t) - 1)); [|lia].
  destruct Hrun as (b & Hb & Hrun).
  (* linear search *)
  destruct (block_step_loop_monotone t 0 k (Z.to_nat (len (blocks t))) 0 (-1) [] e0)
    as (rl & el & Hlin & Hfl & Hfil & Hfbl & Hlastl & Hlenl); [done|lia|lia|lia|].
  eexists _, _, rl, el. split; [exact Hrun|]. split.
  { unfold Searcher.StepByStepSearcher_search.
    assert (Hie : is_empty (blocks t) = false) by by destruct (blocks t).
    rewrite Hie. unfold range. rewrite Z.sub_0_r.
    rewrite Z2Nat.id in Hlin by (unfold len; lia). exact Hlin. }
  cbn [Searcher.found_error Searcher.failing_block_index Searcher.failing_block
       Searcher.last_successful_block_index].
  split; [done|]. split; [done|]. split; [done|]. split; [done|].
  split.
  { rewrite Hfbl. unfold getitem in Hb. rewrite (proj2 (Z.leb_le 0 k)) in Hb by lia.
    done. }
  split.
  { rewrite Hlastl, Hl.
    destruct (0 <=? k - 1) eqn:H1, (0 <? k) eqn:H2; try done; lia. }
  rewrite Hlenl. unfold len. cbn [length]. lia.
Qed.

(** X25. The same at line granularity: where the probe cut at line [m]
    passes exactly when [m < k], the linear search from line 1 and
    bisection report the same failing line [k], the same content and
    context, and the same last good line; the linear search takes
    exactly [k] steps. *)
Theorem linear_line_search_agrees (t : ParsedTemplate) (k : Z) (e e0 : Env World) :
  1 <= k <= total_lines t ->
  (forall m w, 1 <= m <= total_lines t ->
     success (run_template (line_chart t m) w).1 = (m <? k)) ->
  exists rb eb rl el,
    LineBinarySearcher_search run_template t e = Some (rb, eb)
    /\ LineStepByStepSearcher_search run_template t 1 e0 = Some (rl, el)
    /\ found_error rl = true
    /\ found_error rb = true
    /\ failing_line rl = Some k
    /\ failing_line rb = Some k
    /\ failing_content rl = failing_content rb
    /\ context_before rl = context_before rb
    /\ context_after rl = context_after rb
    /\ last_successful_line rl = last_successful_line rb
    /\ len (steps rl) = k.
Proof.
  intros Hk Hmono.
  assert (Hne : total_lines t <> 0) by lia.
  pose proof (line_search_exact run_template t e Hne) as Hrun. cbv zeta in Hrun.
  destruct (bisection_monotone (execute_up_to_line run_template t) 1
              (total_lines t) 0 None e k) as [Hl Hf]; [|lia|lia|].
  { intros m e1 Hm. unfold execute_up_to_line. rewrite run_result. by apply Hmono. }
  set (res := bisection _ _ _ _ _ _) in *. rewrite Hf in Hrun.
  destruct (decide (k <= total_lines t)); [|lia].
  destruct Hrun as (_ & _ & c & Hc & Hrun).
  destruct (line_step_loop_monotone t 1 k (Z.to_nat (total_lines t)) 1 0 None [] e0)
    as (rl & el & Hlin & Hfl & Hfll & Hfc & Hcb & Hca & Hlastl & Hlenl);
    [done|lia|lia|lia|].
  eexists _, _, rl, el. split; [exact Hrun|]. split.
  { unfold LineStepByStepSearcher_search.
    rewrite (proj2 (Z.eqb_neq _ _) Hne). unfold range.
    rewrite Z2Nat.id in Hlin by lia.
    by replace (total_lines t + 1 - 1) with (total_lines t) by lia. }
  cbn [found_error failing_line failing_content context_before context_after
       last_successful_line].
  split; [done|]. split; [done|]. split; [done|]. split; [done|].
  split; [by rewrite Hfc, Hc|]. split; [done|]. split; [done|].
  split.
  { rewrite Hlastl, Hl.
    destruct (0 <? k - 1) eqn:H1, (1 <? k) eqn:H2; try done; lia. }
  rewrite Hlenl. unfold len. cbn [length]. lia.
Qed.

(** X26. The linear searches raise [IndexError] when they are started
    too far below the document and the first probe fails: the block
    search from an index below [-len(blocks)], the line search from a
    line at or below [-len(lines)]. *)
Theorem linear_search_raises_below_the_document (t : ParsedTemplate) (start : Z)
    (e : Env World) :
  (blocks t <> [] -> start < - len (blocks t) ->
   success (run_template (block_chart t start) (world e)).1 = false ->
   Searcher.StepByStepSearcher_search run_template t start e = None)
  /\ (total_lines t <> 0 -> start <= - total_lines t ->
      success (run_template (line_chart t start) (world e)).1 = false ->
      LineStepByStepSearcher_search run_template t start e = None).
Proof.
  split.
  - intros Hne Hstart Hfail.
    unfold Searcher.StepByStepSearcher_search.
    assert (Hie : is_empty (blocks t) = false) by by destruct (blocks t).
    rewrite Hie.
    assert (0 <= len (blocks t)) by (unfold len; lia).
    unfold range. rewrite seqZ_cons by lia. cbn [Searcher.step_loop].
    cbv [mbind M_bind bind lift].
    destruct (execute_up_to_block run_template t start e) as [x e1] eqn:Hx.
    pose proof (run_result run_template (block_chart t start) e) as Hr.
    unfold execute_up_to_block, execute_with_blocks in Hx.
    unfold block_chart in Hr, Hfail.
    rewrite Hx in Hr. cbn [fst] in Hr. rewrite Hr, Hfail.
    unfold getitem. rewrite !(proj2 (Z.leb_gt _ _)) by lia. done.
  - intros Hne Hstart Hfail.
    unfold LineStepByStepSearcher_search.
    rewrite (proj2 (Z.eqb_neq _ _) Hne).
    assert (Hlen : 0 < total_lines t).
    { rewrite total_lines_len in *. unfold len in *. lia. }
    unfold range. rewrite seqZ_cons by lia. cbn [LineSearcher.step_loop].
    cbv [mbind M_bind bind lift].
    destruct (execute_up_to_line run_template t start e) as [x e1] eqn:Hx.
    pose proof (run_result run_template (line_chart t start) e) as Hr.
    unfold execute_up_to_line in Hx. unfold line_chart in Hr, Hfail.
    rewrite Hx in Hr. cbn [fst] in Hr. rewrite Hr, Hfail.
    rewrite total_lines_len in *.
    unfold content_at. rewrite (proj2 (Z.leb_le start _)) by lia.
    unfold getitem. rewrite !(proj2 (Z.leb_gt _ _)) by lia. done.
Qed.
End Searchers.

Lemma linear_block_search_agrees_witness :
  let t := AgreementExamples.bad_second in
  0 <= 1 < len (blocks t)
  /\ exists rb eb rl el,
       Searcher.BinarySearcher_search Examples.refuses_bad t Examples.start = Some (rb, eb)
       /\ Searcher.StepByStepSearcher_search Examples.refuses_bad t 0 Examples.start
          = Some (rl, el)
       /\ Searcher.failing_block_index rl = Some 1
       /\ Searcher.failing_block_index rb = Some 1
       /\ Searcher.last_successful_block_index rl
          = Searcher.last_successful_block_index rb
       /\ len (Searcher.steps rl) = 1 + 1.
Proof.
  intros t.
  assert (Hlen : len (blocks t) = 3) by reflexivity.
  assert (Hk : 0 <= 1 < len (blocks t)) by (rewrite Hlen; lia).
  split; [exact Hk|].
  destruct (linear_block_search_agrees Examples.refuses_bad t 1 Examples.start
              Examples.start Hk)
    as (rb & eb & rl & el & Hb & Hl & _ & _ & Hfl & Hfb & _ & Hlast & Hsteps).
  - intros []. reflexivity.
  - intros m [] Hm. rewrite Hlen in Hm.
    assert (Hcases : m = 0 \/ m = 1 \/ m = 2) by lia.
    destruct Hcases as [->|[->| ->]]; reflexivity.
  - exists rb, eb, rl, el. repeat split; assumption.
Defined.

Lemma linear_line_search_agrees_witness :
  let t := AgreementExamples.bad_second in
  1 <= 2 <= total_lines t
  /\ exists rb eb rl el,
       LineBinarySearcher_search Examples.refuses_bad t Examples.start = Some (rb, eb)
       /\ LineStepByStepSearcher_search Examples.refuses_bad t 1 Examples.start
          = Some (rl, el)
       /\ failing_line rl = Some 2
       /\ failing_line rb = Some 2
       /\ context_before rl = context_before rb
       /\ len (steps rl) = 2.
Proof.
  intros t.
  assert (Hlen : total_lines t = 3) by reflexivity.
  assert (Hk : 1 <= 2 <= total_lines t) by (rewrite Hlen; lia).
  split; [exact Hk|].
  destruct (linear_line_search_agrees Examples.refuses_bad t 2 Examples.start
              Examples.start Hk)
    as (rb & eb & rl & el & Hb & Hl & _ & _ & Hfl & Hfb & _ & Hcb & _ & _ & Hsteps).
  - intros m [] Hm. rewrite Hlen in Hm.
    assert (Hcases : m = 1 \/ m = 2 \/ m = 3) by lia.
    destruct Hcases as [->|[->| ->]]; reflexivity.
  - exists rb, eb, rl, el. repeat split; assumption.
Defined.

Lemma linear_search_raises_below_the_document_witness :
  let t := Examples.three_lines in
  (blocks t <> [] /\ -4 < - len (blocks t)
   /\ Searcher.StepByStepSearcher_search SearchExamples.always_fails t (-4) Examples.start
      = None)
  /\ (total_lines t <> 0 /\ -3 <= - total_lines t
      /\ LineStepByStepSearcher_search SearchExamples.always_fails t (-3) Examples.start
         = None).
Proof.
  intros t.
  assert (Hb : blocks t <> []) by (vm_compute; discriminate).
  assert (Hs : -4 < - len (blocks t)) by (vm_compute; reflexivity).
  assert (Hl : total_lines t <> 0) by (vm_compute; discriminate).
  assert (Hs' : -3 <= - total_lines t) by (vm_compute; discriminate).
  split.
  - split; [exact Hb|]. split; [exact Hs|].
    exact (proj1 (linear_search_raises_below_the_document SearchExamples.always_fails
                    t (-4) Examples.start) Hb Hs eq_refl).
  - split; [exact Hl|]. split; [exact Hs'|].
    exact (proj2 (linear_search_raises_below_the_document SearchExamples.always_fails
                    t (-3) Examples.start) Hl Hs' eq_refl).
Defined.

End LinearFacts.

(** ** One searcher for the mode *)

Module FindErrorFacts.
Import Parser Executor Searcher MultiFile.
Import Trail Verdict SearchFacts SearcherFacts TrailFacts.

Section Searchers.
Context {World : Type}.
Variable run_template : chart -> World -> HelmResult * World.

Lemma step_loop_reports pure t start_from (m : nat) i prev acc (e : Env World) :
  0 <= i -> ((0 < m)%nat -> i + Z.of_nat m <= len (blocks t)) ->
  exists r e',
    step_loop run_template t start_from (seqZ i (Z.of_nat m)) prev acc e = Some (r, e')
    /\ reports pure t r.
Proof.
  revert i prev acc e. induction m as [|m IH]; intros i prev acc e Hi Hm.
  - cbn. eexists _, _. split; [done|]. by split.
  - rewrite seqZ_cons by lia. cbn [step_loop]. cbv [mbind M_bind bind lift].
    destruct (execute_up_to_block run_template t i e) as [x e1].
    replace (Z.succ i) with (i + 1) by lia.
    replace (Z.pred (Z.of_nat (S m))) with (Z.of_nat m) by lia.
    destruct (success x) eqn:Hs.
    + apply IH; lia.
    + unfold getitem. rewrite (proj2 (Z.leb_le 0 i)) by lia.
      destruct (lookup_lt_is_Some_2 (blocks t) (Z.to_nat i)) as [b Hb];
        [unfold len in Hm; lia|].
      cbv [try_]. rewrite Hb. eexists _, _. split; [done|].
      split; [done|]. cbn [found_error]. exists i, b, x.
      split; [lia|]. done.
Qed.

(** X27. [find_error] returns, in either mode and for any renderer.  A
    reported error comes with the index of a block of the template and
    that block itself, and with a result of the renderer; against a
    renderer whose answer depends on the chart alone, that result
    failed.  When no error is reported there is no failing block and no
    error result. *)
Theorem find_error_reports (mode : SearchMode) (t : ParsedTemplate) (e : Env World) :
  exists r e',
    find_error run_template t mode e = Some (r, e')
    /\ template r = Some t
    /\ if found_error r
       then exists fi b er,
              0 <= fi < len (blocks t)
              /\ failing_block_index r = Some fi
              /\ failing_block r = Some b
              /\ blocks t !! Z.to_nat fi = Some b
              /\ error_result r = Some er
              /\ ((forall c w w', (run_template c w).1 = (run_template c w').1) ->
                  success er = false)
       else failing_block r = None /\ failing_block_index r = None
            /\ error_result r = None.
Proof.
  change (exists r e',
            find_error run_template t mode e = Some (r, e')
            /\ reports (forall c w w', (run_template c w).1 = (run_template c w').1)
                       t r).
  destruct mode; cbn [find_error].
  - destruct (block_search_cases run_template t e)
      as [[_ Hrun]|[(_ & _ & Hrun)|(Hne & _ & Hrun)]].
    + eexists _, _. split; [exact Hrun|]. by split.
    + eexists _, _. split; [exact Hrun|]. by split.
    + cbv zeta in Hrun.
      set (e1 := (run run_template OriginalChart e).2) in *.
      assert (Hlen : 0 < len (blocks t)).
      { unfold len. destruct (blocks t); [done | simpl; lia]. }
      pose proof (bisection_gap (execute_up_to_block run_template t) 0
                    (len (blocks t) - 1) (-1) None e1 ltac:(lia) ltac:(lia))
        as [Hlg Hgap].
      pose proof (bisection_seen (execute_up_to_block run_template t) 0
                    (len (blocks t) - 1) (-1) None e1) as [_ Hsf].
      pose proof (bisection_results (execute_up_to_block run_template t) 0
                    (len (blocks t) - 1) (-1) None e1) as Hres.
      cbv zeta in Hres.
      set (res := bisection _ _ _ _ _ _) in *.
      destruct (res.1.1.2) as [fi|] eqn:Hfi.
      * destruct Hrun as (b & Hb & Hrun). eexists _, _. split; [exact Hrun|].
        split; [done|]. cbn [found_error].
        destruct Hgap as [[? _]|[[= Hfi'] Hlt]]; [done|].
        exists fi, b, (execute_up_to_block run_template t fi res.2).1.
        split; [lia|]. split; [done|]. split; [done|]. split.
        { unfold getitem in Hb. by rewrite (proj2 (Z.leb_le 0 fi)) in Hb by lia. }
        split; [done|]. intros Hpure.
        destruct Hsf as [?|(fi' & r & [= <-] & Hin & Hr)]; [done|].
        rewrite Forall_forall in Hres. destruct (Hres _ Hin) as [e0 He0].
        cbn [fst snd] in He0. rewrite <- Hr, He0.
        unfold execute_up_to_block, execute_with_blocks. rewrite !run_result.
        f_equal. apply Hpure.
      * eexists _, _. split; [exact Hrun|]. by split.
  - unfold StepByStepSearcher_search. destruct (is_empty (blocks t)).
    + eexists _, _. split; [done|]. by split.
    + unfold range. rewrite Z.sub_0_r.
      replace (len (blocks t)) with (Z.of_nat (length (blocks t))) by done.
      apply step_loop_reports; [lia | unfold len; lia].
Qed.
End Searchers.

Lemma find_error_reports_witness :
  (forall c w w', (Examples.refuses_bad c w).1 = (Examples.refuses_bad c w').1)
  /\ exists r e' er,
       find_error Examples.refuses_bad AgreementExamples.bad_second BINARY Examples.start
       = Some (r, e')
       /\ template r = Some AgreementExamples.bad_second
       /\ found_error r = true
       /\ error_result r = Some er
       /\ success er = false.
Proof.
  assert (H : forall c w w', (Examples.refuses_bad c w).1 = (Examples.refuses_bad c w').1)
    by (intros c [] []; reflexivity).
  split; [exact H|].
  destruct (find_error_reports Examples.refuses_bad BINARY AgreementExamples.bad_second
              Examples.start) as (r & e' & Hrun & Ht & Hrep).
  assert (Hf : found_error r = true).
  { pose proof Hrun as Hsome. vm_compute in Hsome. injection Hsome as <- _. reflexivity. }
  rewrite Hf in Hrep. destruct Hrep as (fi & b & er & _ & _ & _ & _ & Her & Hfail).
  exists r, e', er. split; [assumption|]. split; [assumption|].
  split; [assumption|]. split; [assumption|]. exact (Hfail H).
Defined.

End FindErrorFacts.

(** ** All the files of a chart *)

Module MultiFileFacts.
Import Parser Executor Searcher Chart MultiFile.
Import Trail SearchFacts SearcherFacts TrailFacts.

Lemma size_list_to_set_le (l : list str) :
  (size (list_to_set l : gset str) <= length l)%nat
  /\ (size (list_to_set l : gset str) = length l -> NoDup l).
Proof.
  induction l as [|x l [IHle IHnd]]; cbn [list_to_set length].
  - split; [by rewrite size_empty | constructor].
  - destruct (decide (x ∈ l)) as [Hin|Hnin].
    + replace ({[x]} ∪ list_to_set l : gset str) with (list_to_set l : gset str).
      * split; [lia|]. intros Heq. lia.
      * apply set_eq. intros y. rewrite elem_of_union, elem_of_singleton.
        split; [by right|]. intros [->|?]; [|done]. by apply elem_of_list_to_set.
    + rewrite size_union by (apply disjoint_singleton_l; by rewrite elem_of_list_to_set).
      rewrite size_singleton. split; [lia|].
      intros Heq. constructor; [done|]. apply IHnd. lia.
Qed.

Section Searchers.
Context {World : Type}.
Variable run_template : chart -> World -> HelmResult * World.
Variable name : path -> str.

Lemma block_search_total t (e : Env World) :
  exists r e',
    BinarySearcher_search run_template t e = Some (r, e') /\ template r = Some t.
Proof.
  destruct (block_search_cases run_template t e)
    as [[_ Hrun]|[(_ & _ & Hrun)|(_ & _ & Hrun)]].
  - eexists _, _. split; [exact Hrun | done].
  - eexists _, _. split; [exact Hrun | done].
  - cbv zeta in Hrun. destruct (bisection _ _ _ _ _ _).1.1.2.
    + destruct Hrun as (b & _ & Hrun). eexists _, _. split; [exact Hrun | done].
    + eexists _, _. split; [exact Hrun | done].
Qed.

Lemma step_search_total t (e : Env World) :
  exists r e',
    StepByStepSearcher_search run_template t 0 e = Some (r, e') /\ template r = Some t.
Proof.
  unfold StepByStepSearcher_search. destruct (is_empty (blocks t)).
  - by eexists _, _.
  - unfold range. rewrite Z.sub_0_r.
    replace (len (blocks t)) with (Z.of_nat (length (blocks t))) by done.
    destruct (FindErrorFacts.step_loop_reports run_template True t 0 (length (blocks t)) 0
                (-1) [] e) as (r & e' & Hrun & Ht & _); [lia | unfold len; lia|].
    by exists r, e'.
Qed.

Lemma files_loop_spec (mode : SearchMode) (todo : list ParsedTemplate)
    (results : gmap str SearchResult) (e : Env World) :
  exists (results' : gmap str SearchResult) (e' : Env World),
    files_loop run_template name mode todo results e = Some (results', e')
    /\ dom results' = dom results ∪ list_to_set (map (fun t => name (file_path t)) todo)
    /\ (forall k r, results' !! k = Some r ->
          results !! k = Some r
          \/ exists t, t ∈ todo /\ name (file_path t) = k /\ template r = Some t).
Proof.
  revert results e. induction todo as [|t todo IH]; intros results e.
  - exists results, e. split; [done|]. split; [|by left].
    cbn. by rewrite union_empty_r_L.
  - cbn [files_loop]. cbv [mbind M_bind bind].
    assert (Hsearch : exists r e1,
              match mode with
              | BINARY => BinarySearcher_search run_template t
              | STEP_BY_STEP => StepByStepSearcher_search run_template t 0
              end e = Some (r, e1) /\ template r = Some t).
    { destruct mode; [apply block_search_total | apply step_search_total]. }
    destruct Hsearch as (r & e1 & -> & Ht).
    destruct (IH (<[name (file_path t) := r]> results) e1)
      as (results' & e' & Hrun & Hdom & Hres).
    exists results', e'. split; [done|]. split.
    + rewrite Hdom, dom_insert_L. cbn [map list_to_set].
      rewrite (union_comm_L _ (dom results)). by rewrite union_assoc_L.
    + intros k r' Hk. destruct (Hres k r' Hk) as [Hins|(t' & Hin & Hn & Ht')].
      * destruct (decide (name (file_path t) = k)) as [<-|Hneq].
        -- rewrite lookup_insert_eq in Hins. injection Hins as <-.
           right. exists t. split; [left | done].
        -- rewrite lookup_insert_ne in Hins by done. by left.
      * right. exists t'. split; [by right | done].
Qed.

(** X28. [MultiFileSearcher.search] never raises, in either mode and for
    any renderer.  Its result has one entry for each file name among the
    templates, and the entry under a name is the result of a search of a
    template of that name.  Since the key is the file name alone, two
    templates of the same name in different directories share one entry:
    there are as many entries as files only if the names are all
    different. *)
Theorem multi_file_search_keys (mode : SearchMode) (c : ChartTemplates)
    (e : Env World) :
  let names := map (fun t => name (file_path t)) (templates c) in
  exists results e',
    MultiFileSearcher_search run_template name mode c e = Some (results, e')
    /\ dom results = list_to_set names
    /\ (forall k r, results !! k = Some r ->
          exists t, t ∈ templates c /\ name (file_path t) = k /\ template r = Some t)
    /\ Z.of_nat (size results) <= total_files c
    /\ (Z.of_nat (size results) = total_files c -> NoDup names).
Proof.
  intros names. unfold MultiFileSearcher_search.
  destruct (files_loop_spec mode (templates c) ∅ e)
    as (results & e' & Hrun & Hdom & Hres).
  exists results, e'. split; [done|].
  rewrite dom_empty_L, union_empty_l_L in Hdom. fold names in Hdom.
  split; [done|]. split.
  - intros k r Hk. destruct (Hres k r Hk) as [Hempty|?]; [|done].
    by rewrite lookup_empty in Hempty.
  - rewrite <- size_dom, Hdom. unfold total_files, len.
    replace (length (templates c)) with (length names)
      by (subst names; apply length_map).
    destruct (size_list_to_set_le names) as [Hle Hnd].
    split; [lia|]. intros Heq. apply Hnd. lia.
Qed.
End Searchers.

End MultiFileFacts.

(** ** The further properties on small inputs *)

Module MoreChecks.
Import Parser Executor LineSearcher Spec.
Import BlockOrder BisectionFacts ContextFacts.

Lemma blocks_hold_the_document_witness :
  forallb (fun l => negb (blank l)) (PyStr.splitlines true Examples.if_end) = true
  /\ PyStr.join (map content (_parse_content Examples.if_end [])) = Examples.if_end.
Proof.
  assert (H : forallb (fun l => negb (blank l)) (PyStr.splitlines true Examples.if_end)
              = true) by reflexivity.
  split; [exact H|].
  exact (proj2 (blocks_hold_the_document Examples.if_end []) H).
Defined.

Lemma block_bisection_probe_log_witness :
  exists r e',
    Searcher.BinarySearcher_search Examples.refuses_bad AgreementExamples.bad_second
      Examples.start = Some (r, e')
    /\ Searcher.found_error r = true
    /\ len (probed e') = len (probed Examples.start) + len (Searcher.steps r) + 2.
Proof.
  destruct (block_bisection_probe_log Examples.refuses_bad AgreementExamples.bad_second
              Examples.start) as (r & e' & Hrun & _ & Hlen).
  assert (Hf : Searcher.found_error r = true).
  { pose proof Hrun as Hsome. vm_compute in Hsome. injection Hsome as <- _. reflexivity. }
  exists r, e'. split; [assumption|]. split; [assumption|].
  exact (proj1 (Hlen Hf)).
Defined.

Lemma line_bisection_probe_log_witness :
  exists r e',
    LineBinarySearcher_search Examples.refuses_bad AgreementExamples.bad_second
      Examples.start = Some (r, e')
    /\ found_error r = true
    /\ len (probed e') = len (probed Examples.start) + len (steps r) + 1.
Proof.
  destruct (line_bisection_probe_log Examples.refuses_bad AgreementExamples.bad_second
              Examples.start) as (r & e' & Hrun & _ & Hlen).
  assert (Hf : found_error r = true).
  { pose proof Hrun as Hsome. vm_compute in Hsome. injection Hsome as <- _. reflexivity. }
  exists r, e'. split; [assumption|]. split; [assumption|].
  exact (proj1 (Hlen Hf)).
Defined.

Lemma block_bisection_evidence_witness :
  exists r e' s,
    Searcher.BinarySearcher_search Examples.refuses_bad AgreementExamples.bad_second
      Examples.start = Some (r, e')
    /\ Searcher.failing_block_index r = Some 1
    /\ s ∈ Searcher.steps r
    /\ Searcher.block_index s = Some 1
    /\ Searcher.passed s = false.
Proof.
  destruct (block_bisection_evidence Examples.refuses_bad AgreementExamples.bad_second
              Examples.start) as (r & e' & Hrun & _ & _ & Hfail & _).
  assert (Hfi : Searcher.failing_block_index r = Some 1).
  { pose proof Hrun as Hsome. vm_compute in Hsome. injection Hsome as <- _. reflexivity. }
  destruct (Hfail 1 Hfi) as [(s & Hs & Hidx & Hp) _].
  exists r, e', s. repeat split; assumption.
Defined.

Lemma line_bisection_evidence_witness :
  exists r e' s,
    LineBinarySearcher_search Examples.refuses_bad AgreementExamples.bad_second
      Examples.start = Some (r, e')
    /\ last_successful_line r = Some 1
    /\ s ∈ steps r
    /\ line_number s = Some 1
    /\ last_successful_result r = Some (result s).
Proof.
  destruct (line_bisection_evidence Examples.refuses_bad AgreementExamples.bad_second
              Examples.start) as (r & e' & Hrun & _ & _ & _ & Hgood).
  assert (Hg : last_successful_line r = Some 1).
  { pose proof Hrun as Hsome. vm_compute in Hsome. injection Hsome as <- _. reflexivity. }
  destruct (Hgood 1 Hg) as (s & Hs & Hidx & _ & Hres).
  exists r, e', s. repeat split; assumption.
Defined.

Lemma no_error_after_full_render_witness :
  total_lines Examples.three_lines <> 0
  /\ exists r e',
       LineBinarySearcher_search Examples.always_passes Examples.three_lines
         Examples.start = Some (r, e')
       /\ found_error r = false
       /\ Forall (fun s => passed s = true) (steps r).
Proof.
  assert (Hne : total_lines Examples.three_lines <> 0) by (vm_compute; discriminate).
  split; [exact Hne|].
  destruct (no_error_after_full_render Examples.always_passes Examples.three_lines
              Examples.start) as [(r & e' & Hrun & Hall) _].
  assert (Hf : found_error r = false).
  { pose proof Hrun as Hsome. vm_compute in Hsome. injection Hsome as <- _. reflexivity. }
  exists r, e'. split; [assumption|]. split; [assumption|].
  exact (proj1 (Hall Hf Hne)).
Defined.

Lemma failing_line_context_witness :
  exists r e',
    LineBinarySearcher_search Examples.refuses_bad AgreementExamples.bad_second
      Examples.start = Some (r, e')
    /\ failing_line r = Some 2
    /\ failing_content r = Some (of_string "bad")
    /\ context_before r = [of_string "k: v"].
Proof.
  destruct (failing_line_context Examples.refuses_bad AgreementExamples.bad_second
              Examples.start) as (r & e' & Hrun & Hctx & _).
  assert (Hfl : failing_line r = Some 2).
  { pose proof Hrun as Hsome. vm_compute in Hsome. injection Hsome as <- _. reflexivity. }
  destruct (Hctx 2 Hfl) as (_ & Hc & Hcb & _).
  exists r, e'. split; [assumption|]. split; [assumption|].
  split; [rewrite Hc | rewrite Hcb]; reflexivity.
Defined.

Lemma bisection_step_count_witness :
  total_lines AgreementExamples.bad_second <> 0
  /\ exists r e',
       LineBinarySearcher_search Examples.refuses_bad AgreementExamples.bad_second
         Examples.start = Some (r, e')
       /\ 2 <= len (steps r) <= 2.
Proof.
  assert (Hne : total_lines AgreementExamples.bad_second <> 0)
    by (vm_compute; discriminate).
  split; [exact Hne|].
  destruct (bisection_step_count Examples.refuses_bad AgreementExamples.bad_second
              Examples.start) as [_ (r & e' & Hrun & Hcount)].
  exists r, e'. split; [assumption|]. exact (Hcount Hne).
Defined.

End MoreChecks.
